(** * ncempy.io.mrc : reader and writer of MRC volume files

    A shallow embedding of [src/ncempy/io/mrc.py] (class [fileMRC],
    [mrcReader], [mrcWriter]) and the properties of its header codec.

    Conventions of the embedding
    - a file is the list of its bytes; the platform is little-endian, as
      the marker the writer puts at offset 212 says;
    - an int32 header word is a [Z] with the wrap-around written out;
    - a float32 / float64 is a [spec_float] of the Standard Library at
      precision 24 / 53 (NaN payloads are not tracked);
    - NumPy follows the promotion rules that were current when the module
      was written: a NumPy scalar combined with a Python scalar is
      computed in the default 64-bit type;
    - an exception is a value of [exn]; [print] appends to [stdout];
      the [verbose] output of [fileMRC] (guarded by [self.v]) only prints
      and is left out. *)

From Stdlib Require Import String DecimalString.
From Stdlib Require Import ZArith List Lia Bool Permutation.
From Stdlib Require Import Floats.SpecFloat.
From coqutil Require Import Byte Word.LittleEndianList.
Import ListNotations.
Local Open Scope Z_scope.

(** ** Fixed-width integers *)

Module Int.

(** Two's complement reading of the low [w] bits of [z]. *)
Definition wrap_signed (w : Z) (z : Z) : Z :=
  (z + 2 ^ (w - 1)) mod 2 ^ w - 2 ^ (w - 1).

(** [np.int32(n)] of a Python integer. *)
Definition np_int32 (z : Z) : Z := wrap_signed 32 z.

(** [np.int64] arithmetic, used by [np.prod] of an int32 array. *)
Definition np_int64 (z : Z) : Z := wrap_signed 64 z.

(** The bytes of an integer item in memory and on disk. *)
Definition tobytes (size : nat) (z : Z) : list byte := le_split size z.

Definition frombytes_unsigned (bs : list byte) : Z := le_combine bs.

Definition frombytes_signed (bs : list byte) : Z :=
  wrap_signed (8 * Z.of_nat (length bs)) (le_combine bs).

End Int.

(** ** IEEE 754 binary floats *)

Module Float.

(** Width of the fraction field and of the exponent field. *)
Record format := { mw : Z; ew : Z }.

Definition binary32 : format := {| mw := 23; ew := 8 |}.
Definition binary64 : format := {| mw := 52; ew := 11 |}.

Definition prec (f : format) : Z := mw f + 1.
Definition emax (f : format) : Z := 2 ^ (ew f - 1).
Definition bias (f : format) : Z := 2 ^ (ew f - 1) - 1.
Definition nbytes (f : format) : nat := Z.to_nat ((mw f + ew f + 1) / 8).

(** Reading a bit pattern. *)
Definition of_bits (f : format) (w : Z) : spec_float :=
  let s := Z.testbit w (mw f + ew f) in
  let e := Z.land (Z.shiftr w (mw f)) (Z.ones (ew f)) in
  let m := Z.land w (Z.ones (mw f)) in
  if e =? 0 then
    match m with
    | Zpos p => S754_finite s p (1 - bias f - mw f)
    | _ => S754_zero s
    end
  else if e =? Z.ones (ew f) then
    (if m =? 0 then S754_infinity s else S754_nan)
  else
    match m + 2 ^ mw f with
    | Zpos p => S754_finite s p (e - bias f - mw f)
    | _ => S754_nan
    end.

(** Writing a bit pattern; a NaN is written as the default quiet NaN. *)
Definition to_bits (f : format) (x : spec_float) : Z :=
  let sign (s : bool) := if s then 2 ^ (mw f + ew f) else 0 in
  match x with
  | S754_zero s => sign s
  | S754_infinity s => sign s + Z.shiftl (Z.ones (ew f)) (mw f)
  | S754_nan => Z.shiftl (Z.ones (ew f)) (mw f) + 2 ^ (mw f - 1)
  | S754_finite s m e =>
      if Zpos m <? 2 ^ mw f then sign s + Zpos m
      else sign s + Z.shiftl (e + bias f + mw f) (mw f) + (Zpos m - 2 ^ mw f)
  end.

Definition tobytes (f : format) (x : spec_float) : list byte :=
  le_split (nbytes f) (to_bits f x).

Definition frombytes (f : format) (bs : list byte) : spec_float :=
  of_bits f (le_combine bs).

(** Conversion of an integer, rounding to nearest even. *)
Definition of_Z (f : format) (z : Z) : spec_float :=
  binary_normalize (prec f) (emax f) z 0 false.

(** Conversion between formats (exact when widening). *)
Definition convert (f : format) (x : spec_float) : spec_float :=
  match x with
  | S754_finite s m e =>
      binary_normalize (prec f) (emax f) (cond_Zopp s (Zpos m)) e s
  | _ => x
  end.

Definition mul (f : format) := SFmul (prec f) (emax f).
Definition add (f : format) := SFadd (prec f) (emax f).
Definition div (f : format) := SFdiv (prec f) (emax f).
Definition leb := SFleb.
Definition ltb := SFltb.

Definition is_nan (x : spec_float) : bool :=
  match x with S754_nan => true | _ => false end.

(** [x == 1.0], whatever the format of [x]. *)
Definition is_one (x : spec_float) : bool :=
  match x with
  | S754_finite false m e => (e <=? 0) && (Zpos m =? 2 ^ (- e))
  | _ => false
  end.

(** Truth value of a float: [x != 0]; a NaN is true. *)
Definition nonzero (x : spec_float) : bool :=
  match x with S754_zero _ => false | _ => true end.

End Float.

(** ** Python: exceptions, sequences *)

Inductive exn :=
| IndexError | KeyError | ValueError | UnboundLocalError | TypeError | OSError
| AttributeError.

Inductive result (A : Type) :=
| Ok (a : A)
| Raise (e : exn).
Arguments Ok {A} a.
Arguments Raise {A} e.

(** [l[i]] with Python's negative indices; [IndexError] out of range. *)
Definition getitem {A} (l : list A) (i : Z) : result A :=
  let n := Z.of_nat (length l) in
  let j := if i <? 0 then i + n else i in
  if (0 <=? j) && (j <? n) then
    match nth_error l (Z.to_nat j) with
    | Some a => Ok a
    | None => Raise IndexError
    end
  else Raise IndexError.

(** [l[i] = v]. *)
Fixpoint set_nth {A} (l : list A) (i : nat) (v : A) : list A :=
  match l, i with
  | [], _ => []
  | _ :: t, O => v :: t
  | a :: t, S j => a :: set_nth t j v
  end.

Definition setitem {A} (l : list A) (i : Z) (v : A) : result (list A) :=
  let n := Z.of_nat (length l) in
  let j := if i <? 0 then i + n else i in
  if (0 <=? j) && (j <? n) then Ok (set_nth l (Z.to_nat j) v)
  else Raise IndexError.

(** [l[a:b]] for constants [0 <= a <= b]. *)
Definition slice {A} (l : list A) (a b : nat) : list A :=
  firstn (b - a) (skipn a l).

(** [str(n)] of an integer. *)
Definition str (z : Z) : string := NilZero.string_of_int (Z.to_int z).

(** ** NumPy arrays *)

Module np.

Inductive sctype := int8 | uint8 | int16 | uint16 | int32 | float32 | float64.

Definition itemsize (d : sctype) : nat :=
  match d with
  | int8 | uint8 => 1
  | int16 | uint16 => 2
  | int32 | float32 => 4
  | float64 => 8
  end.

(** [str(dtype)]. *)
Definition name (d : sctype) : string :=
  match d with
  | int8 => "int8" | uint8 => "uint8" | int16 => "int16" | uint16 => "uint16"
  | int32 => "int32" | float32 => "float32" | float64 => "float64"
  end.

(** An array, as far as [mrcWriter] looks at it: its type, its shape,
    the flag [flags['C_CONTIGUOUS']] and its items in row-major order
    ([tobytes()]).  For a C-contiguous array [tobytes] is its memory. *)
Record ndarray := {
  dtype : sctype;
  shape : list Z;
  C_CONTIGUOUS : bool;
  tobytes : list byte
}.

Definition prod (l : list Z) : Z := fold_left Z.mul l 1.

(** What NumPy guarantees of every array: non-negative dimensions, as
    many items as the shape says, and a size in bytes that fits the
    signed 64-bit index type. *)
Record wf (a : ndarray) : Prop := {
  wf_shape : Forall (fun n => 0 <= n) (shape a);
  wf_size : Z.of_nat (length (tobytes a)) = Z.of_nat (itemsize (dtype a)) * prod (shape a);
  wf_intp : Z.of_nat (length (tobytes a)) < 2 ^ 63
}.

(** The first [count] complete items of [size] bytes of a buffer. *)
Fixpoint items_of (size count : nat) (l : list byte) : list (list byte) :=
  match count with
  | O => []
  | S c =>
      if (length l <? size)%nat then []
      else firstn size l :: items_of size c (skipn size l)
  end.

(** The value of an item. *)
Inductive scalar :=
| Int (z : Z)
| F32 (x : spec_float)
| F64 (x : spec_float).

Definition item (d : sctype) (bs : list byte) : scalar :=
  match d with
  | int8 | int16 | int32 => Int (Int.frombytes_signed bs)
  | uint8 | uint16 => Int (Int.frombytes_unsigned bs)
  | float32 => F32 (Float.frombytes Float.binary32 bs)
  | float64 => F64 (Float.frombytes Float.binary64 bs)
  end.

Definition values (a : ndarray) : list scalar :=
  map (item (dtype a)) (items_of (itemsize (dtype a)) (length (tobytes a)) (tobytes a)).

(** [np.float32(x)] and [np.float64(x)] of a scalar. *)
Definition to_float32 (v : scalar) : spec_float :=
  match v with
  | Int z => Float.of_Z Float.binary32 z
  | F32 x => x
  | F64 x => Float.convert Float.binary32 x
  end.

Definition to_float64 (v : scalar) : spec_float :=
  match v with
  | Int z => Float.of_Z Float.binary64 z
  | F32 x => Float.convert Float.binary64 x
  | F64 x => x
  end.

(** The binary step of the [minimum] and [maximum] reductions: a NaN
    in the accumulator stays, a NaN item replaces the accumulator, and
    of two equal items (a zero of each sign) the later one is kept. *)
Definition fmin (x y : spec_float) : spec_float :=
  if Float.ltb x y || Float.is_nan x then x else y.
Definition fmax (x y : spec_float) : spec_float :=
  if Float.ltb y x || Float.is_nan x then x else y.

Definition minimum (u v : scalar) : scalar :=
  match u, v with
  | Int x, Int y => Int (Z.min x y)
  | F32 x, F32 y => F32 (fmin x y)
  | F64 x, F64 y => F64 (fmin x y)
  | _, _ => u
  end.

Definition maximum (u v : scalar) : scalar :=
  match u, v with
  | Int x, Int y => Int (Z.max x y)
  | F32 x, F32 y => F32 (fmax x y)
  | F64 x, F64 y => F64 (fmax x y)
  | _, _ => u
  end.

(** [np.min(a)], [np.max(a)]: [ValueError] on an array without items. *)
Definition min (a : ndarray) : result scalar :=
  match values a with
  | [] => Raise ValueError
  | v :: vs => Ok (fold_left minimum vs v)
  end.

Definition max (a : ndarray) : result scalar :=
  match values a with
  | [] => Raise ValueError
  | v :: vs => Ok (fold_left maximum vs v)
  end.

(** The sums of NumPy's [add.reduce] over a contiguous buffer
    ([pairwise_sum] of the inner loop of [add]).  Fewer than 8 items are
    added from left to right.  Up to 128 items are added in 8 lanes
    ([r[j] += a[i + j]] for each complete group of 8), the lanes are
    combined as [((r0+r1)+(r2+r3))+((r4+r5)+(r6+r7))], and the items
    left over are added to that from left to right. *)
Fixpoint unrolled (f : Float.format) (r0 r1 r2 r3 r4 r5 r6 r7 : spec_float)
    (a : list spec_float) {struct a} : spec_float :=
  match a with
  | a0 :: a1 :: a2 :: a3 :: a4 :: a5 :: a6 :: a7 :: t =>
      unrolled f (Float.add f r0 a0) (Float.add f r1 a1) (Float.add f r2 a2)
               (Float.add f r3 a3) (Float.add f r4 a4) (Float.add f r5 a5)
               (Float.add f r6 a6) (Float.add f r7 a7) t
  | rest =>
      fold_left (Float.add f) rest
        (Float.add f
           (Float.add f (Float.add f r0 r1) (Float.add f r2 r3))
           (Float.add f (Float.add f r4 r5) (Float.add f r6 r7)))
  end.

Definition block_sum (f : Float.format) (a : list spec_float) : spec_float :=
  match a with
  | a0 :: a1 :: a2 :: a3 :: a4 :: a5 :: a6 :: a7 :: t => unrolled f a0 a1 a2 a3 a4 a5 a6 a7 t
  | _ => fold_left (Float.add f) a (S754_zero true)
  end.

(** More than 128 items are split in two parts, the first of
    [n/2 - (n/2) % 8] items, and the sums of the parts are added.
    [fuel] bounds the depth of the splitting; the length of the buffer
    is enough. *)
Fixpoint pairwise_sum_upto (fuel : nat) (f : Float.format) (a : list spec_float)
  : spec_float :=
  match fuel with
  | S k =>
      if (128 <? length a)%nat then
        let n2 := (length a / 2 - (length a / 2) mod 8)%nat in
        Float.add f (pairwise_sum_upto k f (firstn n2 a))
                    (pairwise_sum_upto k f (skipn n2 a))
      else block_sum f a
  | O => block_sum f a
  end.

Definition pairwise_sum (f : Float.format) (a : list spec_float) : spec_float :=
  pairwise_sum_upto (length a) f a.

(** The buffers of [bufsize] items [add.reduce] takes one after the
    other when the items have to be converted. *)
Fixpoint buffers_upto {A} (fuel bufsize : nat) (l : list A) : list (list A) :=
  match fuel, l with
  | S k, _ :: _ => firstn bufsize l :: buffers_upto k bufsize (skipn bufsize l)
  | _, _ => []
  end.

Definition buffers {A} (bufsize : nat) (l : list A) : list (list A) :=
  buffers_upto (length l) bufsize l.

(** The buffer size of NumPy, in items. *)
Definition bufsize : nat := Z.to_nat 8192.

(** [np.mean(a)], that is [add.reduce] divided by the number of items.
    For a float32 array the items are added in float32, the whole array
    in one pairwise sum; the quotient of the float32 sum by the count is
    computed in float64 and converted back ([ret.dtype.type(ret /
    rcount)]).  For an integer array the items are converted to float64,
    8192 at a time (the buffer size of NumPy), and the pairwise sum of
    each buffer is added to the result.  The reduction starts from
    [-0.0], the identity of [add] on a non-empty array. *)
Definition mean (a : ndarray) : scalar :=
  let vs := values a in
  let n := Float.of_Z Float.binary64 (Z.of_nat (length vs)) in
  match dtype a with
  | float32 =>
      let s := Float.add Float.binary32 (S754_zero true)
                 (pairwise_sum Float.binary32 (map to_float32 vs)) in
      F32 (Float.convert Float.binary32
             (Float.div Float.binary64 (Float.convert Float.binary64 s) n))
  | _ =>
      let s := fold_left (fun acc b => Float.add Float.binary64 acc
                                         (pairwise_sum Float.binary64 b))
                         (buffers bufsize (map to_float64 vs)) (S754_zero true) in
      F64 (Float.div Float.binary64 s n)
  end.

(** [np.prod] of an int32 array: computed in int64. *)
Definition prod_int64 (l : list Z) : Z :=
  fold_left (fun acc n => Int.np_int64 (acc * n)) l 1.

(** [np.ascontiguousarray(a)]: [a] itself when it is C-contiguous, else
    a C-contiguous copy with the same items. *)
Definition ascontiguousarray (a : ndarray) : ndarray :=
  if C_CONTIGUOUS a then a
  else {| dtype := dtype a; shape := shape a; C_CONTIGUOUS := true; tobytes := tobytes a |}.

(** The product of the dimensions that are not negative, or [None]
    when it leaves the index type ([npy_mul_sizes_with_overflow]). *)
Fixpoint known_size (newshape : list Z) (acc : Z) : option Z :=
  match newshape with
  | [] => Some acc
  | d :: t =>
      if d <? 0 then known_size t acc
      else if 2 ^ 63 <=? acc * d then None
      else known_size t (acc * d)
  end.

(** [a.reshape(newshape)] of a one-dimensional array of [n] items: a
    negative dimension is unknown and is inferred, and there may be one
    only. *)
Definition reshape_shape (n : Z) (newshape : list Z) : result (list Z) :=
  match filter (fun d => d <? 0) newshape, known_size newshape 1 with
  | _ :: _ :: _, _ => Raise ValueError
  | _, None => Raise ValueError
  | [], Some known => if known =? n then Ok newshape else Raise ValueError
  | [_], Some known =>
      if (known =? 0) || negb (n mod known =? 0) then Raise ValueError
      else Ok (map (fun d => if d <? 0 then n / known else d) newshape)
  end.

End np.

(** ** The world: standard output, the file on disk, the file object *)

(** A file object: its position and whether [close()] was called. *)
Record pyfile := { pos : nat; closed : bool }.

(** [disk] is the content of the file the functions are applied to
    ([None]: no such file); [fid] is the file object ([None]: Python's
    [None]). *)
Record world := {
  stdout : list string;
  disk : option (list byte);
  fid : option pyfile
}.

Definition M (A : Type) : Type := world -> result A * world.

Definition ret {A} (a : A) : M A := fun w => (Ok a, w).
Definition raise {A} (e : exn) : M A := fun w => (Raise e, w).
Definition bind {A B} (m : M A) (k : A -> M B) : M B :=
  fun w => match m w with
           | (Ok a, w') => k a w'
           | (Raise e, w') => (Raise e, w')
           end.
Definition lift {A} (r : result A) : M A := fun w => (r, w).

Notation "x <- m ;; k" := (bind m (fun x => k))
  (at level 61, m at next level, right associativity).
Notation "m ;;; k" := (bind m (fun _ => k))
  (at level 61, right associativity).

Definition print (s : string) : M unit :=
  fun w => (Ok tt, {| stdout := stdout w ++ [s]; disk := disk w; fid := fid w |}).

(** [open(filename,'wb')]: the file is created or truncated. *)
Definition open_wb : M unit :=
  fun w => (Ok tt, {| stdout := stdout w; disk := Some [];
                      fid := Some {| pos := 0; closed := false |} |}).

(** [open(filename,'rb')]: [false] stands for the [IOError] of a file
    that does not exist. *)
Definition open_rb : M bool :=
  fun w => match disk w with
           | Some _ => (Ok true, {| stdout := stdout w; disk := disk w;
                                    fid := Some {| pos := 0; closed := false |} |})
           | None => (Ok false, w)
           end.

(** The open file object and the content of its file, or the exception
    an operation on [None] or on a closed file raises. *)
Definition the_file (none : exn) (w : world) : result (nat * list byte) :=
  match fid w, disk w with
  | Some f, Some c => if closed f then Raise ValueError else Ok (pos f, c)
  | Some f, None => Raise OSError
  | None, _ => Raise none
  end.

(** [bs] put at position [p] of content [c]; a gap is filled with zeros. *)
Definition write_at (p : nat) (bs c : list byte) : list byte :=
  firstn p c ++ repeat Byte.x00 (p - length c) ++ bs ++ skipn (p + length bs) c.

(** [fid.write(bs)]. *)
Definition fid_write (bs : list byte) : M unit :=
  fun w => match the_file AttributeError w with
           | Ok (p, c) =>
               (Ok tt, {| stdout := stdout w; disk := Some (write_at p bs c);
                          fid := Some {| pos := p + length bs; closed := false |} |})
           | Raise e => (Raise e, w)
           end.

(** [fid.seek(n)] from the start of the file. *)
Definition fid_seek (n : Z) : M unit :=
  fun w => match the_file AttributeError w with
           | Ok (_, c) =>
               if n <? 0 then (Raise OSError, w)
               else (Ok tt, {| stdout := stdout w; disk := disk w;
                               fid := Some {| pos := Z.to_nat n; closed := false |} |})
           | Raise e => (Raise e, w)
           end.

(** [fid.close()]. *)
Definition fid_close : M unit :=
  fun w => match fid w with
           | Some f => (Ok tt, {| stdout := stdout w; disk := disk w;
                                  fid := Some {| pos := pos f; closed := true |} |})
           | None => (Raise AttributeError, w)
           end.

(** [fid.write(a)] of an array: its memory, through the buffer
    interface, which refuses an array that is not C-contiguous. *)
Definition fid_write_array (a : np.ndarray) : M unit :=
  if np.C_CONTIGUOUS a then fid_write (np.tobytes a) else raise ValueError.

(** [np.fromfile(fid, dtype, count)]: the complete items among the next
    [count] ones ([count < 0]: all that are left); the position ends
    after what was read, at the end of the file when items are missing. *)
Definition fromfile (size : nat) (count : Z) : M (list (list byte)) :=
  fun w => match the_file AttributeError w with
           | Ok (p, c) =>
               let rest := skipn p c in
               let n := if count <? 0 then length rest else Z.to_nat count in
               let its := np.items_of size n rest in
               let p' := if (length its <? n)%nat then Nat.max p (length c)
                         else (p + size * n)%nat in
               (Ok its, {| stdout := stdout w; disk := disk w;
                           fid := Some {| pos := p'; closed := false |} |})
           | Raise e => (Raise e, w)
           end.

(** The size in bytes of the array [np.fromfile] allocates. *)
Definition fromfile_nbytes (size : nat) (count : Z) : M Z :=
  fun w =>
    (Ok (if count <? 0 then
           match the_file AttributeError w with
           | Ok (p, c) => Z.of_nat size * (Z.of_nat (length (skipn p c)) / Z.of_nat size)
           | Raise _ => 0
           end
         else Z.of_nat size * count), w).

Definition fromfile_int32 (count : Z) : M (list Z) :=
  its <- fromfile 4 count ;; ret (map Int.frombytes_signed its).

Definition fromfile_float32 (count : Z) : M (list spec_float) :=
  its <- fromfile 4 count ;; ret (map (Float.frombytes Float.binary32) its).

(** ** [mrcWriter] *)

(** The bytes of an int32 array, of an int8 array, of a float32 array. *)
Definition int32_array (l : list Z) : list byte :=
  concat (map (fun z => Int.tobytes 4 (Int.np_int32 z)) l).

Definition int8_array (l : list Z) : list byte :=
  concat (map (Int.tobytes 1) l).

Definition float32_array (l : list spec_float) : list byte :=
  concat (map (Float.tobytes Float.binary32) l).

(** [np.float32(pixelSize[i]*stack.shape[i])]: the product of a Python
    float and a Python integer, rounded to float32. *)
Definition cell_length (pixelSize : list spec_float) (shape : list Z) (i : Z)
  : result spec_float :=
  match getitem pixelSize i with
  | Ok p =>
      match getitem shape i with
      | Ok n => Ok (Float.convert Float.binary32
                      (Float.mul Float.binary64 p (Float.of_Z Float.binary64 n)))
      | Raise e => Raise e
      end
  | Raise e => Raise e
  end.

(** The code of the sample type ([header1[3]]); [None] in the [else]
    branch. *)
Definition mrc_code (d : np.sctype) : option Z :=
  match d with
  | np.float32 => Some 2
  | np.uint16 => Some 6
  | np.int16 => Some 1
  | np.int8 => Some 0
  | _ => None
  end.

(** [mrcWriter(filename, stack, pixelSize, forceWrite)]; [pixelSize] is
    a sequence of Python floats. *)
Definition mrcWriter (stack : np.ndarray) (pixelSize : list spec_float)
    (forceWrite : bool) : M Z :=
  open_wb ;;;
  if (3 <? length (np.shape stack))%nat then
    print "Too many dimensions" ;;; ret 0
  else if negb (np.C_CONTIGUOUS stack) then
    print "Error: Array must be C-style ordering: [numImages,Y,X]. Use numpy.tranpspose and np.ascontiguousarray to change data ordering in memory" ;;;
    print "Exiting" ;;; ret 0
  else
    (* initialize the header with 256 zeros with size 4 bytes *)
    fid_write (int32_array (repeat 0 256)) ;;;
    fid_seek 0 ;;;
    let header1 := repeat 0 10%nat in
    s2 <- lift (getitem (np.shape stack) 2) ;;
    let header1 := set_nth header1 0 (Int.np_int32 s2) in
    s1 <- lift (getitem (np.shape stack) 1) ;;
    let header1 := set_nth header1 1 (Int.np_int32 s1) in
    s0 <- lift (getitem (np.shape stack) 0) ;;
    let header1 := set_nth header1 2 (Int.np_int32 s0) in
    match mrc_code (np.dtype stack) with
    | None =>
        print ("Data type " ++ np.name (np.dtype stack) ++
               " is unsupported. Only int8, int16, uint16, and float32 are supported") ;;;
        ret 0
    | Some code =>
        let header1 := set_nth header1 3 code in
        let header1 := set_nth (set_nth (set_nth header1 4 0) 5 0) 6 0 in
        let header1 := set_nth header1 7 (Int.np_int32 s2) in
        let header1 := set_nth header1 8 (Int.np_int32 s1) in
        let header1 := set_nth header1 9 (Int.np_int32 s0) in
        fid_write (int32_array header1) ;;;
        (* cell dimensions *)
        xlen <- lift (cell_length pixelSize (np.shape stack) 2) ;;
        fid_write (Float.tobytes Float.binary32 xlen) ;;;
        ylen <- lift (cell_length pixelSize (np.shape stack) 1) ;;
        fid_write (Float.tobytes Float.binary32 ylen) ;;;
        zlen <- lift (cell_length pixelSize (np.shape stack) 0) ;;
        fid_write (Float.tobytes Float.binary32 zlen) ;;;
        (* cell angles *)
        fid_write (float32_array (repeat (Float.of_Z Float.binary32 90) 3)) ;;;
        (* array directions *)
        fid_write (int32_array [1; 2; 3]) ;;;
        (* minimum, maximum and mean density; the statement
           [np.int32(stack)] before them has no effect *)
        mn <- lift (np.min stack) ;;
        fid_write (Float.tobytes Float.binary32 (np.to_float32 mn)) ;;;
        mx <- lift (np.max stack) ;;
        fid_write (Float.tobytes Float.binary32 (np.to_float32 mx)) ;;;
        fid_write (Float.tobytes Float.binary32 (np.to_float32 (np.mean stack))) ;;;
        (* little-endian marker *)
        fid_seek 212 ;;;
        fid_write (int8_array [68; 65; 0; 0]) ;;;
        (* the data *)
        fid_seek 1024 ;;;
        (if forceWrite then fid_write_array (np.ascontiguousarray stack)
         else fid_write_array stack) ;;;
        fid_close ;;;
        ret 1
    end.

(** The world before a call: nothing printed, no file object. *)
Definition world0 (d : option (list byte)) : world :=
  {| stdout := []; disk := d; fid := None |}.

(** A float32 array from integer values (for examples). *)
Definition float32_stack (shape : list Z) (vals : list Z) : np.ndarray :=
  {| np.dtype := np.float32; np.shape := shape; np.C_CONTIGUOUS := true;
     np.tobytes := float32_array (map (Float.of_Z Float.binary32) vals) |}.

Definition one64 : spec_float := Float.of_Z Float.binary64 1.

(** ** [fileMRC] *)

(** A float array with its item type ([np.float32] or [np.float64]). *)
Record floatarray := { ftype : np.sctype; fitems : list spec_float }.

(** The value an item of type [t] takes when a Python float or a
    float64 scalar [v] is assigned to it. *)
Definition store (t : np.sctype) (v : spec_float) : spec_float :=
  match t with
  | np.float32 => Float.convert Float.binary32 v
  | _ => v
  end.

(** [a[i] = v]. *)
Definition fsetitem (a : floatarray) (i : Z) (v : spec_float) : result floatarray :=
  match setitem (fitems a) i (store (ftype a) v) with
  | Ok l => Ok {| ftype := ftype a; fitems := l |}
  | Raise e => Raise e
  end.

(** Division of one-dimensional float32 arrays, with broadcasting of an
    array of one item. *)
Definition divide (a b : list spec_float) : result (list spec_float) :=
  match a, b with
  | [x], _ => Ok (map (fun y => Float.div Float.binary32 x y) b)
  | _, [y] => Ok (map (fun x => Float.div Float.binary32 x y) a)
  | _, _ =>
      if (length a =? length b)%nat
      then Ok (map (fun xy => Float.div Float.binary32 (fst xy) (snd xy)) (combine a b))
      else Raise ValueError
  end.

(** [[f(x) for x in l]], stopping at the first exception. *)
Fixpoint comprehension {A B} (f : A -> result B) (l : list A) : result (list B) :=
  match l with
  | [] => Ok []
  | x :: t =>
      match f x with
      | Ok y => match comprehension f t with
                | Ok ys => Ok (y :: ys)
                | Raise e => Raise e
                end
      | Raise e => Raise e
      end
  end.

(** The dictionary [getDataset] returns. *)
Record dataOut := {
  voxelSize : floatarray;
  axisOrientations : list Z;
  cellAngles : list spec_float;
  FEIinfo : option (list (string * spec_float));
  data : option np.ndarray
}.

Definition FEIkeys : list string :=
  ["a_tilt"; "b_tilt"; "x_stage"; "y_stage"; "z_stage"; "x_shift"; "y_shift";
   "defocus"; "exposure_time"; "mean"; "tilt_axis"; "pixel_size";
   "magnification"; "voltage"; "unknown"]%string.

(** [d[k]] of a dictionary with string keys. *)
Fixpoint lookup {A} (d : list (string * A)) (k : string) : option A :=
  match d with
  | [] => None
  | (k', v) :: t => if String.eqb k k' then Some v else lookup t k
  end.

Module fileMRC.

(** The attributes [parseHeader] sets. *)
Record self := {
  dataSize : list Z;
  mrcType : Z;
  dataType : np.sctype;
  gridSize : list Z;
  volumeSize : list spec_float;
  voxelSize : floatarray;
  cellAngles : list spec_float;
  axisOrientations : list Z;
  Shape : list Z;
  minMaxMean : list Z;
  extra : list Z;
  dataOffset : Z;
  FEIinfo : option (list (string * spec_float))
}.

(** [__init__] opens the file; an [IOError] is caught and printed, and
    [self.fid] stays [None].  (The world holds one file, so the file name
    and its type check are left out.) *)
Definition __init__ : M unit :=
  ok <- open_rb ;;
  if ok then ret tt else print "I/O error(2): No such file or directory".

(** An exception raised in [__del__] is reported and ignored. *)
Definition ignored (m : M unit) : M unit :=
  fun w => (Ok tt, snd (m w)).

(** [__del__]: [self.fid.close()] under [if(not self.fid)]. *)
Definition __del__ : M unit :=
  ignored (fun w =>
    match fid w with
    | None => fid_close w          (* [not self.fid] holds *)
    | Some _ => (Ok tt, w)
    end).

(** [_getMRCType]: the [else] branch prints and leaves [Type] unbound. *)
Definition _getMRCType (dataType : Z) : M np.sctype :=
  if dataType =? 0 then ret np.int8
  else if dataType =? 1 then ret np.int16
  else if dataType =? 2 then ret np.float32
  else if dataType =? 6 then ret np.uint16
  else
    print ("Unsupported data type" ++ str dataType) ;;;
    (* [return Type] with [Type] never assigned *)
    raise UnboundLocalError.

(** The body of [if self.extra[1] != 0:] in [parseHeader]: the extended
    header of FEI files is read into the dictionary [FEIinfo] and the
    voxel size is overridden. *)
Definition readFEI (voxelSize : floatarray)
  : M (floatarray * list (string * spec_float)) :=
  FEIinfoValues <- fromfile_float32 15 ;;
  vals <- lift (comprehension (fun i => getitem FEIinfoValues (Z.of_nat i)) (seq 0 15)) ;;
  let FEIinfo := combine FEIkeys vals in
  match lookup FEIinfo "pixel_size" with
  | None => raise KeyError
  | Some pixel_size =>
      let angstroms :=
        Float.mul Float.binary64 (Float.convert Float.binary64 pixel_size)
                  (Float.of_Z Float.binary64 10000000000) in
      voxelSize <- lift (fsetitem voxelSize 0 (Float.of_Z Float.binary64 1)) ;;
      voxelSize <- lift (fsetitem voxelSize 1 angstroms) ;;
      voxelSize <- lift (fsetitem voxelSize 2 angstroms) ;;
      ret (voxelSize, FEIinfo)
  end.

(** [parseHeader], returning the attributes it sets on [self]. *)
Definition parseHeader : M self :=
  head1 <- fromfile_int32 10 ;;
  let dataSize := slice head1 0 3 in
  mrcType <- lift (getitem head1 3) ;;
  dataType <- _getMRCType mrcType ;;
  let gridSize := slice head1 7 10 in
  head2 <- fromfile_float32 6 ;;
  let volumeSize := slice head2 0 3 in
  voxelSize <-
    (if negb (existsb Float.nonzero volumeSize)
        || negb (existsb (fun n => negb (n =? 0)) gridSize)
     then ret {| ftype := np.float64;
                 fitems := repeat (Float.of_Z Float.binary64 1) 3 |}
     else
       q <- lift (divide volumeSize (map (Float.of_Z Float.binary32) gridSize)) ;;
       ret {| ftype := np.float32; fitems := q |}) ;;
  let cellAngles := slice head2 3 6 in
  axisOrientations <- fromfile_int32 3 ;;
  Shape <- lift (comprehension (fun x => getitem dataSize (x - 1)) axisOrientations) ;;
  minMaxMean <- fromfile_int32 3 ;;
  extra <- fromfile_int32 34 ;;
  (* reversal of the useful metadata *)
  let dataSize := rev dataSize in
  let gridSize := rev gridSize in
  let volumeSize := rev volumeSize in
  let voxelSize := {| ftype := ftype voxelSize; fitems := rev (fitems voxelSize) |} in
  let cellAngles := rev cellAngles in
  let axisOrientations := rev axisOrientations in
  let Shape := rev Shape in
  fid_seek 1024 ;;;
  extra1 <- lift (getitem extra 1) ;;
  vf <- (if negb (extra1 =? 0)
         then vf <- readFEI voxelSize ;; ret (fst vf, Some (snd vf))
         else ret (voxelSize, None)) ;;
  let dataOffset := 1024 + extra1 in
  ret {| dataSize := dataSize; mrcType := mrcType; dataType := dataType;
         gridSize := gridSize; volumeSize := volumeSize; voxelSize := fst vf;
         cellAngles := cellAngles; axisOrientations := axisOrientations;
         Shape := Shape; minMaxMean := minMaxMean; extra := extra;
         dataOffset := dataOffset; FEIinfo := snd vf |}.

(** [getDataset].  [np.fromfile] allocates the array before it reads
    ([count] items, or the items left in the file when [count < 0]);
    [enough] tells whether an allocation of that many bytes succeeds.
    Where it does not, NumPy raises [MemoryError], the [except] clause
    prints, and the dictionary is returned without ['data']; a size of
    2^63 bytes or more, which no allocation can serve, is refused with
    [ValueError] instead. *)
Definition getDataset_under (enough : Z -> bool) (s : self) : M dataOut :=
  fid_seek (dataOffset s) ;;;
  let size := np.itemsize (dataType s) in
  let count := np.prod_int64 (dataSize s) in
  nbytes <- fromfile_nbytes size count ;;
  if negb (enough nbytes) then
    if 2 ^ 63 <=? nbytes then raise ValueError
    else
      print "Not enough memory to read in the full data set" ;;;
      ret (Build_dataOut (voxelSize s) (axisOrientations s) (cellAngles s) (FEIinfo s) None)
  else
    its <- fromfile size count ;;
    shape <- lift (np.reshape_shape (Z.of_nat (length its)) (Shape s)) ;;
    ret (Build_dataOut (voxelSize s) (axisOrientations s) (cellAngles s) (FEIinfo s)
           (Some {| np.dtype := dataType s; np.shape := shape;
                    np.C_CONTIGUOUS := true; np.tobytes := concat its |})).

(** [getDataset] where the memory does not run out. *)
Definition getDataset : self -> M dataOut := getDataset_under (fun _ => true).

(** [_applyAxisOrientations(arrayIn)]. *)
Definition _applyAxisOrientations {A} (s : self) (arrayIn : list A) : result (list A) :=
  comprehension (fun x => getitem arrayIn (x - 1)) (axisOrientations s).

End fileMRC.

(** [mrcReader]: [f1] is deleted at the end, and released with the frame
    when an exception leaves the function. *)
Definition mrcReader : M dataOut :=
  fun w =>
    let r := (fileMRC.__init__ ;;;
              s <- fileMRC.parseHeader ;;
              fileMRC.getDataset s) w in
    (fst r, snd (fileMRC.__del__ (snd r))).

(** ** [mrc2raw] *)

(** The values of the dictionary [mrcReader] returns. *)
Inductive pyobject :=
| PyStr (s : string)
| PyFloats (a : floatarray)
| PyFloat32s (l : list spec_float)
| PyInts (l : list Z)
| PyDict (d : list (string * spec_float))
| PyArray (a : np.ndarray).

(** [tomo[key]]: the keys are those [parseHeader] and [getDataset] set;
    ['FEIinfo'] and ['data'] are there when their field is. *)
Definition dataOut_getitem (tomo : dataOut) (key : string) : result pyobject :=
  if String.eqb key "voxelSize" then Ok (PyFloats (voxelSize tomo))
  else if String.eqb key "axisOrientations" then Ok (PyInts (axisOrientations tomo))
  else if String.eqb key "cellAngles" then Ok (PyFloat32s (cellAngles tomo))
  else if String.eqb key "FEIinfo" then
    match FEIinfo tomo with Some d => Ok (PyDict d) | None => Raise KeyError end
  else if String.eqb key "data" then
    match data tomo with Some a => Ok (PyArray a) | None => Raise KeyError end
  else Raise KeyError.

(** [s.rsplit('.',1)[0]]: what is before the last dot, [s] without one. *)
Fixpoint before_last_dot (l : list Ascii.ascii) : option (list Ascii.ascii) :=
  match l with
  | [] => None
  | a :: t =>
      match before_last_dot t with
      | Some p => Some (a :: p)
      | None => if Ascii.eqb a (Ascii.ascii_of_nat 46) then Some [] else None
      end
  end.

Definition rsplit_dot_0 (s : string) : string :=
  match before_last_dot (list_ascii_of_string s) with
  | Some p => string_of_list_ascii p
  | None => s
  end.

(** [str(t)] of a tuple of integers. *)
Definition str_tuple (t : list Z) : string :=
  match t with
  | [] => "()"
  | [n] => "(" ++ str n ++ ",)"
  | n :: l => "(" ++ str n ++ fold_right (fun m r => ", " ++ str m ++ r) ")" l
  end%string.

(** The files, by name. *)
Definition filesystem := string -> option (list byte).

Definition fs_put (name : string) (c : list byte) (fs : filesystem) : filesystem :=
  fun n => if String.eqb n name then Some c else fs n.

(** [mrc2raw(fname)] on a file system and an output; its result, the
    file system and the output after it. *)
Definition mrc2raw (fname : string) (fs : filesystem) (out : list string)
  : result unit * (filesystem * list string) :=
  let r := mrcReader {| stdout := out; disk := fs fname; fid := None |} in
  let fs1 := match disk (snd r) with Some c => fs_put fname c fs | None => fs end in
  let out1 := stdout (snd r) in
  match fst r with
  | Raise e => (Raise e, (fs1, out1))
  | Ok tomo =>
      match dataOut_getitem tomo "filename" with
      | Raise e => (Raise e, (fs1, out1))
      | Ok (PyStr name) =>
          match dataOut_getitem tomo "stack" with
          | Raise e => (Raise e, (fs1, out1))
          | Ok (PyArray stack) =>
              let rawName :=
                (rsplit_dot_0 name ++ "_" ++ np.name (np.dtype stack) ++ "_"
                 ++ str_tuple (np.shape stack) ++ ".raw")%string in
              (* open, write, close *)
              if np.C_CONTIGUOUS stack
              then (Ok tt, (fs_put rawName (np.tobytes stack) fs1, out1))
              else (Raise ValueError, (fs_put rawName [] fs1, out1))
          | Ok _ => (Raise AttributeError, (fs1, out1))
          end
      | Ok _ => (Raise AttributeError, (fs1, out1))
      end
  end.

(** * Vocabulary of the statements *)

(** ** Files and header fields *)

(** The world of a reader whose file object is open at position [p] of a
    file of content [c]. *)
Definition rd (p : nat) (c : list byte) (out : list string) : world :=
  {| stdout := out; disk := Some c; fid := Some {| pos := p; closed := false |} |}.

(** The int32 and the float32 at a byte offset of a file. *)
Definition int32_at (c : list byte) (off : nat) : Z :=
  Int.frombytes_signed (firstn 4 (skipn off c)).

Definition float32_at (c : list byte) (off : nat) : spec_float :=
  Float.frombytes Float.binary32 (firstn 4 (skipn off c)).

Arguments int32_at : simpl never.
Arguments float32_at : simpl never.

(** ** Sessions *)

(** The file object exists and [close()] was not called on it. *)
Definition is_open (w : world) : Prop :=
  exists p, fid w = Some {| pos := p; closed := false |}.

(** A computation that never closes an open file object. *)
Definition keeps_open {A} (m : M A) : Prop :=
  forall w, is_open w -> is_open (snd (m w)).

(** The first 40 bytes [mrcWriter] writes: [header1]. *)
Definition written_header1 (n1 n2 n3 code : Z) : list byte :=
  int32_array [Int.np_int32 n3; Int.np_int32 n2; Int.np_int32 n1; code;
               0; 0; 0; Int.np_int32 n3; Int.np_int32 n2; Int.np_int32 n1].

(** The 36 bytes after them: cell lengths, cell angles, axis order. *)
Definition written_cell (xlen ylen zlen : spec_float) : list byte :=
  float32_array [xlen; ylen; zlen; Float.of_Z Float.binary32 90;
                 Float.of_Z Float.binary32 90; Float.of_Z Float.binary32 90]
  ++ int32_array [1; 2; 3].

(** [np.float32(p*n)]. *)
Definition cell (p : spec_float) (n : Z) : spec_float :=
  Float.convert Float.binary32 (Float.mul Float.binary64 p (Float.of_Z Float.binary64 n)).

(** The outcome of a write session: 1 is returned and the file object is
    closed, or something else happens and it is left open. *)
Definition closed_iff_success (rw : result Z * world) : Prop :=
  (fst rw = Ok 1 /\ exists p, fid (snd rw) = Some {| pos := p; closed := true |}) \/
  (fst rw <> Ok 1 /\ is_open (snd rw)).

(** A computation that ends in this way from every open file object. *)
Definition session (m : M Z) : Prop :=
  forall w, is_open w -> closed_iff_success (m w).

(** ** Least and greatest items *)








(** A computation that prints nothing. *)
Definition silent {A} (m : M A) : Prop :=
  forall w, stdout (snd (m w)) = stdout w.

(** A computation that returns 0 after it has printed something, or
    ends in another way and has printed nothing. *)
Definition reports (m : M Z) : Prop :=
  forall w,
    (fst (m w) = Ok 0 /\ exists l, l <> [] /\ stdout (snd (m w)) = stdout w ++ l) \/
    (fst (m w) <> Ok 0 /\ stdout (snd (m w)) = stdout w).

(** The position of the file object after [np.fromfile] asked for [n]
    items of [size] bytes at position [p]. *)
Definition next_pos (size n p : nat) (c : list byte) : nat :=
  if (length (np.items_of size n (skipn p c)) <? n)%nat
  then Nat.max p (length c) else (p + size * n)%nat.

(** The header fields, by their byte offsets in the file. *)
Module RawHeaderFields.
Definition dims (c : list byte) : list Z :=
  [int32_at c 0; int32_at c 4; int32_at c 8].
Definition mrcTypeCode (c : list byte) : Z := int32_at c 12.
Definition gridSize (c : list byte) : list Z :=
  [int32_at c 28; int32_at c 32; int32_at c 36].
Definition cellVolume (c : list byte) : list spec_float :=
  [float32_at c 40; float32_at c 44; float32_at c 48].
Definition cellAngles (c : list byte) : list spec_float :=
  [float32_at c 52; float32_at c 56; float32_at c 60].
Definition axisOrder (c : list byte) : list Z :=
  [int32_at c 64; int32_at c 68; int32_at c 72].
(** Word 1 of the extra block, which starts at byte 88. *)
Definition extensionWordCount (c : list byte) : Z := int32_at c 92.
(** Item 11 of the 15 float32 words at byte 1024. *)
Definition pixel_size (c : list byte) : spec_float := float32_at c 1068.
End RawHeaderFields.

(** The voxel size [parseHeader] holds after the reversal and before it
    looks for an extended header. *)
Definition voxelSize0 (c : list byte) : floatarray :=
  if negb (existsb Float.nonzero (RawHeaderFields.cellVolume c))
     || negb (existsb (fun n => negb (n =? 0)) (RawHeaderFields.gridSize c))
  then {| ftype := np.float64; fitems := repeat (Float.of_Z Float.binary64 1) 3 |}
  else {| ftype := np.float32;
          fitems := rev (map (fun xy => Float.div Float.binary32 (fst xy)
                                          (Float.of_Z Float.binary32 (snd xy)))
                           (combine (RawHeaderFields.cellVolume c)
                                    (RawHeaderFields.gridSize c))) |}.

(** What a successful [parseHeader] has read, field by field. *)
Record parsed (c : list byte) (out : list string) (s : fileMRC.self) : Prop := {
  p_long : (96 <= length c)%nat;
  p_dataSize : fileMRC.dataSize s = rev (RawHeaderFields.dims c);
  p_mrcType : fileMRC.mrcType s = RawHeaderFields.mrcTypeCode c;
  p_dataType :
    (fileMRC.mrcType s = 0 /\ fileMRC.dataType s = np.int8) \/
    (fileMRC.mrcType s = 1 /\ fileMRC.dataType s = np.int16) \/
    (fileMRC.mrcType s = 2 /\ fileMRC.dataType s = np.float32) \/
    (fileMRC.mrcType s = 6 /\ fileMRC.dataType s = np.uint16);
  p_gridSize : fileMRC.gridSize s = rev (RawHeaderFields.gridSize c);
  p_volumeSize : fileMRC.volumeSize s = rev (RawHeaderFields.cellVolume c);
  p_cellAngles : fileMRC.cellAngles s = rev (RawHeaderFields.cellAngles c);
  p_axisOrientations : fileMRC.axisOrientations s = rev (RawHeaderFields.axisOrder c);
  p_Shape :
    comprehension (fun x => getitem (RawHeaderFields.dims c) (x - 1))
                  (RawHeaderFields.axisOrder c) = Ok (rev (fileMRC.Shape s));
  p_dataOffset : fileMRC.dataOffset s = 1024 + RawHeaderFields.extensionWordCount c;
  p_voxelSize :
    if RawHeaderFields.extensionWordCount c =? 0
    then fileMRC.voxelSize s = voxelSize0 c /\ fileMRC.FEIinfo s = None
    else exists fei w,
        fileMRC.readFEI (voxelSize0 c) (rd 1024 c out) = (Ok (fileMRC.voxelSize s, fei), w)
        /\ fileMRC.FEIinfo s = Some fei
}.

(** ** Example data *)

(** The float32 of an integer. *)
Definition f32 (z : Z) : spec_float := Float.of_Z Float.binary32 z.

(** A 1024-byte header with the given fields. *)
Definition header_of (dims : list Z) (code : Z) (grid : list Z)
    (cell angles : list spec_float) (axis : list Z) (next : Z) : list byte :=
  int32_array (dims ++ [code; 0; 0; 0] ++ grid) ++ float32_array (cell ++ angles)
  ++ int32_array axis ++ int32_array [0; 0; 0] ++ int32_array (0 :: next :: repeat 0 32)
  ++ repeat Byte.x00 800.

(** Dimensions 4, 5, 6 in file order, float32 samples, no extension. *)
Definition file_456 : list byte :=
  header_of [4; 5; 6] 2 [4; 5; 6] [f32 8; f32 10; f32 12] [f32 90; f32 90; f32 90]
            [1; 2; 3] 0.

(** The same with the code of complex 16-bit integers. *)
Definition file_complex : list byte :=
  header_of [4; 5; 6] 3 [4; 5; 6] [f32 8; f32 10; f32 12] [f32 90; f32 90; f32 90]
            [1; 2; 3] 0.

(** The pixel size 2.5e-10 m as a float32. *)
Definition pixel_2_5 : spec_float := Float.of_bits Float.binary32 0x2F89705F.

Definition FEIwords (pixel_size : spec_float) : list byte :=
  float32_array (repeat (f32 0) 11 ++ [pixel_size] ++ repeat (f32 0) 3).

(** An FEI file: the word at byte 92 is 15, the cell volume is zero, and
    15 float32 words follow the header. *)
Definition file_fei : list byte :=
  header_of [4; 5; 6] 2 [4; 5; 6] [f32 0; f32 0; f32 0] [f32 90; f32 90; f32 90]
            [1; 2; 3] 15
  ++ FEIwords pixel_2_5.

(** An FEI file with a cell volume. *)
Definition file_fei_cell : list byte :=
  header_of [4; 5; 6] 2 [4; 5; 6] [f32 8; f32 10; f32 12] [f32 90; f32 90; f32 90]
            [1; 2; 3] 15
  ++ FEIwords pixel_2_5.

(** [pixel_size*1e10], computed in float64. *)
Definition angstroms (pixel_size : spec_float) : spec_float :=
  Float.mul Float.binary64 (Float.convert Float.binary64 pixel_size)
            (Float.of_Z Float.binary64 10000000000).

(** The 15 float32 words at byte 1024. *)
Definition FEIinfoValues (c : list byte) : list spec_float :=
  map (fun i => float32_at c (1024 + 4 * i)) (seq 0 15).

(** The 1024 bytes [mrcWriter] puts before the samples. *)
Definition written_header (n1 n2 n3 code : Z) (xlen ylen zlen mn mx mean : spec_float)
  : list byte :=
  ((((((((((([] ++ int32_array [Int.np_int32 n3; Int.np_int32 n2; Int.np_int32 n1; code;
                                0; 0; 0; Int.np_int32 n3; Int.np_int32 n2; Int.np_int32 n1])
            ++ Float.tobytes Float.binary32 xlen)
           ++ Float.tobytes Float.binary32 ylen)
          ++ Float.tobytes Float.binary32 zlen)
         ++ float32_array (repeat (Float.of_Z Float.binary32 90) 3))
        ++ int32_array [1; 2; 3])
       ++ Float.tobytes Float.binary32 mn)
      ++ Float.tobytes Float.binary32 mx)
     ++ Float.tobytes Float.binary32 mean)
    ++ repeat Byte.x00 124 ++ int8_array [68; 65; 0; 0])
   ++ repeat Byte.x00 808).

(** Writing [stack] and reading the file back gives [stack] again. *)
Definition round_trips (stack : np.ndarray) (pixelSize : list spec_float)
    (forceWrite : bool) (w : world) : Prop :=
  exists c,
    fst (mrcWriter stack pixelSize forceWrite w) = Ok 1 /\
    disk (snd (mrcWriter stack pixelSize forceWrite w)) = Some c /\
    (exists s w1,
        fileMRC.parseHeader (rd 0 c []) = (Ok s, w1) /\
        fileMRC.Shape s = np.shape stack /\
        fileMRC.dataType s = np.dtype stack) /\
    (exists d, fst (mrcReader (world0 (Some c))) = Ok d /\ data d = Some stack).

(** An int8 array of shape [(1, 1, n)] filled with zeros. *)
Definition int8_zeros (n : Z) : np.ndarray :=
  {| np.dtype := np.int8; np.shape := [1; 1; n]; np.C_CONTIGUOUS := true;
     np.tobytes := repeat Byte.x00 (Z.to_nat n) |}.

(** * Properties *)

(** ** Floats and strings on examples *)

Example float_bits_one :
  Float.to_bits Float.binary32 (Float.of_Z Float.binary32 1) = 0x3F800000.
Proof. reflexivity. Qed.

Example float_bits_90 :
  Float.to_bits Float.binary32 (Float.of_Z Float.binary32 90) = 0x42B40000.
Proof. reflexivity. Qed.

Example float_of_bits_90 :
  Float.of_bits Float.binary32 0x42B40000 = Float.of_Z Float.binary32 90.
Proof. reflexivity. Qed.

Example float_convert_1e10 :
  Float.to_bits Float.binary32
    (Float.convert Float.binary32 (Float.of_Z Float.binary64 10000000000))
  = 0x501502F9.
Proof. reflexivity. Qed.

Example str_neg : str (-12) = "-12"%string.
Proof. reflexivity. Qed.

(** ** The monad *)

Lemma bind_Ok {A B} (m : M A) (k : A -> M B) w a w' :
  m w = (Ok a, w') -> bind m k w = k a w'.
Proof. unfold bind. intros ->. reflexivity. Qed.

Lemma bind_Raise {A B} (m : M A) (k : A -> M B) w e w' :
  m w = (Raise e, w') -> bind m k w = (Raise e, w').
Proof. unfold bind. intros ->. reflexivity. Qed.

Lemma bind_inv {A B} (m : M A) (k : A -> M B) w b w' :
  bind m k w = (Ok b, w') ->
  exists a w1, m w = (Ok a, w1) /\ k a w1 = (Ok b, w').
Proof.
  unfold bind. destruct (m w) as [[a|e] w1]; intros H.
  - exists a, w1. split; [reflexivity | exact H].
  - discriminate H.
Qed.

Lemma bind_lift_Ok {A B} (a : A) (k : A -> M B) w :
  bind (lift (Ok a)) k w = k a w.
Proof. reflexivity. Qed.

Lemma lift_inv {A} (r : result A) w a w' :
  lift r w = (Ok a, w') -> r = Ok a /\ w' = w.
Proof. unfold lift. intros H. inversion H. split; reflexivity. Qed.

Lemma ret_inv {A} (x : A) w a w' :
  ret x w = (Ok a, w') -> a = x /\ w' = w.
Proof. unfold ret. intros H. inversion H. split; reflexivity. Qed.

(** ** The file object stays open in a read session *)

Lemma keeps_open_ret {A} (a : A) : keeps_open (ret a).
Proof. intros w H. exact H. Qed.

Lemma keeps_open_raise {A} (e : exn) : keeps_open (@raise A e).
Proof. intros w H. exact H. Qed.

Lemma keeps_open_lift {A} (r : result A) : keeps_open (lift r).
Proof. intros w H. exact H. Qed.

Lemma keeps_open_print s : keeps_open (print s).
Proof. intros w H. exact H. Qed.

Lemma keeps_open_bind {A B} (m : M A) (k : A -> M B) :
  keeps_open m -> (forall a, keeps_open (k a)) -> keeps_open (bind m k).
Proof.
  intros Hm Hk w H. unfold bind. specialize (Hm w H).
  destruct (m w) as [[a|e] w1]; cbn in *.
  - apply Hk, Hm.
  - exact Hm.
Qed.

Lemma keeps_open_if {A} (b : bool) (m1 m2 : M A) :
  keeps_open m1 -> keeps_open m2 -> keeps_open (if b then m1 else m2).
Proof. destruct b; auto. Qed.

Lemma keeps_open_fromfile size count : keeps_open (fromfile size count).
Proof.
  intros w H. unfold fromfile.
  destruct (the_file AttributeError w) as [[p c]|e]; cbn; [eexists; reflexivity | exact H].
Qed.

Lemma keeps_open_seek n : keeps_open (fid_seek n).
Proof.
  intros w H. unfold fid_seek.
  destruct (the_file AttributeError w) as [[p c]|e]; cbn; [| exact H].
  destruct (n <? 0); cbn; [exact H | eexists; reflexivity].
Qed.

Create HintDb keeps_open.
#[local] Hint Resolve keeps_open_ret keeps_open_raise keeps_open_lift keeps_open_print
  keeps_open_fromfile keeps_open_seek : keeps_open.

Ltac keeps_open_step :=
  match goal with
  | |- keeps_open (bind _ _) => apply keeps_open_bind; [| intros ?]
  | |- keeps_open (if _ then _ else _) => apply keeps_open_if
  | |- keeps_open (match ?x with _ => _ end) => destruct x
  | |- keeps_open _ => solve [auto with keeps_open]
  end.

Lemma keeps_open_getMRCType code : keeps_open (fileMRC._getMRCType code).
Proof. unfold fileMRC._getMRCType. repeat keeps_open_step. Qed.

Lemma keeps_open_readFEI v : keeps_open (fileMRC.readFEI v).
Proof.
  unfold fileMRC.readFEI, fromfile_float32. repeat keeps_open_step.
Qed.

Lemma keeps_open_parseHeader : keeps_open fileMRC.parseHeader.
Proof.
  unfold fileMRC.parseHeader, fromfile_int32, fromfile_float32.
  repeat first [ apply keeps_open_getMRCType | apply keeps_open_readFEI | keeps_open_step ].
Qed.

Lemma keeps_open_nbytes size count : keeps_open (fromfile_nbytes size count).
Proof. intros w H. exact H. Qed.

Lemma keeps_open_getDataset_under enough s : keeps_open (fileMRC.getDataset_under enough s).
Proof.
  unfold fileMRC.getDataset_under.
  repeat first [ apply keeps_open_nbytes | keeps_open_step ].
Qed.

Lemma keeps_open_getDataset s : keeps_open (fileMRC.getDataset s).
Proof. apply keeps_open_getDataset_under. Qed.

Lemma keeps_open_del : keeps_open fileMRC.__del__.
Proof.
  intros w [p H]. unfold fileMRC.__del__, fileMRC.ignored. rewrite H. cbn.
  exists p. exact H.
Qed.

Lemma init_opens c :
  fileMRC.__init__ (world0 (Some c)) = (Ok tt, rd 0 c []).
Proof. reflexivity. Qed.

(** C9 (the code departs from the specification). A read session of [mrcReader] on an
    existing file, whatever its content and however the session ends,
    leaves the file object it opened open: [__del__] calls [close()] only
    when [self.fid] is false, which an open file object never is. *)
Theorem C9_session_leaves_file_open (c : list byte) :
  exists p, fid (snd (mrcReader (world0 (Some c)))) = Some {| pos := p; closed := false |}.
Proof.
  unfold mrcReader. apply keeps_open_del.
  assert (K : keeps_open (s <- fileMRC.parseHeader ;; fileMRC.getDataset s)).
  { apply keeps_open_bind; [apply keeps_open_parseHeader | apply keeps_open_getDataset]. }
  unfold bind at 1. rewrite init_opens. apply K. exists 0%nat. reflexivity.
Qed.

(** C10. The flag [forceWrite] changes nothing: the two calls of
    [mrcWriter] end with the same result and the same world (file,
    output, file object), for every array, pixel size and world; and an
    array that is not C-contiguous is rejected (0 is returned, the file
    stays empty) whatever the flag. *)
Theorem C10_forceWrite_irrelevant (stack : np.ndarray) (pixelSize : list spec_float)
    (w : world) :
  mrcWriter stack pixelSize true w = mrcWriter stack pixelSize false w /\
  (np.C_CONTIGUOUS stack = false ->
   forall forceWrite,
     fst (mrcWriter stack pixelSize forceWrite w) = Ok 0 /\
     disk (snd (mrcWriter stack pixelSize forceWrite w)) = Some []).
Proof.
  unfold mrcWriter. split.
  - destruct (np.C_CONTIGUOUS stack) eqn:C; cbn [negb].
    + unfold np.ascontiguousarray. rewrite C. reflexivity.
    + reflexivity.
  - intros C fw. rewrite C. cbn [negb].
    destruct (3 <? length (np.shape stack))%nat; split; reflexivity.
Qed.

(** ** Reading items *)

Lemma items_of_length size n l :
  (length (np.items_of size n l) <= n)%nat.
Proof.
  revert l. induction n as [|n IH]; intros l; cbn [np.items_of length]; [lia|].
  destruct (length l <? size)%nat; cbn [length]; [lia|].
  specialize (IH (skipn size l)). lia.
Qed.

Lemma items_of_nth size n : forall i l,
  (i < n)%nat -> (size * (i + 1) <= length l)%nat ->
  nth_error (np.items_of size n l) i = Some (firstn size (skipn (i * size) l)).
Proof.
  induction n as [|n IH]; intros i l Hi Hl; [lia|].
  cbn [np.items_of].
  pose proof (Nat.le_0_l (size * i)) as Hp.
  destruct (Nat.ltb_spec (length l) size) as [Hs|Hs]; [lia|].
  destruct i as [|i]; cbn [nth_error]; [reflexivity|].
  rewrite IH.
  - rewrite skipn_skipn.
    replace (i * size + size)%nat with (S i * size)%nat by (cbn [Nat.mul]; lia).
    reflexivity.
  - lia.
  - rewrite length_skipn. lia.
Qed.

Lemma items_of_full size n l :
  (size * n <= length l)%nat -> length (np.items_of size n l) = n.
Proof.
  revert l. induction n as [|n IH]; intros l Hl; [reflexivity|].
  cbn [np.items_of].
  pose proof (Nat.le_0_l (size * n)) as Hp.
  destruct (Nat.ltb_spec (length l) size) as [Hs|Hs]; [lia|].
  cbn [length]. rewrite IH; [reflexivity|]. rewrite length_skipn. lia.
Qed.

Lemma items_of_bytes size n l :
  (size * length (np.items_of size n l) <= length l)%nat.
Proof.
  revert l. induction n as [|n IH]; intros l; cbn [np.items_of length]; [lia|].
  destruct (Nat.ltb_spec (length l) size) as [Hs|Hs]; cbn [length]; [lia|].
  specialize (IH (skipn size l)). rewrite length_skipn in IH. lia.
Qed.

Lemma fromfile_rd size n p c out :
  fromfile size (Z.of_nat n) (rd p c out) =
  (Ok (np.items_of size n (skipn p c)),
   rd (if (length (np.items_of size n (skipn p c)) <? n)%nat
       then Nat.max p (length c) else (p + size * n)%nat) c out).
Proof.
  unfold fromfile, the_file, rd. cbn.
  destruct (Z.ltb_spec (Z.of_nat n) 0) as [H|H]; [lia|].
  rewrite Nat2Z.id. reflexivity.
Qed.

Lemma getitem_nth_error {A} (l : list A) (i : nat) (a : A) :
  nth_error l i = Some a -> getitem l (Z.of_nat i) = Ok a.
Proof.
  intros H. unfold getitem.
  assert (L : (i < length l)%nat) by (apply nth_error_Some; congruence).
  destruct (Z.ltb_spec (Z.of_nat i) 0); [lia|].
  destruct (Z.leb_spec 0 (Z.of_nat i)); [|lia].
  destruct (Z.ltb_spec (Z.of_nat i) (Z.of_nat (length l))); [|lia].
  cbn. rewrite Nat2Z.id, H. reflexivity.
Qed.

Lemma getitem_Ok_length {A} (l : list A) (i : Z) (a : A) :
  0 <= i -> getitem l i = Ok a ->
  (Z.to_nat i < length l)%nat /\ nth_error l (Z.to_nat i) = Some a.
Proof.
  intros Hi. unfold getitem.
  destruct (Z.ltb_spec i 0); [lia|].
  destruct (Z.leb_spec 0 i); [|lia].
  destruct (Z.ltb_spec i (Z.of_nat (length l))); cbn; [|discriminate].
  destruct (nth_error l (Z.to_nat i)) eqn:E; [|discriminate].
  intros H'. inversion H'. subst. split; [lia | reflexivity].
Qed.

Lemma fromfile_at size (count : Z) p c out :
  0 <= count ->
  fromfile size count (rd p c out) =
  (Ok (np.items_of size (Z.to_nat count) (skipn p c)),
   rd (next_pos size (Z.to_nat count) p c) c out).
Proof.
  intros H. rewrite <- (Z2Nat.id count H) at 1. apply fromfile_rd.
Qed.

Lemma fromfile_int32_at count p c out :
  0 <= count ->
  fromfile_int32 count (rd p c out) =
  (Ok (map Int.frombytes_signed (np.items_of 4 (Z.to_nat count) (skipn p c))),
   rd (next_pos 4 (Z.to_nat count) p c) c out).
Proof.
  intros H. unfold fromfile_int32.
  rewrite (bind_Ok _ _ _ _ _ (fromfile_at 4 count p c out H)). reflexivity.
Qed.

Lemma fromfile_float32_at count p c out :
  0 <= count ->
  fromfile_float32 count (rd p c out) =
  (Ok (map (Float.frombytes Float.binary32) (np.items_of 4 (Z.to_nat count) (skipn p c))),
   rd (next_pos 4 (Z.to_nat count) p c) c out).
Proof.
  intros H. unfold fromfile_float32.
  rewrite (bind_Ok _ _ _ _ _ (fromfile_at 4 count p c out H)). reflexivity.
Qed.

(** A read that leaves the position before the end of the file was
    complete. *)
Lemma next_pos_before_end size n p c :
  (0 < size)%nat -> (0 < n)%nat -> (next_pos size n p c < length c)%nat ->
  next_pos size n p c = (p + size * n)%nat /\
  length (np.items_of size n (skipn p c)) = n.
Proof.
  intros Hs Hn. unfold next_pos.
  pose proof (items_of_length size n (skipn p c)) as L.
  destruct (Nat.ltb_spec (length (np.items_of size n (skipn p c))) n) as [Hl|Hl].
  - lia.
  - intros _. split; [reflexivity | lia].
Qed.

Lemma next_pos_complete size n p c :
  (p + size * n <= length c)%nat ->
  next_pos size n p c = (p + size * n)%nat.
Proof.
  intros H. unfold next_pos. rewrite items_of_full.
  - rewrite Nat.ltb_irrefl. reflexivity.
  - rewrite length_skipn. lia.
Qed.

(** The items of a complete read, one by one. *)
Lemma items_of_complete {A} (f : list byte -> A) n : forall p c,
  (p + 4 * n <= length c)%nat ->
  map f (np.items_of 4 n (skipn p c)) =
  map (fun i => f (firstn 4 (skipn (p + 4 * i) c))) (seq 0 n).
Proof.
  induction n as [|n IH]; intros p c H; [reflexivity|].
  cbn [np.items_of].
  destruct (Nat.ltb_spec (length (skipn p c)) 4) as [Hs|Hs];
    [rewrite length_skipn in Hs; lia|].
  cbn [map seq]. f_equal.
  - rewrite Nat.mul_0_r, Nat.add_0_r. reflexivity.
  - rewrite skipn_skipn, <- seq_shift, map_map.
    rewrite (IH (4 + p)%nat c) by lia.
    apply map_ext. intros i. do 3 f_equal. lia.
Qed.

Lemma int32_items n p c :
  (p + 4 * n <= length c)%nat ->
  map Int.frombytes_signed (np.items_of 4 n (skipn p c)) =
  map (fun i => int32_at c (p + 4 * i)) (seq 0 n).
Proof. apply items_of_complete. Qed.

Lemma float32_items n p c :
  (p + 4 * n <= length c)%nat ->
  map (Float.frombytes Float.binary32) (np.items_of 4 n (skipn p c)) =
  map (fun i => float32_at c (p + 4 * i)) (seq 0 n).
Proof. apply items_of_complete. Qed.

Lemma fid_seek_at n p c out :
  0 <= n -> fid_seek n (rd p c out) = (Ok tt, rd (Z.to_nat n) c out).
Proof.
  intros H. unfold fid_seek, the_file, rd. cbn.
  destruct (Z.ltb_spec n 0); [lia | reflexivity].
Qed.

Lemma getMRCType_inv code w t w' :
  fileMRC._getMRCType code w = (Ok t, w') ->
  w' = w /\
  ((code = 0 /\ t = np.int8) \/ (code = 1 /\ t = np.int16) \/
   (code = 2 /\ t = np.float32) \/ (code = 6 /\ t = np.uint16)).
Proof.
  unfold fileMRC._getMRCType.
  destruct (Z.eqb_spec code 0); [intros H; inversion H; auto|].
  destruct (Z.eqb_spec code 1); [intros H; inversion H; auto|].
  destruct (Z.eqb_spec code 2); [intros H; inversion H; auto 6|].
  destruct (Z.eqb_spec code 6); [intros H; inversion H; auto 6|].
  intros H. discriminate H.
Qed.

(** ** What [parseHeader] reads *)

Lemma Ok_pair_inv {A} (a b : A) (w w' : world) :
  (Ok a, w) = (Ok b, w') -> a = b /\ w = w'.
Proof. intros H. inversion H. split; reflexivity. Qed.

Ltac bind_step H x w Hx :=
  apply bind_inv in H; destruct H as (x & w & Hx & H).

Lemma parseHeader_inv c out s w' :
  fileMRC.parseHeader (rd 0 c out) = (Ok s, w') -> parsed c out s.
Proof.
  intros H. unfold fileMRC.parseHeader in H.
  bind_step H head1 w1 H1.
  rewrite fromfile_int32_at in H1 by lia. apply Ok_pair_inv in H1. destruct H1 as [E1 Ew].
  change (Z.to_nat 10) with 10%nat in *.
  remember (next_pos 4 10 0 c) as p1 eqn:Ep1. subst w1.
  bind_step H mrcType w1 Hm. apply lift_inv in Hm. destruct Hm as [Hm ->].
  bind_step H dataType w2 Ht. apply getMRCType_inv in Ht. destruct Ht as [-> Ht].
  bind_step H head2 w3 H2.
  rewrite fromfile_float32_at in H2 by lia. apply Ok_pair_inv in H2. destruct H2 as [E2 Ew].
  change (Z.to_nat 6) with 6%nat in *.
  remember (next_pos 4 6 p1 c) as p2 eqn:Ep2. subst w3.
  bind_step H vox w4 Hv.
  assert (Ew4 : w4 = rd p2 c out).
  { destruct (_ || _) in Hv.
    - apply ret_inv in Hv. exact (proj2 Hv).
    - bind_step Hv q w5 Hq. apply lift_inv in Hq. destruct Hq as [_ ->].
      apply ret_inv in Hv. exact (proj2 Hv). }
  subst w4.
  bind_step H axis w5 H3.
  rewrite fromfile_int32_at in H3 by lia. apply Ok_pair_inv in H3. destruct H3 as [E3 Ew].
  change (Z.to_nat 3) with 3%nat in *.
  remember (next_pos 4 3 p2 c) as p3 eqn:Ep3. subst w5.
  bind_step H Shape w6 Hs. apply lift_inv in Hs. destruct Hs as [Hs ->].
  bind_step H mmm w7 H4.
  rewrite fromfile_int32_at in H4 by lia. apply Ok_pair_inv in H4. destruct H4 as [E4 Ew].
  change (Z.to_nat 3) with 3%nat in *.
  remember (next_pos 4 3 p3 c) as p4 eqn:Ep4. subst w7.
  bind_step H extra w8 H5.
  rewrite fromfile_int32_at in H5 by lia. apply Ok_pair_inv in H5. destruct H5 as [E5 Ew].
  change (Z.to_nat 34) with 34%nat in *. subst w8.
  bind_step H u w9 Hk. rewrite fid_seek_at in Hk by lia.
  apply Ok_pair_inv in Hk. destruct Hk as [_ Ew].
  change (Z.to_nat 1024) with 1024%nat in *. subst w9. clear u.
  bind_step H extra1 w10 He. apply lift_inv in He. destruct He as [He ->].
  (* the file is long enough for every read *)
  assert (L : (p4 + 8 <= length c)%nat).
  { apply getitem_Ok_length in He; [|lia]. destruct He as [Hl _].
    rewrite <- E5, length_map in Hl. change (Z.to_nat 1) with 1%nat in Hl.
    pose proof (items_of_bytes 4 34 (skipn p4 c)) as B.
    rewrite length_skipn in B. lia. }
  destruct (next_pos_before_end 4 3 p3 c) as [P4 _]; [lia | lia | lia |].
  rewrite <- Ep4 in P4.
  destruct (next_pos_before_end 4 3 p2 c) as [P3 _]; [lia | lia | lia |].
  rewrite <- Ep3 in P3.
  destruct (next_pos_before_end 4 6 p1 c) as [P2 _]; [lia | lia | lia |].
  rewrite <- Ep2 in P2.
  destruct (next_pos_before_end 4 10 0 c) as [P1 _]; [lia | lia | lia |].
  rewrite <- Ep1 in P1.
  clear Ep1 Ep2 Ep3 Ep4.
  assert (p4 = 88%nat) as -> by lia. assert (p3 = 76%nat) as -> by lia.
  assert (p2 = 64%nat) as -> by lia. assert (p1 = 40%nat) as -> by lia.
  clear P1 P2 P3 P4.
  rewrite (int32_items 10 0 c) in E1 by lia.
  rewrite (float32_items 6 40 c) in E2 by lia.
  rewrite (int32_items 3 64 c) in E3 by lia.
  cbn [seq map Nat.add Nat.mul] in E1, E2, E3.
  subst head1 head2 axis.
  cbn [slice Nat.sub firstn skipn] in Hm, Hs, Hv, H.
  cbn in Hm. injection Hm as <-.
  (* word 1 of the extra block *)
  assert (X1 : extra1 = RawHeaderFields.extensionWordCount c).
  { apply getitem_Ok_length in He; [|lia]. destruct He as [_ He].
    rewrite <- E5 in He. change (Z.to_nat 1) with 1%nat in He.
    rewrite nth_error_map, (items_of_nth 4 34 1) in He;
      [| lia | rewrite length_skipn; lia].
    cbn [option_map] in He. rewrite skipn_skipn in He.
    change (Some (int32_at c 92) = Some extra1) in He.
    unfold RawHeaderFields.extensionWordCount. congruence. }
  (* the voxel size before the extended header *)
  assert (V : {| ftype := ftype vox; fitems := rev (fitems vox) |} = voxelSize0 c).
  { unfold voxelSize0, RawHeaderFields.cellVolume, RawHeaderFields.gridSize.
    destruct (_ || _) in Hv |- *.
    - apply ret_inv in Hv. destruct Hv as [-> _]. reflexivity.
    - cbn [divide map length Nat.eqb combine fst snd] in Hv.
      bind_step Hv q w5 Hq. apply lift_inv in Hq. destruct Hq as [Hq _].
      apply ret_inv in Hv. destruct Hv as [-> _].
      cbn [ftype fitems map combine fst snd]. do 2 f_equal. congruence. }
  rewrite V in H. clear V Hv.
  bind_step H vf w11 Hf. apply ret_inv in H. destruct H as [-> _].
  constructor; cbn [fileMRC.dataSize fileMRC.mrcType fileMRC.dataType fileMRC.gridSize
                    fileMRC.volumeSize fileMRC.voxelSize fileMRC.cellAngles
                    fileMRC.axisOrientations fileMRC.Shape fileMRC.dataOffset
                    fileMRC.FEIinfo]; try reflexivity.
  - lia.
  - exact Ht.
  - rewrite rev_involutive. exact Hs.
  - rewrite X1. reflexivity.
  - rewrite <- X1. destruct (Z.eqb_spec extra1 0) as [Z0|Z0]; cbn [negb] in Hf.
    + apply ret_inv in Hf. destruct Hf as [-> _]. split; reflexivity.
    + bind_step Hf vf' w12 Hr. apply ret_inv in Hf. destruct Hf as [-> _].
      destruct vf' as [v fei]. exists fei, w12. split; [exact Hr | reflexivity].
Qed.

(** ** The data offset *)

Lemma dataOffset_adds_word c out s w' :
  fileMRC.parseHeader (rd 0 c out) = (Ok s, w') ->
  fileMRC.dataOffset s = 1024 + RawHeaderFields.extensionWordCount c.
Proof. intros H. apply (p_dataOffset _ _ _ (parseHeader_inv _ _ _ _ H)). Qed.

(** C2, as the code has it. For every file that [parseHeader] decodes,
    [dataOffset] is 1024 plus the extension word count, the int32 at
    word 1 of the extra block (byte 92): the word is a number of bytes,
    as in the MRC format, and is not multiplied by 4. *)
Theorem C2_dataOffset_adds_word c out s w' :
  fileMRC.parseHeader (rd 0 c out) = (Ok s, w') ->
  fileMRC.dataOffset s = 1024 + RawHeaderFields.extensionWordCount c.
Proof. apply dataOffset_adds_word. Qed.

Lemma C2_dataOffset_adds_word_witness :
  exists s w,
    fileMRC.parseHeader (rd 0 file_fei []) = (Ok s, w) /\
    RawHeaderFields.extensionWordCount file_fei = 15 /\
    fileMRC.dataOffset s = 1039.
Proof.
  destruct (fileMRC.parseHeader (rd 0 file_fei [])) as [r w] eqn:E.
  assert (X : RawHeaderFields.extensionWordCount file_fei = 15) by (vm_compute; reflexivity).
  assert (R : exists s, r = Ok s).
  { apply (f_equal fst) in E. cbn [fst] in E. rewrite <- E. vm_compute. eexists. reflexivity. }
  destruct R as [s ->]. exists s, w. split; [reflexivity|]. split; [exact X|].
  rewrite (C2_dataOffset_adds_word file_fei [] s w E), X. reflexivity.
Defined.

(** C2, as stated, fails: the file [file_fei], whose extension word
    count is 15, is decoded with the data offset 1039 and not
    1024 + 15*4 = 1084. *)
Lemma C2_counterexample :
  ~ (forall c out s w',
        fileMRC.parseHeader (rd 0 c out) = (Ok s, w') ->
        fileMRC.dataOffset s = 1024 + RawHeaderFields.extensionWordCount c * 4).
Proof.
  intros C.
  destruct (fileMRC.parseHeader (rd 0 file_fei [])) as [r w] eqn:E.
  assert (X : RawHeaderFields.extensionWordCount file_fei = 15) by (vm_compute; reflexivity).
  assert (R : exists s, r = Ok s).
  { apply (f_equal fst) in E. cbn [fst] in E. rewrite <- E. vm_compute. eexists. reflexivity. }
  destruct R as [s ->].
  pose proof (C _ _ _ _ E) as D4. pose proof (dataOffset_adds_word _ _ _ _ E) as D.
  rewrite X in *. lia.
Qed.

(** ** The sample type *)

(** C3. A header (of at least 16 bytes) whose type code is none of 0, 1,
    2, 6 makes [parseHeader] fail: it prints "Unsupported data type" with
    the code and raises an exception (Python's UnboundLocalError, at
    [return Type]); and a header that [parseHeader] accepts has one of
    the codes 0, 1, 2, 6, with the sample type int8, int16, float32,
    uint16 in this order. *)
Theorem C3_unsupported_type_rejected :
  (forall c out,
      (16 <= length c)%nat ->
      RawHeaderFields.mrcTypeCode c <> 0 -> RawHeaderFields.mrcTypeCode c <> 1 ->
      RawHeaderFields.mrcTypeCode c <> 2 -> RawHeaderFields.mrcTypeCode c <> 6 ->
      fst (fileMRC.parseHeader (rd 0 c out)) = Raise UnboundLocalError /\
      stdout (snd (fileMRC.parseHeader (rd 0 c out))) =
        out ++ [("Unsupported data type" ++ str (RawHeaderFields.mrcTypeCode c))%string]) /\
  (forall c out s w',
      fileMRC.parseHeader (rd 0 c out) = (Ok s, w') ->
      fileMRC.mrcType s = RawHeaderFields.mrcTypeCode c /\
      ((fileMRC.mrcType s = 0 /\ fileMRC.dataType s = np.int8) \/
       (fileMRC.mrcType s = 1 /\ fileMRC.dataType s = np.int16) \/
       (fileMRC.mrcType s = 2 /\ fileMRC.dataType s = np.float32) \/
       (fileMRC.mrcType s = 6 /\ fileMRC.dataType s = np.uint16))).
Proof.
  split.
  - intros c out L H0 H1 H2 H6.
    assert (G : getitem (map Int.frombytes_signed
                           (np.items_of 4 (Z.to_nat 10) (skipn 0 c))) 3
                = Ok (RawHeaderFields.mrcTypeCode c)).
    { apply (getitem_nth_error _ 3%nat).
      rewrite nth_error_map, (items_of_nth 4 10 3); [reflexivity | lia | cbn [skipn]; lia]. }
    assert (E : fileMRC.parseHeader (rd 0 c out) =
                (Raise UnboundLocalError,
                 rd (next_pos 4 (Z.to_nat 10) 0 c) c
                    (out ++ [("Unsupported data type"
                              ++ str (RawHeaderFields.mrcTypeCode c))%string]))).
    { unfold fileMRC.parseHeader.
      rewrite (bind_Ok _ _ _ _ _ (fromfile_int32_at 10 0 c out ltac:(lia))).
      erewrite bind_Ok; [| unfold lift; rewrite G; reflexivity].
      apply bind_Raise. unfold fileMRC._getMRCType.
      destruct (Z.eqb_spec (RawHeaderFields.mrcTypeCode c) 0); [contradiction|].
      destruct (Z.eqb_spec (RawHeaderFields.mrcTypeCode c) 1); [contradiction|].
      destruct (Z.eqb_spec (RawHeaderFields.mrcTypeCode c) 2); [contradiction|].
      destruct (Z.eqb_spec (RawHeaderFields.mrcTypeCode c) 6); [contradiction|].
      reflexivity. }
    rewrite E. split; reflexivity.
  - intros c out s w' H. apply parseHeader_inv in H.
    split; [apply (p_mrcType _ _ _ H) | apply (p_dataType _ _ _ H)].
Qed.

Lemma C3_unsupported_type_rejected_witness :
  (fst (fileMRC.parseHeader (rd 0 file_complex [])) = Raise UnboundLocalError /\
   stdout (snd (fileMRC.parseHeader (rd 0 file_complex []))) =
     ["Unsupported data type3"%string]) /\
  (exists s w, fileMRC.parseHeader (rd 0 file_456 []) = (Ok s, w) /\
               fileMRC.mrcType s = 2 /\ fileMRC.dataType s = np.float32).
Proof.
  split.
  - refine (proj1 C3_unsupported_type_rejected file_complex [] _ _ _ _ _);
      vm_compute; first [lia | discriminate].
  - destruct (fileMRC.parseHeader (rd 0 file_456 [])) as [r w] eqn:E.
    assert (R : exists s, r = Ok s /\ fileMRC.dataType s = np.float32).
    { apply (f_equal fst) in E. cbn [fst] in E. rewrite <- E. vm_compute.
      eexists. split; reflexivity. }
    destruct R as (s & -> & T). exists s, w. split; [reflexivity|].
    destruct (proj2 C3_unsupported_type_rejected file_456 [] s w E) as [M _].
    split; [rewrite M; vm_compute; reflexivity | exact T].
Defined.

(** ** The shape *)

Lemma comprehension_map {A B} (f : A -> result B) (g : A -> B) (l : list A) :
  Forall (fun x => f x = Ok (g x)) l -> comprehension f l = Ok (map g l).
Proof.
  induction 1 as [|x l Hx _ IH]; cbn [comprehension map]; [reflexivity|].
  rewrite Hx, IH. reflexivity.
Qed.

Lemma comprehension_In {A B} (f : A -> result B) (l : list A) ys x :
  comprehension f l = Ok ys -> In x l -> exists y, f x = Ok y.
Proof.
  revert ys. induction l as [|a l IH]; intros ys H I; [destruct I|].
  cbn [comprehension] in H. destruct (f a) as [y|e] eqn:Fa; [|discriminate].
  destruct (comprehension f l) as [ys'|e] eqn:Fl; [|discriminate].
  destruct I as [<-|I]; [exists y; exact Fa | exact (IH ys' eq_refl I)].
Qed.

(** C4. For a header that [parseHeader] accepts and whose axis order is
    a permutation of 1, 2, 3, the decoded shape is the file-order
    dimensions picked by the axis order ([dims[a-1]] for each [a]), in
    reverse order. *)
Theorem C4_shape_permuted_then_reversed c out s w' :
  fileMRC.parseHeader (rd 0 c out) = (Ok s, w') ->
  Permutation (RawHeaderFields.axisOrder c) [1; 2; 3] ->
  fileMRC.Shape s =
  rev (map (fun a => nth (Z.to_nat (a - 1)) (RawHeaderFields.dims c) 0)
           (RawHeaderFields.axisOrder c)).
Proof.
  intros H P. apply parseHeader_inv in H. pose proof (p_Shape _ _ _ H) as S.
  rewrite (comprehension_map _
             (fun a => nth (Z.to_nat (a - 1)) (RawHeaderFields.dims c) 0)) in S.
  - assert (S' : rev (fileMRC.Shape s) =
                 map (fun a => nth (Z.to_nat (a - 1)) (RawHeaderFields.dims c) 0)
                     (RawHeaderFields.axisOrder c)) by congruence.
    rewrite <- S'. symmetry. apply rev_involutive.
  - apply Forall_forall. intros a I.
    apply (Permutation_in _ P) in I. cbn [In] in I.
    destruct I as [<-|[<-|[<-|[]]]]; reflexivity.
Qed.

Lemma C4_shape_permuted_then_reversed_witness :
  exists s w, fileMRC.parseHeader (rd 0 file_456 []) = (Ok s, w) /\
              RawHeaderFields.dims file_456 = [4; 5; 6] /\
              fileMRC.Shape s = [6; 5; 4].
Proof.
  destruct (fileMRC.parseHeader (rd 0 file_456 [])) as [r w] eqn:E.
  assert (R : exists s, r = Ok s).
  { apply (f_equal fst) in E. cbn [fst] in E. rewrite <- E. vm_compute. eexists. reflexivity. }
  destruct R as [s ->]. exists s, w. split; [reflexivity|]. split; [vm_compute; reflexivity|].
  rewrite (C4_shape_permuted_then_reversed file_456 [] s w E).
  - vm_compute. reflexivity.
  - vm_compute. apply Permutation_refl.
Defined.

(** ** The voxel size *)

Lemma map_nth_seq {A} (l : list A) (d : A) :
  map (fun i => nth i l d) (seq 0 (length l)) = l.
Proof.
  induction l as [|a l IH]; cbn [length seq map nth]; [reflexivity|].
  f_equal. rewrite <- seq_shift, map_map. exact IH.
Qed.

Lemma comprehension_all {A} (l : list A) (d : A) :
  comprehension (fun i => getitem l (Z.of_nat i)) (seq 0 (length l)) = Ok l.
Proof.
  rewrite (comprehension_map _ (fun i => nth i l d)).
  - rewrite map_nth_seq. reflexivity.
  - apply Forall_forall. intros i I. apply in_seq in I.
    apply getitem_nth_error, nth_error_nth'. lia.
Qed.

Lemma fsetitem_0 t x0 x1 x2 v :
  fsetitem {| ftype := t; fitems := [x0; x1; x2] |} 0 v
  = Ok {| ftype := t; fitems := [store t v; x1; x2] |}.
Proof. reflexivity. Qed.

Lemma fsetitem_1 t x0 x1 x2 v :
  fsetitem {| ftype := t; fitems := [x0; x1; x2] |} 1 v
  = Ok {| ftype := t; fitems := [x0; store t v; x2] |}.
Proof. reflexivity. Qed.

Lemma fsetitem_2 t x0 x1 x2 v :
  fsetitem {| ftype := t; fitems := [x0; x1; x2] |} 2 v
  = Ok {| ftype := t; fitems := [x0; x1; store t v] |}.
Proof. reflexivity. Qed.

Lemma lookup_pixel_size c :
  lookup (combine FEIkeys (FEIinfoValues c)) "pixel_size"
  = Some (RawHeaderFields.pixel_size c).
Proof. reflexivity. Qed.

Lemma readFEI_inv t x0 x1 x2 c out v fei w :
  fileMRC.readFEI {| ftype := t; fitems := [x0; x1; x2] |} (rd 1024 c out)
  = (Ok (v, fei), w) ->
  (1084 <= length c)%nat /\
  fei = combine FEIkeys (FEIinfoValues c) /\
  v = {| ftype := t;
         fitems := [store t (Float.of_Z Float.binary64 1);
                    store t (angstroms (RawHeaderFields.pixel_size c));
                    store t (angstroms (RawHeaderFields.pixel_size c))] |}.
Proof.
  intros H. unfold fileMRC.readFEI in H.
  bind_step H vals0 w1 H1.
  rewrite fromfile_float32_at in H1 by lia. apply Ok_pair_inv in H1. destruct H1 as [E1 Ew].
  subst w1. change (Z.to_nat 15) with 15%nat in *.
  bind_step H vals w2 Hc. apply lift_inv in Hc. destruct Hc as [Hc ->].
  assert (L : (1084 <= length c)%nat).
  { destruct (comprehension_In _ _ _ 14%nat Hc) as [y Hy]; [cbn; tauto|].
    apply getitem_Ok_length in Hy; [|lia]. destruct Hy as [Hl _].
    rewrite <- E1, length_map in Hl.
    pose proof (items_of_bytes 4 15 (skipn 1024 c)) as B.
    rewrite length_skipn in B. lia. }
  rewrite (float32_items 15 1024 c) in E1 by lia. fold (FEIinfoValues c) in E1.
  subst vals0.
  assert (V : vals = FEIinfoValues c).
  { pose proof (comprehension_all (FEIinfoValues c) S754_nan) as A.
    change (length (FEIinfoValues c)) with 15%nat in A. congruence. }
  subst vals. split; [exact L|].
  rewrite lookup_pixel_size in H. fold (angstroms (RawHeaderFields.pixel_size c)) in H.
  rewrite fsetitem_0, bind_lift_Ok in H.
  rewrite fsetitem_1, bind_lift_Ok in H.
  rewrite fsetitem_2, bind_lift_Ok in H.
  apply Ok_pair_inv in H. destruct H as [H _].
  split; congruence.
Qed.

Lemma existsb_none {A} (f : A -> bool) (l : list A) :
  negb (existsb f l) = true <-> Forall (fun x => f x = false) l.
Proof.
  induction l as [|a l IH]; cbn [existsb].
  - split; [constructor | reflexivity].
  - rewrite negb_orb, andb_true_iff, IH, negb_true_iff.
    split; [intros [H1 H2]; constructor; assumption | intros H; inversion H; auto].
Qed.

Lemma voxelSize0_default c :
  Forall (fun x => Float.nonzero x = false) (RawHeaderFields.cellVolume c) \/
  Forall (fun n => n = 0) (RawHeaderFields.gridSize c) ->
  voxelSize0 c = {| ftype := np.float64; fitems := repeat (Float.of_Z Float.binary64 1) 3 |}.
Proof.
  intros H. unfold voxelSize0.
  replace (_ || _) with true; [reflexivity|].
  symmetry. apply orb_true_iff. destruct H as [H|H]; [left | right]; apply existsb_none.
  - exact H.
  - eapply Forall_impl; [|exact H]. intros n ->. reflexivity.
Qed.

Lemma voxelSize0_quotient c :
  ~ (Forall (fun x => Float.nonzero x = false) (RawHeaderFields.cellVolume c) \/
     Forall (fun n => n = 0) (RawHeaderFields.gridSize c)) ->
  voxelSize0 c =
  {| ftype := np.float32;
     fitems := map (fun xy => Float.div Float.binary32 (fst xy)
                                (Float.of_Z Float.binary32 (snd xy)))
                   (combine (rev (RawHeaderFields.cellVolume c))
                            (rev (RawHeaderFields.gridSize c))) |}.
Proof.
  intros H. unfold voxelSize0.
  destruct (_ || _) eqn:E; [|reflexivity].
  exfalso. apply H. apply orb_true_iff in E. destruct E as [E|E]; [left | right];
    apply existsb_none in E; [exact E|].
  eapply Forall_impl; [|exact E]. intros n Hn. apply negb_false_iff, Z.eqb_eq in Hn. exact Hn.
Qed.

(** C5, as the code has it. For a header that [parseHeader] accepts and
    whose extension word count is zero: when the three cell-volume words
    are all zero, or the three grid-size words are, the voxel size is
    [1, 1, 1]; otherwise it is the float32 quotient of the cell volume by
    the grid size, item by item. *)
Theorem C5_voxel_size_without_extension c out s w' :
  fileMRC.parseHeader (rd 0 c out) = (Ok s, w') ->
  RawHeaderFields.extensionWordCount c = 0 ->
  (Forall (fun x => Float.nonzero x = false) (RawHeaderFields.cellVolume c) \/
   Forall (fun n => n = 0) (RawHeaderFields.gridSize c) ->
   fileMRC.voxelSize s =
   {| ftype := np.float64; fitems := repeat (Float.of_Z Float.binary64 1) 3 |}) /\
  (~ (Forall (fun x => Float.nonzero x = false) (RawHeaderFields.cellVolume c) \/
      Forall (fun n => n = 0) (RawHeaderFields.gridSize c)) ->
   fileMRC.voxelSize s =
   {| ftype := np.float32;
      fitems := map (fun xy => Float.div Float.binary32 (fst xy)
                                 (Float.of_Z Float.binary32 (snd xy)))
                    (combine (fileMRC.volumeSize s) (fileMRC.gridSize s)) |}).
Proof.
  intros H X. apply parseHeader_inv in H.
  pose proof (p_voxelSize _ _ _ H) as V. rewrite X in V. cbn [Z.eqb] in V.
  destruct V as [V _]. rewrite V, (p_volumeSize _ _ _ H), (p_gridSize _ _ _ H).
  split; [apply voxelSize0_default | apply voxelSize0_quotient].
Qed.

Lemma C5_voxel_size_without_extension_witness :
  exists s w,
    fileMRC.parseHeader (rd 0 file_456 []) = (Ok s, w) /\
    RawHeaderFields.extensionWordCount file_456 = 0 /\
    fileMRC.voxelSize s = {| ftype := np.float32; fitems := [f32 2; f32 2; f32 2] |}.
Proof.
  destruct (fileMRC.parseHeader (rd 0 file_456 [])) as [r w] eqn:E.
  assert (R : exists s, r = Ok s /\
                fileMRC.volumeSize s = [f32 12; f32 10; f32 8] /\
                fileMRC.gridSize s = [6; 5; 4]).
  { apply (f_equal fst) in E. cbn [fst] in E. rewrite <- E. vm_compute.
    eexists. repeat split; reflexivity. }
  destruct R as (s & -> & Hv & Hg). exists s, w. split; [reflexivity|].
  assert (X : RawHeaderFields.extensionWordCount file_456 = 0) by (vm_compute; reflexivity).
  split; [exact X|].
  destruct (C5_voxel_size_without_extension file_456 [] s w E X) as [_ Q].
  rewrite Q.
  - rewrite Hv, Hg. vm_compute. reflexivity.
  - intros [F|F].
    + inversion F as [|x l F1 _]. vm_compute in F1. discriminate F1.
    + inversion F as [|x l F1 _]. vm_compute in F1. discriminate F1.
Defined.

(** C5, as stated, fails: the file [file_fei] has a cell volume of zeros
    and is decoded, and its voxel size is not [1, 1, 1], because its
    extension word count is not zero and the vendor override applies. *)
Lemma C5_counterexample :
  ~ (forall c out s w',
        fileMRC.parseHeader (rd 0 c out) = (Ok s, w') ->
        Forall (fun x => Float.nonzero x = false) (RawHeaderFields.cellVolume c) \/
        Forall (fun n => n = 0) (RawHeaderFields.gridSize c) ->
        Forall (fun x => Float.is_one x = true) (fitems (fileMRC.voxelSize s))).
Proof.
  intros C.
  destruct (fileMRC.parseHeader (rd 0 file_fei [])) as [r w] eqn:E.
  assert (R : exists s, r = Ok s /\
                Float.is_one (nth 1 (fitems (fileMRC.voxelSize s)) S754_nan) = false /\
                length (fitems (fileMRC.voxelSize s)) = 3%nat).
  { apply (f_equal fst) in E. cbn [fst] in E. rewrite <- E. vm_compute.
    eexists. repeat split; reflexivity. }
  destruct R as (s & -> & N & L).
  assert (F : Forall (fun x => Float.is_one x = true) (fitems (fileMRC.voxelSize s))).
  { apply (C file_fei [] s w E). left. vm_compute. repeat constructor. }
  rewrite Forall_forall in F.
  rewrite (F (nth 1 (fitems (fileMRC.voxelSize s)) S754_nan)) in N; [discriminate N|].
  apply nth_In. lia.
Qed.

(** C6. For a header that [parseHeader] accepts and whose extension word
    count is not zero: the file holds the 15 float32 words at byte 1024,
    they are returned under their names, and the voxel size is
    [1.0, p, p] where [p] is [pixel_size*1e10] (word 11, computed in
    float64), each stored in the item type of the array (float32 when the
    voxel size had been derived from the cell volume, float64 otherwise),
    whatever the cell volume and the grid size are. *)
Theorem C6_vendor_override c out s w' :
  fileMRC.parseHeader (rd 0 c out) = (Ok s, w') ->
  RawHeaderFields.extensionWordCount c <> 0 ->
  (1084 <= length c)%nat /\
  fileMRC.FEIinfo s = Some (combine FEIkeys (FEIinfoValues c)) /\
  (ftype (fileMRC.voxelSize s) = np.float32 \/ ftype (fileMRC.voxelSize s) = np.float64) /\
  fitems (fileMRC.voxelSize s) =
    [store (ftype (fileMRC.voxelSize s)) (Float.of_Z Float.binary64 1);
     store (ftype (fileMRC.voxelSize s)) (angstroms (RawHeaderFields.pixel_size c));
     store (ftype (fileMRC.voxelSize s)) (angstroms (RawHeaderFields.pixel_size c))] /\
  Float.is_one (nth 0 (fitems (fileMRC.voxelSize s)) S754_nan) = true.
Proof.
  intros H X. apply parseHeader_inv in H.
  pose proof (p_voxelSize _ _ _ H) as V.
  destruct (Z.eqb_spec (RawHeaderFields.extensionWordCount c) 0) as [Z0|_]; [contradiction|].
  destruct V as (fei & w & R & F).
  assert (T : exists t x0 x1 x2,
             voxelSize0 c = {| ftype := t; fitems := [x0; x1; x2] |} /\
             (t = np.float32 \/ t = np.float64)).
  { unfold voxelSize0, RawHeaderFields.cellVolume, RawHeaderFields.gridSize.
    destruct (_ || _); do 4 eexists; (split; [reflexivity|]); auto. }
  destruct T as (t & x0 & x1 & x2 & T & Ht). rewrite T in R.
  apply readFEI_inv in R. destruct R as (L & -> & ->).
  cbn [ftype fitems nth].
  repeat split; try assumption.
  destruct Ht as [-> | ->]; reflexivity.
Qed.

Lemma C6_vendor_override_witness :
  exists s w,
    fileMRC.parseHeader (rd 0 file_fei_cell []) = (Ok s, w) /\
    RawHeaderFields.extensionWordCount file_fei_cell = 15 /\
    fileMRC.voxelSize s =
      {| ftype := np.float32;
         fitems := [f32 1; Float.div Float.binary32 (f32 5) (f32 2);
                    Float.div Float.binary32 (f32 5) (f32 2)] |}.
Proof.
  destruct (fileMRC.parseHeader (rd 0 file_fei_cell [])) as [r w] eqn:E.
  assert (R : exists s, r = Ok s /\ ftype (fileMRC.voxelSize s) = np.float32).
  { apply (f_equal fst) in E. cbn [fst] in E. rewrite <- E. vm_compute.
    eexists. split; reflexivity. }
  destruct R as (s & -> & T). exists s, w. split; [reflexivity|].
  assert (X : RawHeaderFields.extensionWordCount file_fei_cell = 15) by (vm_compute; reflexivity).
  split; [exact X|].
  destruct (C6_vendor_override file_fei_cell [] s w E) as (_ & _ & _ & V & _).
  - rewrite X. discriminate.
  - destruct (fileMRC.voxelSize s) as [t l]. cbn [ftype fitems] in *. subst t l.
    vm_compute. reflexivity.
Defined.

(** ** Writing *)

Lemma open_wb_at w : open_wb w = (Ok tt, rd 0 [] (stdout w)).
Proof. reflexivity. Qed.

Lemma fid_write_at bs p c out :
  fid_write bs (rd p c out) = (Ok tt, rd (p + length bs) (write_at p bs c) out).
Proof. reflexivity. Qed.

Lemma header_placeholder : int32_array (repeat 0 256) = repeat Byte.x00 1024.
Proof. vm_compute. reflexivity. Qed.

Lemma write_at_end bs c : write_at (length c) bs c = c ++ bs.
Proof.
  unfold write_at. rewrite firstn_all, Nat.sub_diag, skipn_all2 by lia.
  cbn [repeat app]. rewrite app_nil_r. reflexivity.
Qed.

(** C8 (the code departs from the specification). The only test of
    the number of dimensions is [len(stack.shape) > 3].  A C-contiguous
    array of fewer than three dimensions passes it: [mrcWriter] writes
    the 1024 zero bytes of the header placeholder and then raises an
    exception (Python's IndexError, at [stack.shape[2]]).  It prints no
    message, returns neither 0 nor 1, and leaves the file open. *)
Theorem C8_fewer_dimensions_not_rejected (stack : np.ndarray)
    (pixelSize : list spec_float) (forceWrite : bool) (w : world) :
  (length (np.shape stack) < 3)%nat ->
  np.C_CONTIGUOUS stack = true ->
  mrcWriter stack pixelSize forceWrite w =
  (Raise IndexError,
   {| stdout := stdout w;
      disk := Some (repeat Byte.x00 1024);
      fid := Some {| pos := 0; closed := false |} |}).
Proof.
  intros N C. unfold mrcWriter.
  rewrite (bind_Ok _ _ _ _ _ (open_wb_at w)).
  destruct (Nat.ltb_spec 3 (length (np.shape stack))) as [L|L]; [lia|].
  rewrite C. cbn [negb].
  rewrite header_placeholder.
  rewrite (bind_Ok _ _ _ _ _ (fid_write_at _ _ _ _)).
  rewrite (bind_Ok _ _ _ _ _ (fid_seek_at 0 _ _ _ ltac:(lia))).
  assert (W : write_at 0 (repeat Byte.x00 1024) [] = repeat Byte.x00 1024).
  { unfold write_at. rewrite skipn_nil.
    change (firstn 0 (@nil byte)) with (@nil byte).
    change (repeat Byte.x00 (0 - length (@nil byte))) with (@nil byte).
    cbn [app]. apply app_nil_r. }
  rewrite W.
  destruct (np.shape stack) as [|a [|b [|c l]]]; cbn [length] in *;
    try reflexivity; lia.
Qed.

Lemma C8_fewer_dimensions_not_rejected_witness :
  let r := mrcWriter (float32_stack [2; 3] [1; 2; 3; 4; 5; 6]) [one64; one64; one64]
                     false (world0 None) in
  fst r = Raise IndexError /\ stdout (snd r) = [] /\
  disk (snd r) = Some (repeat Byte.x00 1024).
Proof.
  cbv zeta.
  rewrite (C8_fewer_dimensions_not_rejected
             (float32_stack [2; 3] [1; 2; 3; 4; 5; 6]) [one64; one64; one64] false
             (world0 None)); [repeat split | simpl; lia | reflexivity].
Defined.

Lemma C10_forceWrite_irrelevant_witness :
  let stack := {| np.dtype := np.float32; np.shape := [1; 1; 2]; np.C_CONTIGUOUS := false;
                  np.tobytes := float32_array [f32 1; f32 2] |} in
  mrcWriter stack [one64; one64; one64] true (world0 None) =
  mrcWriter stack [one64; one64; one64] false (world0 None) /\
  fst (mrcWriter stack [one64; one64; one64] true (world0 None)) = Ok 0 /\
  disk (snd (mrcWriter stack [one64; one64; one64] true (world0 None))) = Some [].
Proof.
  intros stack.
  destruct (C10_forceWrite_irrelevant stack [one64; one64; one64] (world0 None)) as [E R].
  split; [exact E|]. apply R. reflexivity.
Defined.

(** ** The layout of the written file *)

Lemma length_int32_array l : length (int32_array l) = (4 * length l)%nat.
Proof.
  unfold int32_array. induction l as [|z l IH]; [reflexivity|].
  cbn [map concat]. rewrite length_app, IH. unfold Int.tobytes.
  rewrite length_le_split. cbn [length]. lia.
Qed.

Lemma length_float32_tobytes x : length (Float.tobytes Float.binary32 x) = 4%nat.
Proof. unfold Float.tobytes. apply length_le_split. Qed.

Lemma length_float32_array l : length (float32_array l) = (4 * length l)%nat.
Proof.
  unfold float32_array. induction l as [|z l IH]; [reflexivity|].
  cbn [map concat]. rewrite length_app, IH, length_float32_tobytes. cbn [length]. lia.
Qed.

Lemma length_int8_array l : length (int8_array l) = length l.
Proof.
  unfold int8_array. induction l as [|z l IH]; [reflexivity|].
  cbn [map concat]. rewrite length_app, IH. unfold Int.tobytes.
  rewrite length_le_split. reflexivity.
Qed.

Ltac len :=
  repeat rewrite ?length_app, ?length_int32_array, ?length_float32_array,
    ?length_float32_tobytes, ?length_int8_array, ?repeat_length;
  cbn [length]; try lia.

Lemma skipn_repeat {A} (x : A) k n : skipn k (repeat x n) = repeat x (n - k).
Proof.
  revert n. induction k as [|k IH]; intros n.
  - rewrite Nat.sub_0_r. reflexivity.
  - destruct n as [|n]; [reflexivity|]. cbn [repeat skipn]. apply IH.
Qed.

Lemma firstn_repeat {A} (x : A) k n : (k <= n)%nat -> firstn k (repeat x n) = repeat x k.
Proof.
  revert n. induction k as [|k IH]; intros n H; [reflexivity|].
  destruct n as [|n]; [lia|]. cbn [repeat firstn]. f_equal. apply IH. lia.
Qed.

(** A write into the zeros that follow what has been written so far. *)
Lemma fid_write_zeros pre k bs n out p :
  p = (length pre + k)%nat -> (length bs + k <= n)%nat ->
  fid_write bs (rd p (pre ++ repeat Byte.x00 n) out) =
  (Ok tt, rd (p + length bs)
             ((pre ++ repeat Byte.x00 k ++ bs) ++ repeat Byte.x00 (n - k - length bs)) out).
Proof.
  intros -> H. rewrite fid_write_at. do 2 f_equal. unfold write_at.
  rewrite firstn_app, firstn_all2 by lia.
  replace (length pre + k - length pre)%nat with k by lia.
  rewrite firstn_repeat by lia.
  replace (length pre + k - length (pre ++ repeat Byte.x00 n))%nat with 0%nat
    by (rewrite length_app, repeat_length; lia).
  rewrite skipn_app, skipn_all2 by lia.
  rewrite skipn_repeat. cbn [repeat app].
  rewrite <- !app_assoc. do 4 f_equal. lia.
Qed.

Lemma fid_write_next pre bs n out p :
  p = length pre -> (length bs <= n)%nat ->
  fid_write bs (rd p (pre ++ repeat Byte.x00 n) out) =
  (Ok tt, rd (p + length bs) ((pre ++ bs) ++ repeat Byte.x00 (n - length bs)) out).
Proof.
  intros Hp H. rewrite (fid_write_zeros pre 0 bs n out p) by lia.
  cbn [repeat app]. rewrite Nat.sub_0_r. reflexivity.
Qed.

Lemma fid_write_end bs c out p :
  p = length c ->
  fid_write bs (rd p c out) = (Ok tt, rd (p + length bs) (c ++ bs) out).
Proof. intros ->. rewrite fid_write_at, write_at_end. reflexivity. Qed.

Lemma fid_close_at p c out :
  fid_close (rd p c out) =
  (Ok tt, {| stdout := out; disk := Some c; fid := Some {| pos := p; closed := true |} |}).
Proof. reflexivity. Qed.

Lemma length_written_header n1 n2 n3 code xlen ylen zlen mn mx mean :
  length (written_header n1 n2 n3 code xlen ylen zlen mn mx mean) = 1024%nat.
Proof. unfold written_header. len. Qed.

Lemma mrcWriter_writes stack p0 p1 p2 forceWrite w n1 n2 n3 code mn mx :
  np.shape stack = [n1; n2; n3] ->
  np.C_CONTIGUOUS stack = true ->
  mrc_code (np.dtype stack) = Some code ->
  np.min stack = Ok mn -> np.max stack = Ok mx ->
  mrcWriter stack [p0; p1; p2] forceWrite w =
  (Ok 1,
   {| stdout := stdout w;
      disk := Some (written_header n1 n2 n3 code
                      (Float.convert Float.binary32
                         (Float.mul Float.binary64 p2 (Float.of_Z Float.binary64 n3)))
                      (Float.convert Float.binary32
                         (Float.mul Float.binary64 p1 (Float.of_Z Float.binary64 n2)))
                      (Float.convert Float.binary32
                         (Float.mul Float.binary64 p0 (Float.of_Z Float.binary64 n1)))
                      (np.to_float32 mn) (np.to_float32 mx)
                      (np.to_float32 (np.mean stack))
                    ++ np.tobytes stack);
      fid := Some {| pos := 1024 + length (np.tobytes stack); closed := true |} |}).
Proof.
  intros Hs Hc Hd Hmn Hmx. unfold mrcWriter.
  rewrite (bind_Ok _ _ _ _ _ (open_wb_at w)).
  rewrite Hs, Hc, Hd, Hmn, Hmx. cbn [length Nat.ltb Nat.leb negb].
  rewrite header_placeholder.
  rewrite (bind_Ok _ _ _ _ _ (fid_write_at _ _ _ _)).
  rewrite (bind_Ok _ _ _ _ _ (fid_seek_at 0 _ _ _ ltac:(lia))).
  change (write_at 0 (repeat Byte.x00 1024) []) with ([] ++ repeat Byte.x00 1024).
  change (Z.to_nat 0) with 0%nat.
  change (getitem [n1; n2; n3] 2) with (Ok n3).
  change (getitem [n1; n2; n3] 1) with (Ok n2).
  change (getitem [n1; n2; n3] 0) with (Ok n1).
  rewrite !bind_lift_Ok.
  change (repeat 0 10%nat) with [0; 0; 0; 0; 0; 0; 0; 0; 0; 0].
  cbn [set_nth].
  change (cell_length [p0; p1; p2] [n1; n2; n3] 2)
    with (Ok (Float.convert Float.binary32
                (Float.mul Float.binary64 p2 (Float.of_Z Float.binary64 n3)))).
  change (cell_length [p0; p1; p2] [n1; n2; n3] 1)
    with (Ok (Float.convert Float.binary32
                (Float.mul Float.binary64 p1 (Float.of_Z Float.binary64 n2)))).
  change (cell_length [p0; p1; p2] [n1; n2; n3] 0)
    with (Ok (Float.convert Float.binary32
                (Float.mul Float.binary64 p0 (Float.of_Z Float.binary64 n1)))).
  do 9 (rewrite ?bind_lift_Ok; erewrite bind_Ok; [| apply fid_write_next; len]).
  rewrite (bind_Ok _ _ _ _ _ (fid_seek_at 212 _ _ _ ltac:(lia))).
  change (Z.to_nat 212) with 212%nat.
  erewrite bind_Ok; [| apply (fid_write_zeros _ 124); len].
  rewrite (bind_Ok _ _ _ _ _ (fid_seek_at 1024 _ _ _ ltac:(lia))).
  change (Z.to_nat 1024) with 1024%nat.
  assert (W : forall w', (if forceWrite then fid_write_array (np.ascontiguousarray stack)
                          else fid_write_array stack) w' = fid_write (np.tobytes stack) w').
  { intros w'. unfold np.ascontiguousarray, fid_write_array.
    destruct forceWrite; repeat (rewrite Hc; cbv iota); reflexivity. }
  erewrite bind_Ok; [| rewrite W; apply fid_write_end; len].
  rewrite (bind_Ok _ _ _ _ _ (fid_close_at _ _ _)).
  unfold ret, written_header. do 4 f_equal.
Qed.

Lemma region {A} (pre mid post : list A) k n :
  length pre = k -> length mid = n ->
  firstn n (skipn k (pre ++ mid ++ post)) = mid.
Proof.
  intros <- <-. rewrite skipn_app, skipn_all, Nat.sub_diag. cbn [skipn app].
  rewrite firstn_app, firstn_all, Nat.sub_diag. cbn [firstn]. apply app_nil_r.
Qed.

(** ** Minimum, maximum and mean *)

Lemma values_nonempty (a : np.ndarray) :
  (0 < length (np.tobytes a))%nat ->
  (np.itemsize (np.dtype a) <= length (np.tobytes a))%nat ->
  exists v vs, np.values a = v :: vs.
Proof.
  intros H0 H. unfold np.values.
  destruct (length (np.tobytes a)) as [|k] eqn:E; [lia|].
  cbn [np.items_of]. rewrite E.
  destruct (Nat.ltb_spec (S k) (np.itemsize (np.dtype a))) as [L|L]; [lia|].
  cbn [map]. eauto.
Qed.

Lemma prod_3 n1 n2 n3 : np.prod [n1; n2; n3] = n1 * n2 * n3.
Proof. unfold np.prod. cbn [fold_left]. lia. Qed.

Lemma itemsize_pos d : (0 < np.itemsize d)%nat.
Proof. destruct d; cbn; lia. Qed.

Lemma stats_exist (a : np.ndarray) n1 n2 n3 :
  np.wf a -> np.shape a = [n1; n2; n3] -> 1 <= n1 -> 1 <= n2 -> 1 <= n3 ->
  exists mn mx, np.min a = Ok mn /\ np.max a = Ok mx.
Proof.
  intros W S H1 H2 H3.
  pose proof (np.wf_size _ W) as Z. rewrite S, prod_3 in Z.
  pose proof (itemsize_pos (np.dtype a)) as P.
  assert (Q : 1 <= n1 * n2 * n3) by nia.
  assert (L : Z.of_nat (np.itemsize (np.dtype a)) <= Z.of_nat (length (np.tobytes a))) by nia.
  destruct (values_nonempty a) as (v & vs & V); [lia | lia |].
  unfold np.min, np.max. rewrite V. eauto.
Qed.

Lemma float32_array_cons x l :
  float32_array (x :: l) = Float.tobytes Float.binary32 x ++ float32_array l.
Proof. reflexivity. Qed.

Lemma float32_array_nil : float32_array [] = [].
Proof. reflexivity. Qed.

Lemma written_header_parts n1 n2 n3 code xlen ylen zlen mn mx mean :
  written_header n1 n2 n3 code xlen ylen zlen mn mx mean =
  (int32_array [Int.np_int32 n3; Int.np_int32 n2; Int.np_int32 n1; code;
                0; 0; 0; Int.np_int32 n3; Int.np_int32 n2; Int.np_int32 n1]
   ++ float32_array [xlen; ylen; zlen; Float.of_Z Float.binary32 90;
                     Float.of_Z Float.binary32 90; Float.of_Z Float.binary32 90])
  ++ int32_array [1; 2; 3]
  ++ float32_array [mn; mx; mean]
  ++ repeat Byte.x00 124 ++ int8_array [68; 65; 0; 0] ++ repeat Byte.x00 808.
Proof.
  unfold written_header.
  change (repeat (Float.of_Z Float.binary32 90) 3)
    with [Float.of_Z Float.binary32 90; Float.of_Z Float.binary32 90;
          Float.of_Z Float.binary32 90].
  rewrite !float32_array_cons, float32_array_nil, <- !app_assoc, ?app_nil_r.
  cbn [app]. reflexivity.
Qed.

(** The pieces of the header. *)

Lemma skipn_piece {A} (a l : list A) j k :
  length a = j -> (j <= k)%nat -> skipn k (a ++ l) = skipn (k - j) l.
Proof.
  intros <- H. rewrite skipn_app, skipn_all2 by lia. reflexivity.
Qed.

Lemma firstn_piece {A} (a l : list A) n : length a = n -> firstn n (a ++ l) = a.
Proof.
  intros <-. rewrite firstn_app, firstn_all, Nat.sub_diag. cbn [firstn]. apply app_nil_r.
Qed.

Lemma int32_array_cons z l :
  int32_array (z :: l) = Int.tobytes 4 (Int.np_int32 z) ++ int32_array l.
Proof. reflexivity. Qed.

(** The header [mrcWriter] writes, piece by piece. *)
Lemma written_header_words n1 n2 n3 code xlen ylen zlen mn mx mean :
  written_header n1 n2 n3 code xlen ylen zlen mn mx mean =
  int32_array [Int.np_int32 n3; Int.np_int32 n2; Int.np_int32 n1; code]
  ++ repeat Byte.x00 12
  ++ int32_array [Int.np_int32 n3; Int.np_int32 n2; Int.np_int32 n1]
  ++ float32_array [xlen; ylen; zlen]
  ++ float32_array [Float.of_Z Float.binary32 90; Float.of_Z Float.binary32 90;
                    Float.of_Z Float.binary32 90]
  ++ int32_array [1; 2; 3]
  ++ float32_array [mn; mx; mean]
  ++ repeat Byte.x00 124
  ++ [Byte.x44; Byte.x41; Byte.x00; Byte.x00]
  ++ repeat Byte.x00 808.
Proof.
  rewrite written_header_parts.
  rewrite !int32_array_cons, !float32_array_cons, <- !app_assoc.
  change (Int.tobytes 4 (Int.np_int32 0)) with (repeat Byte.x00 4).
  change (int8_array [68; 65; 0; 0]) with [Byte.x44; Byte.x41; Byte.x00; Byte.x00].
  change (repeat Byte.x00 12) with (repeat Byte.x00 4 ++ repeat Byte.x00 4 ++ repeat Byte.x00 4).
  rewrite <- !app_assoc. reflexivity.
Qed.

Ltac drop_piece :=
  erewrite skipn_piece; [| len; reflexivity | cbn; lia];
  cbn [Nat.sub Nat.mul Nat.add].

(** The order of floats. *)






Lemma leb_not_nan x y : Float.leb x y = true -> Float.is_nan x = false /\ Float.is_nan y = false.
Proof. destruct x, y; cbn; try discriminate; auto. Qed.

(** The order of the items. *)

















(** The depth of the splitting: the length of the buffer is enough. *)
Lemma pairwise_sum_fuel f : forall fuel1 fuel2 a,
  (length a <= fuel1)%nat -> (length a <= fuel2)%nat ->
  np.pairwise_sum_upto fuel1 f a = np.pairwise_sum_upto fuel2 f a.
Proof.
  induction fuel1 as [|k1 IH]; intros fuel2 a H1 H2.
  - destruct a; [|cbn in H1; lia]. destruct fuel2; reflexivity.
  - destruct fuel2 as [|k2].
    + destruct a; [|cbn in H2; lia]. reflexivity.
    + cbn [np.pairwise_sum_upto].
      destruct (Nat.ltb_spec 128 (length a)) as [L|L]; [|reflexivity].
      set (n2 := (length a / 2 - (length a / 2) mod 8)%nat).
      assert (B : (0 < n2 < length a)%nat).
      { subst n2.
        pose proof (Nat.mod_upper_bound (length a / 2) 8 ltac:(lia)).
        pose proof (Nat.Div0.div_lt_upper_bound (length a) 2 (length a) ltac:(lia)).
        assert (64 <= length a / 2)%nat by (apply Nat.div_le_lower_bound; lia).
        lia. }
      f_equal; apply IH; rewrite ?length_firstn, ?length_skipn; lia.
Qed.





(** The sum of [np.mean] is not the sum from left to right: sixteen
    float32 items, 2^24 and fifteen times 1, have the mean
    16777230/16 (the bytes 07 00 80 49), where adding the items one
    after the other gives 2^20. *)
Example mean_in_lanes :
  map byte.unsigned
    (Float.tobytes Float.binary32
       (np.to_float32 (np.mean (float32_stack [1; 1; 16] (16777216 :: repeat 1 15)))))
  = [7; 0; 128; 73].
Proof. vm_compute. reflexivity. Qed.

(** ** Reading back what was written *)

Lemma frombytes_signed_le_split z : Int.frombytes_signed (le_split 4 z) = Int.np_int32 z.
Proof.
  unfold Int.frombytes_signed, Int.np_int32, Int.wrap_signed.
  rewrite length_le_split, le_combine_split.
  change (8 * Z.of_nat 4) with 32. change (Z.of_nat 4 * 8) with 32.
  rewrite Zplus_mod_idemp_l. reflexivity.
Qed.

Lemma np_int32_small z : - 2 ^ 31 <= z < 2 ^ 31 -> Int.np_int32 z = z.
Proof.
  intros H. unfold Int.np_int32, Int.wrap_signed.
  change (32 - 1) with 31. rewrite Z.mod_small; lia.
Qed.

Lemma getMRCType_of_code d code w :
  mrc_code d = Some code -> fileMRC._getMRCType code w = (Ok d, w).
Proof. destruct d; intros H; inversion H; reflexivity. Qed.

Lemma voxelSize_step (vol : list spec_float) (grid : list Z) w :
  length vol = 3%nat -> length grid = 3%nat ->
  exists v,
    (if negb (existsb Float.nonzero vol) || negb (existsb (fun n => negb (n =? 0)) grid)
     then ret {| ftype := np.float64; fitems := repeat (Float.of_Z Float.binary64 1) 3 |}
     else q <- lift (divide vol (map (Float.of_Z Float.binary32) grid)) ;;
          ret {| ftype := np.float32; fitems := q |}) w = (Ok v, w).
Proof.
  intros Hv Hg.
  destruct vol as [|v0 [|v1 [|v2 [|]]]]; try discriminate Hv.
  destruct grid as [|g0 [|g1 [|g2 [|]]]]; try discriminate Hg.
  destruct (_ || _); eexists; reflexivity.
Qed.

Lemma parseHeader_total c out t Sh :
  (96 <= length c)%nat ->
  (forall w, fileMRC._getMRCType (RawHeaderFields.mrcTypeCode c) w = (Ok t, w)) ->
  comprehension (fun x => getitem (RawHeaderFields.dims c) (x - 1))
                (RawHeaderFields.axisOrder c) = Ok Sh ->
  RawHeaderFields.extensionWordCount c = 0 ->
  exists s, fileMRC.parseHeader (rd 0 c out) = (Ok s, rd 1024 c out) /\
            fileMRC.dataType s = t.
Proof.
  intros L T S X. unfold fileMRC.parseHeader.
  rewrite (bind_Ok _ _ _ _ _ (fromfile_int32_at 10 0 c out ltac:(lia))).
  change (Z.to_nat 10) with 10%nat.
  rewrite next_pos_complete, int32_items by lia.
  cbn [seq map Nat.add Nat.mul slice Nat.sub firstn skipn].
  change (getitem _ 3) with (Ok (RawHeaderFields.mrcTypeCode c)).
  rewrite bind_lift_Ok.
  rewrite (bind_Ok _ _ _ _ _ (T _)).
  rewrite (bind_Ok _ _ _ _ _ (fromfile_float32_at 6 _ c out ltac:(lia))).
  change (Z.to_nat 6) with 6%nat.
  rewrite next_pos_complete, float32_items by lia.
  cbn [seq map Nat.add Nat.mul slice Nat.sub firstn skipn].
  destruct (voxelSize_step [float32_at c 40; float32_at c 44; float32_at c 48]
              [int32_at c 28; int32_at c 32; int32_at c 36] (rd 64 c out) eq_refl eq_refl)
    as [v V].
  rewrite (bind_Ok _ _ _ _ _ V).
  rewrite (bind_Ok _ _ _ _ _ (fromfile_int32_at 3 _ c out ltac:(lia))).
  change (Z.to_nat 3) with 3%nat.
  rewrite next_pos_complete, int32_items by lia.
  cbn [seq map Nat.add Nat.mul].
  fold (RawHeaderFields.dims c). fold (RawHeaderFields.axisOrder c).
  rewrite S, bind_lift_Ok.
  rewrite (bind_Ok _ _ _ _ _ (fromfile_int32_at 3 _ c out ltac:(lia))).
  change (Z.to_nat 3) with 3%nat.
  rewrite next_pos_complete by lia.
  rewrite (bind_Ok _ _ _ _ _ (fromfile_int32_at 34 _ c out ltac:(lia))).
  rewrite (bind_Ok _ _ _ _ _ (fid_seek_at 1024 _ _ _ ltac:(lia))).
  change (Z.to_nat 1024) with 1024%nat. change (Z.to_nat 34) with 34%nat.
  assert (E : getitem (map Int.frombytes_signed (np.items_of 4 34 (skipn 88 c))) 1
              = Ok 0).
  { apply (getitem_nth_error _ 1%nat).
    rewrite nth_error_map, (items_of_nth 4 34 1); [| lia | rewrite length_skipn; lia].
    cbn [option_map]. rewrite skipn_skipn. rewrite <- X. reflexivity. }
  cbn [Nat.add Nat.mul]. rewrite E, bind_lift_Ok.
  cbn [Z.eqb negb].
  eexists. split; reflexivity.
Qed.

Lemma np_int32_range z : - 2 ^ 31 <= Int.np_int32 z < 2 ^ 31.
Proof.
  unfold Int.np_int32, Int.wrap_signed. change (32 - 1) with 31.
  pose proof (Z.mod_pos_bound (z + 2 ^ 31) (2 ^ 32) ltac:(lia)). lia.
Qed.

Lemma np_int32_idem z : Int.np_int32 (Int.np_int32 z) = Int.np_int32 z.
Proof. apply np_int32_small, np_int32_range. Qed.

Lemma written_fields n1 n2 n3 code xlen ylen zlen mn mx mean data :
  let c := written_header n1 n2 n3 code xlen ylen zlen mn mx mean ++ data in
  RawHeaderFields.dims c = [Int.np_int32 n3; Int.np_int32 n2; Int.np_int32 n1] /\
  RawHeaderFields.mrcTypeCode c = Int.np_int32 code /\
  RawHeaderFields.axisOrder c = [1; 2; 3] /\
  RawHeaderFields.extensionWordCount c = 0.
Proof.
  intros c. subst c.
  unfold RawHeaderFields.dims, RawHeaderFields.mrcTypeCode, RawHeaderFields.axisOrder,
    RawHeaderFields.extensionWordCount.
  change (int32_at _ 0) with (Int.frombytes_signed (le_split 4 (Int.np_int32 (Int.np_int32 n3)))).
  change (int32_at _ 4) with (Int.frombytes_signed (le_split 4 (Int.np_int32 (Int.np_int32 n2)))).
  change (int32_at _ 8) with (Int.frombytes_signed (le_split 4 (Int.np_int32 (Int.np_int32 n1)))).
  change (int32_at _ 12) with (Int.frombytes_signed (le_split 4 (Int.np_int32 code))).
  change (int32_at _ 64) with (Int.frombytes_signed (le_split 4 (Int.np_int32 1))).
  change (int32_at _ 68) with (Int.frombytes_signed (le_split 4 (Int.np_int32 2))).
  change (int32_at _ 72) with (Int.frombytes_signed (le_split 4 (Int.np_int32 3))).
  change (int32_at _ 92) with (Int.frombytes_signed (le_split 4 0)).
  rewrite !frombytes_signed_le_split, !np_int32_idem.
  repeat split; reflexivity.
Qed.

(** The shape [parseHeader] decodes from a file [mrcWriter] wrote: the
    dimensions of the array as int32. *)
Lemma written_Shape n1 n2 n3 code xlen ylen zlen mn mx mean data :
  let c := written_header n1 n2 n3 code xlen ylen zlen mn mx mean ++ data in
  comprehension (fun x => getitem (RawHeaderFields.dims c) (x - 1))
                (RawHeaderFields.axisOrder c)
  = Ok [Int.np_int32 n3; Int.np_int32 n2; Int.np_int32 n1].
Proof.
  intros c. destruct (written_fields n1 n2 n3 code xlen ylen zlen mn mx mean data)
    as (D & _ & A & _).
  fold c in D, A. rewrite D, A. reflexivity.
Qed.

Lemma concat_items_of size n : forall l,
  length l = (size * n)%nat -> concat (np.items_of size n l) = l.
Proof.
  induction n as [|n IH]; intros l H.
  - rewrite Nat.mul_0_r in H. destruct l; [reflexivity | discriminate H].
  - cbn [np.items_of].
    destruct (Nat.ltb_spec (length l) size) as [Hs|Hs]; [lia|].
    cbn [concat]. rewrite IH; [apply firstn_skipn|]. rewrite length_skipn. lia.
Qed.

Lemma np_int64_small z : - 2 ^ 63 <= z < 2 ^ 63 -> Int.np_int64 z = z.
Proof.
  intros H. unfold Int.np_int64, Int.wrap_signed.
  change (64 - 1) with 63. rewrite Z.mod_small; lia.
Qed.

Lemma prod_int64_3 n1 n2 n3 :
  1 <= n1 -> 1 <= n2 -> 1 <= n3 -> n1 * n2 * n3 < 2 ^ 63 ->
  np.prod_int64 [n1; n2; n3] = n1 * n2 * n3.
Proof.
  intros H1 H2 H3 B. unfold np.prod_int64. cbn [fold_left].
  rewrite Z.mul_1_l.
  assert (n1 * n2 <= n1 * n2 * n3) by nia.
  assert (n1 <= n1 * n2) by nia.
  rewrite (np_int64_small n1) by lia.
  rewrite (np_int64_small (n1 * n2)) by lia.
  apply np_int64_small. lia.
Qed.

Lemma reshape_3 n1 n2 n3 :
  1 <= n1 -> 1 <= n2 -> 1 <= n3 -> n1 * n2 * n3 < 2 ^ 63 ->
  np.reshape_shape (n1 * n2 * n3) [n1; n2; n3] = Ok [n1; n2; n3].
Proof.
  intros H1 H2 H3 B. unfold np.reshape_shape. cbn [filter np.known_size].
  destruct (Z.ltb_spec n1 0); [lia|]. destruct (Z.ltb_spec n2 0); [lia|].
  destruct (Z.ltb_spec n3 0); [lia|].
  assert (n1 * n2 <= n1 * n2 * n3) by nia.
  assert (n1 <= n1 * n2) by nia.
  rewrite Z.mul_1_l.
  destruct (Z.leb_spec (2 ^ 63) n1); [lia|].
  destruct (Z.leb_spec (2 ^ 63) (n1 * n2)); [lia|].
  destruct (Z.leb_spec (2 ^ 63) (n1 * n2 * n3)); [lia|].
  rewrite Z.eqb_refl. reflexivity.
Qed.

(** [getDataset], step by step. *)
Lemma getDataset_eq s w :
  fileMRC.getDataset s w =
  (fid_seek (fileMRC.dataOffset s) ;;;
   its <- fromfile (np.itemsize (fileMRC.dataType s))
                   (np.prod_int64 (fileMRC.dataSize s)) ;;
   shape <- lift (np.reshape_shape (Z.of_nat (length its)) (fileMRC.Shape s)) ;;
   ret (Build_dataOut (fileMRC.voxelSize s) (fileMRC.axisOrientations s)
          (fileMRC.cellAngles s) (fileMRC.FEIinfo s)
          (Some {| np.dtype := fileMRC.dataType s; np.shape := shape;
                   np.C_CONTIGUOUS := true; np.tobytes := concat its |}))) w.
Proof. reflexivity. Qed.

Lemma getDataset_reads s hdr bytes out p n1 n2 n3 :
  length hdr = 1024%nat ->
  fileMRC.dataOffset s = 1024 ->
  fileMRC.dataSize s = [n1; n2; n3] -> fileMRC.Shape s = [n1; n2; n3] ->
  1 <= n1 -> 1 <= n2 -> 1 <= n3 -> n1 * n2 * n3 < 2 ^ 63 ->
  Z.of_nat (length bytes) = Z.of_nat (np.itemsize (fileMRC.dataType s)) * (n1 * n2 * n3) ->
  fst (fileMRC.getDataset s (rd p (hdr ++ bytes) out)) =
  Ok (Build_dataOut (fileMRC.voxelSize s) (fileMRC.axisOrientations s)
        (fileMRC.cellAngles s) (fileMRC.FEIinfo s)
        (Some {| np.dtype := fileMRC.dataType s; np.shape := [n1; n2; n3];
                 np.C_CONTIGUOUS := true; np.tobytes := bytes |})).
Proof.
  intros Lh Ho Hd Hs H1 H2 H3 B Lb. rewrite getDataset_eq.
  rewrite Ho, Hd, Hs, prod_int64_3 by assumption.
  rewrite (bind_Ok _ _ _ _ _ (fid_seek_at 1024 _ _ _ ltac:(lia))).
  change (Z.to_nat 1024) with 1024%nat.
  rewrite (bind_Ok _ _ _ _ _ (fromfile_at _ (n1 * n2 * n3) _ _ _ ltac:(nia))).
  rewrite skipn_app, skipn_all2, Lh, Nat.sub_diag by lia. cbn [skipn app].
  assert (Ln : length bytes
               = (np.itemsize (fileMRC.dataType s) * Z.to_nat (n1 * n2 * n3))%nat) by nia.
  rewrite items_of_full by lia.
  rewrite Z2Nat.id by nia.
  rewrite reshape_3, bind_lift_Ok by assumption.
  rewrite concat_items_of by exact Ln. reflexivity.
Qed.

(** ** The round trip *)

Lemma mrc_code_range d code : mrc_code d = Some code -> Int.np_int32 code = code.
Proof. destruct d; intros H; inversion H; reflexivity. Qed.

(** C1, as the code has it. For every supported sample type and every
    shape [(n1, n2, n3)] whose dimensions are at least 1 and fit an int32
    header word, writing a C-contiguous array with [mrcWriter] and reading
    the file with [parseHeader] and [getDataset] ([mrcReader]) gives the
    original shape, the original sample type and an array equal to the
    original one, whatever the pixel size. *)
Theorem C1_round_trip stack p0 p1 p2 forceWrite w n1 n2 n3 :
  np.wf stack -> np.shape stack = [n1; n2; n3] ->
  1 <= n1 < 2 ^ 31 -> 1 <= n2 < 2 ^ 31 -> 1 <= n3 < 2 ^ 31 ->
  np.C_CONTIGUOUS stack = true ->
  mrc_code (np.dtype stack) <> None ->
  round_trips stack [p0; p1; p2] forceWrite w.
Proof.
  intros W S H1 H2 H3 C D.
  destruct (stats_exist stack n1 n2 n3 W S ltac:(lia) ltac:(lia) ltac:(lia))
    as (mn & mx & Hmn & Hmx).
  destruct (mrc_code (np.dtype stack)) as [code|] eqn:E; [clear D | contradiction].
  unfold round_trips.
  rewrite (mrcWriter_writes stack p0 p1 p2 forceWrite w n1 n2 n3 code mn mx S C E Hmn Hmx).
  cbn [fst snd disk].
  match goal with |- context [Some (?h ++ np.tobytes stack)] => set (hdr := h) end.
  assert (Lh : length hdr = 1024%nat) by apply length_written_header.
  exists (hdr ++ np.tobytes stack). split; [reflexivity|]. split; [reflexivity|].
  destruct (written_fields n1 n2 n3 code
              (Float.convert Float.binary32
                 (Float.mul Float.binary64 p2 (Float.of_Z Float.binary64 n3)))
              (Float.convert Float.binary32
                 (Float.mul Float.binary64 p1 (Float.of_Z Float.binary64 n2)))
              (Float.convert Float.binary32
                 (Float.mul Float.binary64 p0 (Float.of_Z Float.binary64 n1)))
              (np.to_float32 mn) (np.to_float32 mx) (np.to_float32 (np.mean stack))
              (np.tobytes stack)) as (Fd & Fm & Fa & Fx).
  fold hdr in Fd, Fm, Fa, Fx.
  rewrite (mrc_code_range _ _ E) in Fm.
  rewrite !np_int32_small in Fd by lia.
  destruct (parseHeader_total (hdr ++ np.tobytes stack) [] (np.dtype stack) [n3; n2; n1])
    as (s & P & T).
  - rewrite length_app. lia.
  - intros w0. rewrite Fm. apply getMRCType_of_code, E.
  - rewrite Fd, Fa. reflexivity.
  - exact Fx.
  - pose proof (parseHeader_inv _ _ _ _ P) as I.
    assert (Sh : fileMRC.Shape s = [n1; n2; n3]).
    { pose proof (p_Shape _ _ _ I) as Q. rewrite Fd, Fa in Q.
      change (comprehension _ [1; 2; 3]) with (Ok [n3; n2; n1]) in Q.
      assert (R : rev (fileMRC.Shape s) = [n3; n2; n1]) by congruence.
      rewrite <- (rev_involutive (fileMRC.Shape s)), R. reflexivity. }
    split.
    + exists s, (rd 1024 (hdr ++ np.tobytes stack) []).
      split; [exact P|]. split; [rewrite Sh, S; reflexivity | exact T].
    + pose proof (np.wf_size _ W) as Z. pose proof (np.wf_intp _ W) as B.
      rewrite S, prod_3 in Z. pose proof (itemsize_pos (np.dtype stack)) as Ip.
      assert (Q : 1 <= n1 * n2 * n3) by nia.
      assert (B63 : n1 * n2 * n3 < 2 ^ 63).
      { remember (n1 * n2 * n3) as N. remember (Z.of_nat (np.itemsize (np.dtype stack))) as k.
        assert (1 <= k) by lia. nia. }
      eexists. split.
      * unfold mrcReader. cbn [fst]. unfold bind at 1. rewrite init_opens.
        rewrite (bind_Ok _ _ _ _ _ P).
        apply (getDataset_reads s hdr (np.tobytes stack) [] 1024 n1 n2 n3); try lia.
        -- rewrite (p_dataOffset _ _ _ I), Fx. reflexivity.
        -- rewrite (p_dataSize _ _ _ I), Fd. reflexivity.
        -- exact Sh.
        -- rewrite T. exact Z.
      * cbn [data]. rewrite T. destruct stack as [d sh cc b].
        cbn [np.dtype np.shape np.C_CONTIGUOUS np.tobytes] in *. subst sh cc. reflexivity.
Qed.

Lemma C1_round_trip_witness :
  round_trips (float32_stack [2; 1; 3] [1; 2; 3; 4; 5; 6]) [one64; one64; one64]
              false (world0 None).
Proof.
  apply (C1_round_trip (float32_stack [2; 1; 3] [1; 2; 3; 4; 5; 6])
           one64 one64 one64 false (world0 None) 2 1 3).
  - constructor; [repeat constructor; lia | vm_compute; reflexivity | vm_compute; reflexivity].
  - reflexivity.
  - lia.
  - lia.
  - lia.
  - reflexivity.
  - discriminate.
Defined.

Lemma int8_zeros_wf n : 0 <= n < 2 ^ 63 -> np.wf (int8_zeros n).
Proof.
  intros H. constructor; unfold int8_zeros;
    cbn [np.shape np.tobytes np.dtype np.itemsize].
  - repeat constructor; lia.
  - rewrite repeat_length, Z2Nat.id, prod_3 by lia. lia.
  - rewrite repeat_length, Z2Nat.id by lia. lia.
Qed.

(** C1, as stated, fails: the int8 array of shape (1, 1, 2^31) is a
    C-contiguous array of a supported type whose dimensions are at least
    1, and the file [mrcWriter] writes for it is decoded with the shape
    (1, 1, -2^31), because the header holds the dimensions as int32. *)
Lemma C1_counterexample :
  np.wf (int8_zeros 2147483648) /\
  np.shape (int8_zeros 2147483648) = [1; 1; 2147483648] /\
  np.C_CONTIGUOUS (int8_zeros 2147483648) = true /\
  mrc_code (np.dtype (int8_zeros 2147483648)) = Some 0 /\
  ~ round_trips (int8_zeros 2147483648) [one64; one64; one64] false (world0 None).
Proof.
  assert (W : np.wf (int8_zeros 2147483648)) by (apply int8_zeros_wf; lia).
  split; [exact W|]. split; [reflexivity|]. split; [reflexivity|]. split; [reflexivity|].
  intros (c & _ & Hd & (s & w1 & P & Sh & _) & _).
  destruct (stats_exist (int8_zeros 2147483648) 1 1 2147483648 W eq_refl)
    as (mn & mx & Hmn & Hmx); try lia.
  rewrite (mrcWriter_writes (int8_zeros 2147483648) one64 one64 one64 false (world0 None)
             1 1 2147483648 0 mn mx eq_refl eq_refl eq_refl Hmn Hmx) in Hd.
  cbn [snd disk] in Hd.
  assert (Ec : forall a b : list byte, Some a = Some b -> a = b) by (intros a b H; congruence).
  apply Ec in Hd. subst c.
  apply parseHeader_inv in P. pose proof (p_Shape _ _ _ P) as Q.
  rewrite written_Shape, Sh in Q.
  assert (N : Int.np_int32 2147483648 = -2147483648) by (vm_compute; reflexivity).
  rewrite N in Q. unfold int8_zeros in Q. cbn [np.shape rev app] in Q.
  congruence.
Qed.


(** * Further properties of the code *)

(** ** Reading never changes the file *)

Lemma disk_bind {A B} (m : M A) (k : A -> M B) :
  (forall w, disk (snd (m w)) = disk w) ->
  (forall a w, disk (snd (k a w)) = disk w) ->
  forall w, disk (snd (bind m k w)) = disk w.
Proof.
  intros Hm Hk w. unfold bind. specialize (Hm w).
  destruct (m w) as [[a|e] w1]; cbn [snd] in *; [rewrite Hk|]; exact Hm.
Qed.

Lemma disk_fromfile size count w : disk (snd (fromfile size count w)) = disk w.
Proof.
  unfold fromfile, the_file.
  destruct (fid w) as [f|]; [|reflexivity].
  destruct (disk w) as [c|] eqn:D; [|cbn [snd]; congruence].
  destruct (closed f); cbn [snd disk]; congruence.
Qed.

Lemma disk_seek n w : disk (snd (fid_seek n w)) = disk w.
Proof.
  unfold fid_seek, the_file.
  destruct (fid w) as [f|]; [|reflexivity].
  destruct (disk w) as [c|] eqn:D; [|cbn [snd]; congruence].
  destruct (closed f); [cbn [snd]; congruence|].
  destruct (n <? 0); cbn [snd disk]; congruence.
Qed.

Ltac disk_step :=
  match goal with
  | |- forall w, disk (snd (bind _ _ w)) = disk w => apply disk_bind; [| intros ?]
  | |- forall w, disk (snd ((if ?b then _ else _) w)) = disk w => destruct b
  | |- forall w, disk (snd ((match ?x with _ => _ end) w)) = disk w => destruct x
  | |- forall w, disk (snd (fromfile _ _ w)) = disk w => apply disk_fromfile
  | |- forall w, disk (snd (fid_seek _ w)) = disk w => apply disk_seek
  | |- forall w, disk (snd (_ w)) = disk w => intros ?; reflexivity
  end.

Lemma disk_parseHeader w : disk (snd (fileMRC.parseHeader w)) = disk w.
Proof.
  revert w.
  unfold fileMRC.parseHeader, fileMRC.readFEI, fileMRC._getMRCType,
    fromfile_int32, fromfile_float32.
  repeat disk_step.
Qed.

Lemma disk_getDataset s w : disk (snd (fileMRC.getDataset s w)) = disk w.
Proof.
  revert w. unfold fileMRC.getDataset, fileMRC.getDataset_under. repeat disk_step.
Qed.

Lemma disk_init w : disk (snd (fileMRC.__init__ w)) = disk w.
Proof.
  revert w. unfold fileMRC.__init__. apply disk_bind.
  - intros w. unfold open_rb. destruct (disk w) eqn:D; cbn [snd disk]; congruence.
  - intros [|] w; reflexivity.
Qed.

Lemma disk_del w : disk (snd (fileMRC.__del__ w)) = disk w.
Proof.
  unfold fileMRC.__del__, fileMRC.ignored, fid_close.
  destruct (fid w); reflexivity.
Qed.

Lemma disk_mrcReader w : disk (snd (mrcReader w)) = disk w.
Proof.
  unfold mrcReader. cbn [snd]. rewrite disk_del.
  revert w. apply disk_bind; [apply disk_init | intros _].
  apply disk_bind; [apply disk_parseHeader | intros s w; apply disk_getDataset].
Qed.

(** X1. [mrcReader] never changes the file it reads, however the session
    ends and whatever the world is (file missing, truncated, any
    content): the content on disk after the call is the content before. *)
Theorem mrcReader_leaves_the_file (w : world) :
  disk (snd (mrcReader w)) = disk w.
Proof. apply disk_mrcReader. Qed.

(** ** [mrc2raw] *)

Lemma no_filename_key (tomo : dataOut) : dataOut_getitem tomo "filename" = Raise KeyError.
Proof. reflexivity. Qed.

Lemma no_stack_key (tomo : dataOut) : dataOut_getitem tomo "stack" = Raise KeyError.
Proof. reflexivity. Qed.

(** X2. [mrc2raw] never writes a raw file: it ends with an exception on
    every input, leaves every file as it was, and when [mrcReader] has
    returned its dictionary the exception is the KeyError of
    [tomo['filename']], a key that [parseHeader] dropped when it replaced
    [self.dataOut]. *)
Theorem mrc2raw_never_writes (fname : string) (fs : filesystem) (out : list string) :
  (exists e, fst (mrc2raw fname fs out) = Raise e) /\
  (forall n, fst (snd (mrc2raw fname fs out)) n = fs n) /\
  (forall tomo,
      fst (mrcReader {| stdout := out; disk := fs fname; fid := None |}) = Ok tomo ->
      fst (mrc2raw fname fs out) = Raise KeyError).
Proof.
  unfold mrc2raw.
  pose proof (disk_mrcReader {| stdout := out; disk := fs fname; fid := None |}) as D.
  cbn [disk] in D.
  destruct (mrcReader {| stdout := out; disk := fs fname; fid := None |}) as [r w] eqn:E.
  cbn [fst snd] in *.
  assert (F : forall n, match disk w with
                        | Some c => fs_put fname c fs
                        | None => fs
                        end n = fs n).
  { intros n. rewrite D. destruct (fs fname) as [c|] eqn:Ef; [|reflexivity].
    unfold fs_put. destruct (String.eqb_spec n fname) as [->|]; [congruence | reflexivity]. }
  destruct r as [tomo|e].
  - rewrite no_filename_key. cbn [fst snd]. repeat split.
    + eexists. reflexivity.
    + exact F.
  - cbn [fst snd]. repeat split.
    + eexists. reflexivity.
    + exact F.
    + intros tomo H. discriminate H.
Qed.

Lemma mrc2raw_never_writes_witness :
  let fs := fs_put "a.mrc"%string (file_456 ++ repeat Byte.x00 480) (fun _ => None) in
  fst (mrc2raw "a.mrc"%string fs []) = Raise KeyError.
Proof.
  intros fs.
  destruct (mrc2raw_never_writes "a.mrc"%string fs []) as (_ & _ & K).
  destruct (fst (mrcReader {| stdout := []; disk := fs "a.mrc"%string; fid := None |}))
    as [tomo|e] eqn:E.
  - exact (K tomo eq_refl).
  - exfalso. vm_compute in E. discriminate E.
Defined.

(** ** The two tables of sample types *)

(** X3. The table of [mrcWriter] (sample type to code) and the table of
    [_getMRCType] (code to sample type) are inverse of each other: a type
    is written with a code exactly when that code is read as this type. *)
Theorem type_code_tables_inverse (d : np.sctype) (code : Z) (w : world) :
  mrc_code d = Some code <-> fileMRC._getMRCType code w = (Ok d, w).
Proof.
  split.
  - apply getMRCType_of_code.
  - intros H. apply getMRCType_inv in H. destruct H as [_ H].
    destruct H as [[-> ->]|[[-> ->]|[[-> ->]|[-> ->]]]]; reflexivity.
Qed.

Lemma type_code_tables_inverse_witness :
  fileMRC._getMRCType 6 (world0 None) = (Ok np.uint16, world0 None).
Proof.
  apply (proj1 (type_code_tables_inverse np.uint16 6 (world0 None))). reflexivity.
Defined.

(** ** [_applyAxisOrientations] *)

Lemma getitem_3 {A} (a b c : A) (x : Z) :
  x = 1 \/ x = 2 \/ x = 3 ->
  getitem [a; b; c] (x - 1) = Ok (nth (Z.to_nat (x - 1)) [a; b; c] a).
Proof. intros [ -> | [ -> | -> ] ]; reflexivity. Qed.

(** X4. After a header whose axis order is a permutation of 1, 2, 3 was
    parsed, [_applyAxisOrientations] of a three-item sequence returns a
    rearrangement of it: no item is lost or repeated. *)
Theorem applyAxisOrientations_permutes {A} c out s w' (arrayIn : list A) :
  fileMRC.parseHeader (rd 0 c out) = (Ok s, w') ->
  Permutation (RawHeaderFields.axisOrder c) [1; 2; 3] ->
  length arrayIn = 3%nat ->
  exists l, fileMRC._applyAxisOrientations s arrayIn = Ok l /\ Permutation l arrayIn.
Proof.
  intros H P L. apply parseHeader_inv in H.
  destruct arrayIn as [|a [|b [|x [|]]]]; try discriminate L.
  unfold fileMRC._applyAxisOrientations. rewrite (p_axisOrientations _ _ _ H).
  assert (P' : Permutation (rev (RawHeaderFields.axisOrder c)) [1; 2; 3]).
  { eapply Permutation_trans; [apply Permutation_sym, Permutation_rev | exact P]. }
  exists (map (fun y => nth (Z.to_nat (y - 1)) [a; b; x] a) (rev (RawHeaderFields.axisOrder c))).
  split.
  - apply comprehension_map, Forall_forall. intros y I.
    apply getitem_3. apply (Permutation_in _ P') in I. cbn [In] in I.
    destruct I as [ <- | [ <- | [ <- | [] ] ] ]; auto.
  - apply (Permutation_map (fun y => nth (Z.to_nat (y - 1)) [a; b; x] a)) in P'.
    exact P'.
Qed.

Lemma applyAxisOrientations_permutes_witness :
  exists s w, fileMRC.parseHeader (rd 0 file_456 []) = (Ok s, w) /\
              exists l, fileMRC._applyAxisOrientations s [10; 20; 30] = Ok l /\
                        Permutation l [10; 20; 30].
Proof.
  destruct (fileMRC.parseHeader (rd 0 file_456 [])) as [r w] eqn:E.
  assert (R : exists s, r = Ok s).
  { apply (f_equal fst) in E. cbn [fst] in E. rewrite <- E. vm_compute.
    eexists. reflexivity. }
  destruct R as (s & ->). exists s, w. split; [reflexivity|].
  apply (applyAxisOrientations_permutes file_456 [] s w [10; 20; 30] E).
  - vm_compute. apply Permutation_refl.
  - reflexivity.
Defined.

(** ** [mrcWriter]: when the file object is closed *)

Lemma keeps_open_write bs : keeps_open (fid_write bs).
Proof.
  intros w [p H]. unfold fid_write, the_file. rewrite H.
  destruct (disk w); cbn; [eexists; reflexivity | exists p; exact H].
Qed.

Lemma keeps_open_write_array a : keeps_open (fid_write_array a).
Proof.
  unfold fid_write_array. destruct (np.C_CONTIGUOUS a);
    [apply keeps_open_write | apply keeps_open_raise].
Qed.

Lemma session_bind {A} (m : M A) (k : A -> M Z) :
  keeps_open m -> (forall a, session (k a)) -> session (bind m k).
Proof.
  intros Hm Hk w H. unfold bind. specialize (Hm w H).
  destruct (m w) as [[a|e] w1]; cbn [snd] in Hm.
  - apply Hk, Hm.
  - right. split; [discriminate | exact Hm].
Qed.

Lemma session_ret_0 : session (ret 0).
Proof. intros w H. right. split; [discriminate | exact H]. Qed.

Lemma session_close : session (fid_close ;;; ret 1).
Proof.
  intros w [p H]. left. unfold bind, fid_close, ret. rewrite H. cbn.
  split; [reflexivity | eexists; reflexivity].
Qed.

Lemma session_if (b : bool) (m1 m2 : M Z) :
  session m1 -> session m2 -> session (if b then m1 else m2).
Proof. destruct b; auto. Qed.

Ltac session_step :=
  match goal with
  | |- session (ret 0) => apply session_ret_0
  | |- session (fid_close ;;; ret 1) => apply session_close
  | |- session (bind _ _) => apply session_bind; [| intros ?]
  | |- session (if _ then _ else _) => apply session_if
  | |- session (match ?x with _ => _ end) => destruct x
  | |- keeps_open (fid_write _) => apply keeps_open_write
  | |- keeps_open (fid_write_array _) => apply keeps_open_write_array
  | |- keeps_open (if ?b then _ else _) => destruct b
  | |- keeps_open _ => solve [auto with keeps_open]
  end.

(** X5. [mrcWriter] closes the file exactly when it returns 1: on every
    other way out (a returned 0 or an exception) the file object it
    opened is left open. *)
Theorem mrcWriter_closes_iff_success (stack : np.ndarray) (pixelSize : list spec_float)
    (forceWrite : bool) (w : world) :
  exists f,
    fid (snd (mrcWriter stack pixelSize forceWrite w)) = Some f /\
    (closed f = true <-> fst (mrcWriter stack pixelSize forceWrite w) = Ok 1).
Proof.
  assert (S : closed_iff_success (mrcWriter stack pixelSize forceWrite w)).
  { unfold mrcWriter. rewrite (bind_Ok _ _ _ _ _ (open_wb_at w)). cbv zeta.
    match goal with
    | |- closed_iff_success (?body _) =>
        cut (session body); [intros S; apply S; exists 0%nat; reflexivity|]
    end.
    repeat session_step. }
  destruct S as [[R [p F]]|[R [p F]]]; eexists; (split; [exact F|]); cbn [closed].
  - split; [intros _; exact R | reflexivity].
  - split; [discriminate | intros E; contradiction].
Qed.

(** ** [mrcWriter]: what a failed call leaves behind *)

Lemma write_at_0_nil bs : write_at 0 bs [] = bs.
Proof. unfold write_at. cbn. rewrite skipn_nil. apply app_nil_r. Qed.

(** The steps of [mrcWriter] up to the test of the sample type. *)
Ltac writer_start Hs Hc :=
  unfold mrcWriter;
  rewrite (bind_Ok _ _ _ _ _ (open_wb_at _));
  rewrite Hs, Hc; cbn [length Nat.ltb Nat.leb negb];
  rewrite header_placeholder;
  rewrite (bind_Ok _ _ _ _ _ (fid_write_at _ _ _ _));
  rewrite (bind_Ok _ _ _ _ _ (fid_seek_at 0 _ _ _ ltac:(lia)));
  rewrite write_at_0_nil;
  change (Z.to_nat 0) with 0%nat;
  match goal with
  | |- context [getitem [?n1; ?n2; ?n3] 2] =>
      change (getitem [n1; n2; n3] 2) with (Ok n3);
      change (getitem [n1; n2; n3] 1) with (Ok n2);
      change (getitem [n1; n2; n3] 0) with (Ok n1)
  end;
  rewrite !bind_lift_Ok.

(** X6. For a three-dimensional C-contiguous array of a type other than
    int8, int16, uint16, float32, [mrcWriter] prints that the type is
    unsupported and returns 0; the file it has created is left with the
    1024 zero bytes of the header placeholder, and open. *)
Theorem mrcWriter_unsupported_type stack pixelSize forceWrite w n1 n2 n3 :
  np.shape stack = [n1; n2; n3] ->
  np.C_CONTIGUOUS stack = true ->
  mrc_code (np.dtype stack) = None ->
  mrcWriter stack pixelSize forceWrite w =
  (Ok 0,
   {| stdout := stdout w ++
        [("Data type " ++ np.name (np.dtype stack) ++
          " is unsupported. Only int8, int16, uint16, and float32 are supported")%string];
      disk := Some (repeat Byte.x00 1024);
      fid := Some {| pos := 0; closed := false |} |}).
Proof.
  intros Hs Hc Hd. writer_start Hs Hc. rewrite Hd. reflexivity.
Qed.

Lemma mrcWriter_unsupported_type_witness :
  let stack := {| np.dtype := np.float64; np.shape := [1; 1; 1]; np.C_CONTIGUOUS := true;
                  np.tobytes := repeat Byte.x00 8 |} in
  fst (mrcWriter stack [one64; one64; one64] false (world0 None)) = Ok 0 /\
  disk (snd (mrcWriter stack [one64; one64; one64] false (world0 None)))
  = Some (repeat Byte.x00 1024).
Proof.
  intros stack.
  rewrite (mrcWriter_unsupported_type stack [one64; one64; one64] false (world0 None) 1 1 1);
    [split; reflexivity | reflexivity | reflexivity | reflexivity].
Defined.

Lemma getitem_short {A} (l : list A) (i : Z) :
  Z.of_nat (length l) <= i -> getitem l i = Raise IndexError.
Proof.
  intros H. unfold getitem.
  destruct (Z.ltb_spec i 0); [lia|].
  destruct (Z.leb_spec 0 i); [|lia].
  destruct (Z.ltb_spec i (Z.of_nat (length l))); [lia | reflexivity].
Qed.

(** X7. With a pixel size of fewer than three items, [mrcWriter] of a
    three-dimensional C-contiguous array of a supported type raises
    (Python's IndexError, at [pixelSize[2]]) after it has written
    [header1]: the file is left with these 40 bytes followed by zeros up
    to 1024, without marker and without samples. *)
Theorem mrcWriter_short_pixelSize stack pixelSize forceWrite w n1 n2 n3 code :
  np.shape stack = [n1; n2; n3] ->
  np.C_CONTIGUOUS stack = true ->
  mrc_code (np.dtype stack) = Some code ->
  (length pixelSize < 3)%nat ->
  mrcWriter stack pixelSize forceWrite w =
  (Raise IndexError,
   {| stdout := stdout w;
      disk := Some (written_header1 n1 n2 n3 code ++ repeat Byte.x00 984);
      fid := Some {| pos := 40; closed := false |} |}).
Proof.
  intros Hs Hc Hd Hp. writer_start Hs Hc. rewrite Hd.
  change (repeat 0 10%nat) with [0; 0; 0; 0; 0; 0; 0; 0; 0; 0].
  cbn [set_nth].
  change (repeat Byte.x00 1024) with ([] ++ repeat Byte.x00 1024).
  erewrite bind_Ok; [| apply fid_write_next; len].
  assert (E : cell_length pixelSize [n1; n2; n3] 2 = Raise IndexError).
  { unfold cell_length. rewrite getitem_short by lia. reflexivity. }
  rewrite E. reflexivity.
Qed.

Lemma mrcWriter_short_pixelSize_witness :
  fst (mrcWriter (float32_stack [1; 1; 2] [1; 2]) [one64; one64] false (world0 None))
  = Raise IndexError.
Proof.
  rewrite (mrcWriter_short_pixelSize (float32_stack [1; 1; 2] [1; 2]) [one64; one64]
             false (world0 None) 1 1 2 2);
    [reflexivity | reflexivity | reflexivity | reflexivity | simpl; lia].
Defined.

Lemma values_empty (a : np.ndarray) : np.tobytes a = [] -> np.values a = [].
Proof. intros H. unfold np.values. rewrite H. reflexivity. Qed.

(** X8. For a three-dimensional C-contiguous array of a supported type
    with a dimension equal to 0, [mrcWriter] raises (NumPy's ValueError,
    at [np.min(stack)]) after it has written the dimensions, the cell and
    the axis order: the file is left with these 76 bytes followed by
    zeros up to 1024, without statistics, marker or samples. *)
Theorem mrcWriter_empty_array stack p0 p1 p2 forceWrite w n1 n2 n3 code :
  np.wf stack ->
  np.shape stack = [n1; n2; n3] ->
  n1 = 0 \/ n2 = 0 \/ n3 = 0 ->
  np.C_CONTIGUOUS stack = true ->
  mrc_code (np.dtype stack) = Some code ->
  mrcWriter stack [p0; p1; p2] forceWrite w =
  (Raise ValueError,
   {| stdout := stdout w;
      disk := Some ((written_header1 n1 n2 n3 code
                     ++ written_cell (cell p2 n3) (cell p1 n2) (cell p0 n1))
                    ++ repeat Byte.x00 948);
      fid := Some {| pos := 76; closed := false |} |}).
Proof.
  intros W Hs Hz Hc Hd.
  assert (V : np.values stack = []).
  { apply values_empty. pose proof (np.wf_size _ W) as Z. rewrite Hs, prod_3 in Z.
    assert (length (np.tobytes stack) = 0%nat) by (destruct Hz as [ -> | [ -> | -> ] ]; lia).
    destruct (np.tobytes stack); [reflexivity | discriminate]. }
  writer_start Hs Hc. rewrite Hd.
  change (repeat 0 10%nat) with [0; 0; 0; 0; 0; 0; 0; 0; 0; 0].
  cbn [set_nth].
  change (repeat Byte.x00 1024) with ([] ++ repeat Byte.x00 1024).
  change (cell_length [p0; p1; p2] [n1; n2; n3] 2) with (Ok (cell p2 n3)).
  change (cell_length [p0; p1; p2] [n1; n2; n3] 1) with (Ok (cell p1 n2)).
  change (cell_length [p0; p1; p2] [n1; n2; n3] 0) with (Ok (cell p0 n1)).
  do 6 (rewrite ?bind_lift_Ok; erewrite bind_Ok; [| apply fid_write_next; len]).
  unfold np.min. rewrite V.
  unfold bind at 1, lift at 1. do 2 f_equal.
Qed.

Lemma mrcWriter_empty_array_witness :
  fst (mrcWriter (float32_stack [2; 0; 3] []) [one64; one64; one64] false (world0 None))
  = Raise ValueError.
Proof.
  rewrite (mrcWriter_empty_array (float32_stack [2; 0; 3] []) one64 one64 one64
             false (world0 None) 2 0 3 2).
  - reflexivity.
  - constructor; [repeat constructor; lia | vm_compute; reflexivity | vm_compute; reflexivity].
  - reflexivity.
  - right. left. reflexivity.
  - reflexivity.
  - reflexivity.
Defined.

(** ** [mrcWriter]: the rest of the header *)

(** X9. For a three-dimensional, C-contiguous array of a supported type
    with at least one item, the file [mrcWriter] leaves is a header of
    exactly 1024 bytes followed by the memory of the array and nothing
    else.  In the header the start of the sub-image (bytes 16 to 28) is
    zero, the cell angles (bytes 52 to 64) are the float32 value 90
    three times, bytes 88 to 212 are zero, bytes 212 to 216 are the
    little-endian marker 68, 65, 0, 0, and bytes 216 to 1024 are zero. *)
Theorem mrcWriter_layout stack p0 p1 p2 forceWrite w n1 n2 n3 :
  np.wf stack -> np.shape stack = [n1; n2; n3] ->
  1 <= n1 -> 1 <= n2 -> 1 <= n3 ->
  np.C_CONTIGUOUS stack = true ->
  mrc_code (np.dtype stack) <> None ->
  exists c,
    disk (snd (mrcWriter stack [p0; p1; p2] forceWrite w)) = Some c /\
    length c = (1024 + length (np.tobytes stack))%nat /\
    skipn 1024 c = np.tobytes stack /\
    firstn 12 (skipn 16 c) = repeat Byte.x00 12 /\
    firstn 12 (skipn 52 c) =
      float32_array [Float.of_Z Float.binary32 90; Float.of_Z Float.binary32 90;
                     Float.of_Z Float.binary32 90] /\
    firstn 124 (skipn 88 c) = repeat Byte.x00 124 /\
    map byte.unsigned (firstn 4 (skipn 212 c)) = [68; 65; 0; 0] /\
    firstn 808 (skipn 216 c) = repeat Byte.x00 808.
Proof.
  intros W S H1 H2 H3 C D.
  destruct (stats_exist stack n1 n2 n3 W S H1 H2 H3) as (mn & mx & Hmn & Hmx).
  destruct (mrc_code (np.dtype stack)) as [code|] eqn:E; [clear D | contradiction].
  rewrite (mrcWriter_writes stack p0 p1 p2 forceWrite w n1 n2 n3 code mn mx S C E Hmn Hmx).
  cbn [snd disk]. eexists. split; [reflexivity|].
  split; [rewrite length_app, length_written_header; reflexivity|].
  split.
  { rewrite (skipn_piece _ _ 1024) by (try apply length_written_header; lia).
    reflexivity. }
  rewrite written_header_words, <- !app_assoc.
  split.
  { do 1 drop_piece. cbn [skipn]. apply firstn_piece. len. }
  split.
  { do 4 drop_piece. cbn [skipn]. apply firstn_piece. len. }
  split.
  { do 7 drop_piece. cbn [skipn]. apply firstn_piece. len. }
  split.
  { do 8 drop_piece. cbn [skipn]. reflexivity. }
  do 9 drop_piece. cbn [skipn]. rewrite firstn_piece by len. reflexivity.
Qed.

Lemma mrcWriter_layout_witness :
  exists c,
    disk (snd (mrcWriter (float32_stack [2; 1; 3] [1; 2; 3; 4; 5; 6])
                         [one64; one64; one64] false (world0 None))) = Some c /\
    length c = 1048%nat /\
    map byte.unsigned (firstn 4 (skipn 212 c)) = [68; 65; 0; 0].
Proof.
  destruct (mrcWriter_layout (float32_stack [2; 1; 3] [1; 2; 3; 4; 5; 6])
              one64 one64 one64 false (world0 None) 2 1 3)
    as (c & Hd & Hl & _ & _ & _ & _ & Hm & _).
  - constructor; [repeat constructor; lia | vm_compute; reflexivity | vm_compute; reflexivity].
  - reflexivity.
  - lia.
  - lia.
  - lia.
  - reflexivity.
  - discriminate.
  - exists c. split; [exact Hd|]. split; [exact Hl | exact Hm].
Defined.

(** ** Reading the header of a written file *)

Lemma written_grid_angles n1 n2 n3 code xlen ylen zlen mn mx mean data :
  let c := written_header n1 n2 n3 code xlen ylen zlen mn mx mean ++ data in
  RawHeaderFields.gridSize c = [Int.np_int32 n3; Int.np_int32 n2; Int.np_int32 n1] /\
  RawHeaderFields.cellAngles c = [f32 90; f32 90; f32 90].
Proof.
  intros c. subst c.
  unfold RawHeaderFields.gridSize, RawHeaderFields.cellAngles.
  change (int32_at _ 28) with (Int.frombytes_signed (le_split 4 (Int.np_int32 (Int.np_int32 n3)))).
  change (int32_at _ 32) with (Int.frombytes_signed (le_split 4 (Int.np_int32 (Int.np_int32 n2)))).
  change (int32_at _ 36) with (Int.frombytes_signed (le_split 4 (Int.np_int32 (Int.np_int32 n1)))).
  change (float32_at _ 52) with (Float.frombytes Float.binary32 (Float.tobytes Float.binary32 (f32 90))).
  change (float32_at _ 56) with (Float.frombytes Float.binary32 (Float.tobytes Float.binary32 (f32 90))).
  change (float32_at _ 60) with (Float.frombytes Float.binary32 (Float.tobytes Float.binary32 (f32 90))).
  rewrite !frombytes_signed_le_split, !np_int32_idem.
  split; reflexivity.
Qed.

(** X10. The header of a file that [mrcWriter] wrote from an array of
    shape [(n1, n2, n3)] with dimensions between 1 and 2^31-1 is accepted
    by [parseHeader], which stops at byte 1024 and sets: the data offset
    1024, no vendor dictionary, the axis orientations 3, 2, 1, the cell
    angles 90, 90, 90, and the data size and the grid size
    [n1, n2, n3]. *)
Theorem written_header_metadata stack p0 p1 p2 forceWrite w n1 n2 n3 out :
  np.wf stack -> np.shape stack = [n1; n2; n3] ->
  1 <= n1 < 2 ^ 31 -> 1 <= n2 < 2 ^ 31 -> 1 <= n3 < 2 ^ 31 ->
  np.C_CONTIGUOUS stack = true ->
  mrc_code (np.dtype stack) <> None ->
  exists c s,
    disk (snd (mrcWriter stack [p0; p1; p2] forceWrite w)) = Some c /\
    fileMRC.parseHeader (rd 0 c out) = (Ok s, rd 1024 c out) /\
    fileMRC.dataOffset s = 1024 /\
    fileMRC.FEIinfo s = None /\
    fileMRC.axisOrientations s = [3; 2; 1] /\
    fileMRC.cellAngles s = [f32 90; f32 90; f32 90] /\
    fileMRC.dataSize s = [n1; n2; n3] /\
    fileMRC.gridSize s = [n1; n2; n3].
Proof.
  intros W S H1 H2 H3 C D.
  destruct (stats_exist stack n1 n2 n3 W S ltac:(lia) ltac:(lia) ltac:(lia))
    as (mn & mx & Hmn & Hmx).
  destruct (mrc_code (np.dtype stack)) as [code|] eqn:E; [clear D | contradiction].
  rewrite (mrcWriter_writes stack p0 p1 p2 forceWrite w n1 n2 n3 code mn mx S C E Hmn Hmx).
  cbn [snd disk].
  match goal with |- context [Some (?h ++ np.tobytes stack)] => set (hdr := h) end.
  assert (Lh : length hdr = 1024%nat) by apply length_written_header.
  destruct (written_fields n1 n2 n3 code (cell p2 n3) (cell p1 n2) (cell p0 n1)
              (np.to_float32 mn) (np.to_float32 mx) (np.to_float32 (np.mean stack))
              (np.tobytes stack)) as (Fd & Fm & Fa & Fx).
  destruct (written_grid_angles n1 n2 n3 code (cell p2 n3) (cell p1 n2) (cell p0 n1)
              (np.to_float32 mn) (np.to_float32 mx) (np.to_float32 (np.mean stack))
              (np.tobytes stack)) as (Fg & Fc).
  unfold cell in Fd, Fm, Fa, Fx, Fg, Fc.
  fold hdr in Fd, Fm, Fa, Fx, Fg, Fc.
  rewrite (mrc_code_range _ _ E) in Fm.
  rewrite !np_int32_small in Fd by lia.
  rewrite !np_int32_small in Fg by lia.
  destruct (parseHeader_total (hdr ++ np.tobytes stack) out (np.dtype stack) [n3; n2; n1])
    as (s & P & T).
  - rewrite length_app. lia.
  - intros w0. rewrite Fm. apply getMRCType_of_code, E.
  - rewrite Fd, Fa. reflexivity.
  - exact Fx.
  - pose proof (parseHeader_inv _ _ _ _ P) as I.
    exists (hdr ++ np.tobytes stack), s.
    split; [reflexivity|]. split; [exact P|].
    split; [rewrite (p_dataOffset _ _ _ I), Fx; reflexivity|].
    split.
    { pose proof (p_voxelSize _ _ _ I) as V. rewrite Fx in V. cbn [Z.eqb] in V. apply V. }
    split; [rewrite (p_axisOrientations _ _ _ I), Fa; reflexivity|].
    split; [rewrite (p_cellAngles _ _ _ I), Fc; reflexivity|].
    split; [rewrite (p_dataSize _ _ _ I), Fd; reflexivity|].
    rewrite (p_gridSize _ _ _ I), Fg. reflexivity.
Qed.

Lemma written_header_metadata_witness :
  exists c s,
    disk (snd (mrcWriter (float32_stack [2; 1; 3] [1; 2; 3; 4; 5; 6])
                         [one64; one64; one64] false (world0 None))) = Some c /\
    fileMRC.parseHeader (rd 0 c []) = (Ok s, rd 1024 c []) /\
    fileMRC.axisOrientations s = [3; 2; 1] /\
    fileMRC.gridSize s = [2; 1; 3].
Proof.
  destruct (written_header_metadata (float32_stack [2; 1; 3] [1; 2; 3; 4; 5; 6])
              one64 one64 one64 false (world0 None) 2 1 3 [])
    as (c & s & Hd & Hp & _ & _ & Ha & _ & _ & Hg).
  - constructor; [repeat constructor; lia | vm_compute; reflexivity | vm_compute; reflexivity].
  - reflexivity.
  - lia.
  - lia.
  - lia.
  - reflexivity.
  - discriminate.
  - exists c, s. repeat split; assumption.
Defined.

(** ** The headers [parseHeader] accepts *)

Lemma voxelSize_items (vol : list spec_float) (grid : list Z) w :
  length vol = 3%nat -> length grid = 3%nat ->
  exists t x0 x1 x2,
    (if negb (existsb Float.nonzero vol) || negb (existsb (fun n => negb (n =? 0)) grid)
     then ret {| ftype := np.float64; fitems := repeat (Float.of_Z Float.binary64 1) 3 |}
     else q <- lift (divide vol (map (Float.of_Z Float.binary32) grid)) ;;
          ret {| ftype := np.float32; fitems := q |}) w
    = (Ok {| ftype := t; fitems := [x0; x1; x2] |}, w).
Proof.
  intros Hv Hg.
  destruct vol as [|v0 [|v1 [|v2 [|]]]]; try discriminate Hv.
  destruct grid as [|g0 [|g1 [|g2 [|]]]]; try discriminate Hg.
  destruct (_ || _); do 4 eexists; reflexivity.
Qed.

Lemma readFEI_reads t x0 x1 x2 c out :
  (1084 <= length c)%nat ->
  fileMRC.readFEI {| ftype := t; fitems := [x0; x1; x2] |} (rd 1024 c out) =
  (Ok ({| ftype := t;
          fitems := [store t (Float.of_Z Float.binary64 1);
                     store t (angstroms (RawHeaderFields.pixel_size c));
                     store t (angstroms (RawHeaderFields.pixel_size c))] |},
       combine FEIkeys (FEIinfoValues c)),
   rd 1084 c out).
Proof.
  intros L. unfold fileMRC.readFEI.
  rewrite (bind_Ok _ _ _ _ _ (fromfile_float32_at 15 1024 c out ltac:(lia))).
  change (Z.to_nat 15) with 15%nat.
  rewrite next_pos_complete, (float32_items 15 1024 c) by lia.
  fold (FEIinfoValues c).
  pose proof (comprehension_all (FEIinfoValues c) S754_nan) as A.
  change (length (FEIinfoValues c)) with 15%nat in A.
  rewrite A, bind_lift_Ok, lookup_pixel_size.
  fold (angstroms (RawHeaderFields.pixel_size c)).
  rewrite fsetitem_0, bind_lift_Ok.
  rewrite fsetitem_1, bind_lift_Ok.
  rewrite fsetitem_2, bind_lift_Ok.
  reflexivity.
Qed.

Lemma getitem_dims (a b d x : Z) :
  -2 <= x <= 3 -> exists y, getitem [a; b; d] (x - 1) = Ok y.
Proof.
  intros H.
  assert (E : x = -2 \/ x = -1 \/ x = 0 \/ x = 1 \/ x = 2 \/ x = 3) by lia.
  destruct E as [ -> | [ -> | [ -> | [ -> | [ -> | -> ] ] ] ] ]; eexists; reflexivity.
Qed.

Lemma getitem_dims_inv (a b d x y : Z) :
  getitem [a; b; d] (x - 1) = Ok y -> -2 <= x <= 3.
Proof.
  unfold getitem. cbn [length].
  destruct (Z.ltb_spec (x - 1) 0);
    destruct (Z.leb_spec 0 (if false then x - 1 + Z.of_nat 3 else x - 1));
    destruct (Z.leb_spec 0 (x - 1 + Z.of_nat 3));
    destruct (Z.ltb_spec (x - 1 + Z.of_nat 3) (Z.of_nat 3));
    destruct (Z.ltb_spec (x - 1) (Z.of_nat 3));
    cbn [andb]; intros E; try discriminate E; lia.
Qed.

Lemma comprehension_Forall {A B} (f : A -> result B) (l : list A) :
  Forall (fun x => exists y, f x = Ok y) l -> exists ys, comprehension f l = Ok ys.
Proof.
  induction 1 as [|x l [y Hx] _ [ys IH]]; cbn [comprehension]; [eexists; reflexivity|].
  rewrite Hx, IH. eexists. reflexivity.
Qed.

Lemma parseHeader_accepts c out :
  (96 <= length c)%nat ->
  In (RawHeaderFields.mrcTypeCode c) [0; 1; 2; 6] ->
  Forall (fun x => -2 <= x <= 3) (RawHeaderFields.axisOrder c) ->
  (RawHeaderFields.extensionWordCount c <> 0 -> (1084 <= length c)%nat) ->
  exists s,
    fileMRC.parseHeader (rd 0 c out) =
    (Ok s, rd (if RawHeaderFields.extensionWordCount c =? 0 then 1024 else 1084) c out).
Proof.
  intros L T A X.
  assert (T' : exists t, forall w,
               fileMRC._getMRCType (RawHeaderFields.mrcTypeCode c) w = (Ok t, w)).
  { cbn [In] in T. destruct T as [ <- | [ <- | [ <- | [ <- | [] ] ] ] ];
      eexists; intros w; reflexivity. }
  destruct T' as [t T'].
  assert (S : exists Sh, comprehension (fun x => getitem (RawHeaderFields.dims c) (x - 1))
                           (RawHeaderFields.axisOrder c) = Ok Sh).
  { apply comprehension_Forall. eapply Forall_impl; [|exact A].
    intros x Hx. apply getitem_dims, Hx. }
  destruct S as [Sh S].
  unfold fileMRC.parseHeader.
  rewrite (bind_Ok _ _ _ _ _ (fromfile_int32_at 10 0 c out ltac:(lia))).
  change (Z.to_nat 10) with 10%nat.
  rewrite next_pos_complete, int32_items by lia.
  cbn [seq map Nat.add Nat.mul slice Nat.sub firstn skipn].
  change (getitem _ 3) with (Ok (RawHeaderFields.mrcTypeCode c)).
  rewrite bind_lift_Ok.
  rewrite (bind_Ok _ _ _ _ _ (T' _)).
  rewrite (bind_Ok _ _ _ _ _ (fromfile_float32_at 6 _ c out ltac:(lia))).
  change (Z.to_nat 6) with 6%nat.
  rewrite next_pos_complete, float32_items by lia.
  cbn [seq map Nat.add Nat.mul slice Nat.sub firstn skipn].
  destruct (voxelSize_items [float32_at c 40; float32_at c 44; float32_at c 48]
              [int32_at c 28; int32_at c 32; int32_at c 36] (rd 64 c out) eq_refl eq_refl)
    as (tv & x0 & x1 & x2 & V).
  rewrite (bind_Ok _ _ _ _ _ V).
  rewrite (bind_Ok _ _ _ _ _ (fromfile_int32_at 3 _ c out ltac:(lia))).
  change (Z.to_nat 3) with 3%nat.
  rewrite next_pos_complete, int32_items by lia.
  cbn [seq map Nat.add Nat.mul].
  fold (RawHeaderFields.dims c). fold (RawHeaderFields.axisOrder c).
  rewrite S, bind_lift_Ok.
  rewrite (bind_Ok _ _ _ _ _ (fromfile_int32_at 3 _ c out ltac:(lia))).
  change (Z.to_nat 3) with 3%nat.
  rewrite next_pos_complete by lia.
  rewrite (bind_Ok _ _ _ _ _ (fromfile_int32_at 34 _ c out ltac:(lia))).
  rewrite (bind_Ok _ _ _ _ _ (fid_seek_at 1024 _ _ _ ltac:(lia))).
  change (Z.to_nat 1024) with 1024%nat. change (Z.to_nat 34) with 34%nat.
  assert (E : getitem (map Int.frombytes_signed (np.items_of 4 34 (skipn 88 c))) 1
              = Ok (RawHeaderFields.extensionWordCount c)).
  { apply (getitem_nth_error _ 1%nat).
    rewrite nth_error_map, (items_of_nth 4 34 1); [| lia | rewrite length_skipn; lia].
    cbn [option_map]. rewrite skipn_skipn. reflexivity. }
  cbn [Nat.add Nat.mul]. rewrite E, bind_lift_Ok.
  cbn [ftype fitems rev app].
  destruct (Z.eqb_spec (RawHeaderFields.extensionWordCount c) 0) as [Z0|Z0]; cbn [negb].
  - eexists. reflexivity.
  - rewrite (bind_Ok _ _ _ _ _ (bind_Ok _ _ _ _ _ (readFEI_reads _ _ _ _ _ _ (X Z0)))).
    eexists. reflexivity.
Qed.

Lemma parseHeader_conditions c out s w' :
  fileMRC.parseHeader (rd 0 c out) = (Ok s, w') ->
  (96 <= length c)%nat /\
  In (RawHeaderFields.mrcTypeCode c) [0; 1; 2; 6] /\
  Forall (fun x => -2 <= x <= 3) (RawHeaderFields.axisOrder c) /\
  (RawHeaderFields.extensionWordCount c <> 0 -> (1084 <= length c)%nat).
Proof.
  intros H. apply parseHeader_inv in H.
  split; [exact (p_long _ _ _ H)|].
  split.
  { rewrite <- (p_mrcType _ _ _ H).
    destruct (p_dataType _ _ _ H) as [[E _]|[[E _]|[[E _]|[E _]]]]; rewrite E;
      cbn [In]; auto. }
  split.
  { pose proof (p_Shape _ _ _ H) as S. apply Forall_forall. intros x I.
    destruct (comprehension_In _ _ _ x S I) as [y Hy].
    exact (getitem_dims_inv _ _ _ _ _ Hy). }
  intros X. pose proof (p_voxelSize _ _ _ H) as V.
  destruct (Z.eqb_spec (RawHeaderFields.extensionWordCount c) 0) as [Z0|_]; [contradiction|].
  destruct V as (fei & w & R & _).
  assert (T : exists t x0 x1 x2, voxelSize0 c = {| ftype := t; fitems := [x0; x1; x2] |}).
  { unfold voxelSize0, RawHeaderFields.cellVolume, RawHeaderFields.gridSize.
    destruct (_ || _); do 4 eexists; reflexivity. }
  destruct T as (t & x0 & x1 & x2 & T). rewrite T in R.
  apply readFEI_inv in R. apply R.
Qed.

(** Where [parseHeader] leaves the file object. *)
Lemma parseHeader_world c out s w' :
  fileMRC.parseHeader (rd 0 c out) = (Ok s, w') ->
  w' = rd (if RawHeaderFields.extensionWordCount c =? 0 then 1024 else 1084) c out.
Proof.
  intros H. destruct (parseHeader_conditions c out s w' H) as (L & T & A & X).
  destruct (parseHeader_accepts c out L T A X) as [s' P]. congruence.
Qed.

(** X11. [parseHeader] accepts a file exactly when the file has the 96
    bytes up to the second word of the extra block, its type code is 0,
    1, 2 or 6, each of its three axis-order words is between -2 and 3
    (Python's indices of a three-item array, after the subtraction of
    1), and, when its extension word count is not zero, the file
    reaches byte 1084, the end of the fifteen vendor words. *)
Theorem parseHeader_accepts_iff (c : list byte) (out : list string) :
  (exists s w', fileMRC.parseHeader (rd 0 c out) = (Ok s, w')) <->
  (96 <= length c)%nat /\
  In (RawHeaderFields.mrcTypeCode c) [0; 1; 2; 6] /\
  Forall (fun x => -2 <= x <= 3) (RawHeaderFields.axisOrder c) /\
  (RawHeaderFields.extensionWordCount c <> 0 -> (1084 <= length c)%nat).
Proof.
  split.
  - intros (s & w' & H). exact (parseHeader_conditions c out s w' H).
  - intros (L & T & A & X).
    destruct (parseHeader_accepts c out L T A X) as [s P]. eauto.
Qed.

Lemma parseHeader_accepts_iff_witness :
  exists s w', fileMRC.parseHeader (rd 0 file_fei []) = (Ok s, w').
Proof.
  apply (proj2 (parseHeader_accepts_iff file_fei [])).
  split; [vm_compute; lia|].
  split; [vm_compute; auto|].
  split; [vm_compute; repeat constructor; discriminate|].
  intros _. vm_compute. lia.
Defined.

(** ** [getDataset]: the samples and the length of the file *)

Lemma getDataset_run s c out p :
  0 <= fileMRC.dataOffset s -> 0 <= np.prod_int64 (fileMRC.dataSize s) ->
  fst (fileMRC.getDataset s (rd p c out)) =
  let its := np.items_of (np.itemsize (fileMRC.dataType s))
               (Z.to_nat (np.prod_int64 (fileMRC.dataSize s)))
               (skipn (Z.to_nat (fileMRC.dataOffset s)) c) in
  match np.reshape_shape (Z.of_nat (length its)) (fileMRC.Shape s) with
  | Ok shape =>
      Ok (Build_dataOut (fileMRC.voxelSize s) (fileMRC.axisOrientations s)
            (fileMRC.cellAngles s) (fileMRC.FEIinfo s)
            (Some {| np.dtype := fileMRC.dataType s; np.shape := shape;
                     np.C_CONTIGUOUS := true; np.tobytes := concat its |}))
  | Raise e => Raise e
  end.
Proof.
  intros Ho Hn. rewrite getDataset_eq.
  rewrite (bind_Ok _ _ _ _ _ (fid_seek_at _ _ _ _ Ho)).
  rewrite (bind_Ok _ _ _ _ _ (fromfile_at _ _ _ _ _ Hn)).
  cbv zeta. destruct (np.reshape_shape _ _); reflexivity.
Qed.

(** With enough memory for the array that is asked for,
    [getDataset_under] is [getDataset]. *)
Lemma getDataset_under_enough enough s w :
  0 <= np.prod_int64 (fileMRC.dataSize s) ->
  enough (Z.of_nat (np.itemsize (fileMRC.dataType s))
          * np.prod_int64 (fileMRC.dataSize s)) = true ->
  fileMRC.getDataset_under enough s w = fileMRC.getDataset s w.
Proof.
  intros Hn He. unfold fileMRC.getDataset, fileMRC.getDataset_under, bind.
  destruct (fid_seek (fileMRC.dataOffset s) w) as [[[]|e] w1]; [|reflexivity].
  unfold fromfile_nbytes.
  destruct (Z.ltb_spec (np.prod_int64 (fileMRC.dataSize s)) 0) as [Lt|_]; [lia|].
  rewrite He. reflexivity.
Qed.

(** Without it, nothing is read. *)
Lemma getDataset_under_short enough s c out p :
  0 <= fileMRC.dataOffset s -> 0 <= np.prod_int64 (fileMRC.dataSize s) ->
  enough (Z.of_nat (np.itemsize (fileMRC.dataType s))
          * np.prod_int64 (fileMRC.dataSize s)) = false ->
  fileMRC.getDataset_under enough s (rd p c out) =
  if 2 ^ 63 <=? Z.of_nat (np.itemsize (fileMRC.dataType s))
                * np.prod_int64 (fileMRC.dataSize s)
  then (Raise ValueError, rd (Z.to_nat (fileMRC.dataOffset s)) c out)
  else (Ok (Build_dataOut (fileMRC.voxelSize s) (fileMRC.axisOrientations s)
              (fileMRC.cellAngles s) (fileMRC.FEIinfo s) None),
        rd (Z.to_nat (fileMRC.dataOffset s)) c
           (out ++ ["Not enough memory to read in the full data set"%string])).
Proof.
  intros Ho Hn He. unfold fileMRC.getDataset_under.
  rewrite (bind_Ok _ _ _ _ _ (fid_seek_at _ _ _ _ Ho)).
  unfold bind at 1, fromfile_nbytes.
  destruct (Z.ltb_spec (np.prod_int64 (fileMRC.dataSize s)) 0) as [Lt|_]; [lia|].
  rewrite He. cbn [negb].
  destruct (2 ^ 63 <=? _); reflexivity.
Qed.

Lemma reshape_known n (sh : list Z) :
  Forall (fun d => 0 <= d) sh ->
  np.known_size sh 1 = Some (np.prod sh) ->
  np.reshape_shape n sh = if np.prod sh =? n then Ok sh else Raise ValueError.
Proof.
  intros F K. unfold np.reshape_shape.
  assert (E : filter (fun d => d <? 0) sh = []).
  { clear K. induction F as [|d l Hd _ IH]; [reflexivity|].
    cbn [filter]. destruct (Z.ltb_spec d 0); [lia | exact IH]. }
  rewrite E, K. reflexivity.
Qed.

Lemma firstn_add {A} (a b : nat) : forall l : list A,
  firstn (a + b) l = firstn a l ++ firstn b (skipn a l).
Proof.
  induction a as [|a IH]; intros l; [reflexivity|].
  destruct l as [|x l]; cbn [Nat.add firstn skipn app].
  - rewrite firstn_nil. reflexivity.
  - f_equal. apply IH.
Qed.

Lemma concat_items_prefix size n : forall l,
  (size * n <= length l)%nat -> concat (np.items_of size n l) = firstn (size * n) l.
Proof.
  induction n as [|n IH]; intros l H.
  - rewrite Nat.mul_0_r. reflexivity.
  - cbn [np.items_of].
    destruct (Nat.ltb_spec (length l) size) as [Hs|Hs]; [lia|].
    cbn [concat]. rewrite IH by (rewrite length_skipn; lia).
    replace (size * S n)%nat with (size + size * n)%nat by lia.
    symmetry. apply firstn_add.
Qed.

Lemma perm_123 (x y z : Z) :
  Permutation [x; y; z] [1; 2; 3] ->
  (x = 1 /\ y = 2 /\ z = 3) \/ (x = 1 /\ y = 3 /\ z = 2) \/
  (x = 2 /\ y = 1 /\ z = 3) \/ (x = 2 /\ y = 3 /\ z = 1) \/
  (x = 3 /\ y = 1 /\ z = 2) \/ (x = 3 /\ y = 2 /\ z = 1).
Proof.
  intros P.
  pose proof (Permutation_in x P) as Ix. pose proof (Permutation_in y P) as Iy.
  pose proof (Permutation_in z P) as Iz.
  pose proof (Permutation_in 1 (Permutation_sym P)) as J1.
  pose proof (Permutation_in 2 (Permutation_sym P)) as J2.
  pose proof (Permutation_in 3 (Permutation_sym P)) as J3.
  cbn [In] in *. lia.
Qed.

Lemma shape_of_perm (d0 d1 d2 x y z : Z) (Sh : list Z) :
  Permutation [x; y; z] [1; 2; 3] ->
  comprehension (fun a => getitem [d0; d1; d2] (a - 1)) [x; y; z] = Ok Sh ->
  exists a b e, Sh = [a; b; e] /\
    In a [d0; d1; d2] /\ In b [d0; d1; d2] /\ In e [d0; d1; d2] /\
    a * b * e = d0 * d1 * d2.
Proof.
  intros P S.
  destruct (perm_123 _ _ _ P) as [(-> & -> & ->)|[(-> & -> & ->)|[(-> & -> & ->)|
    [(-> & -> & ->)|[(-> & -> & ->)|(-> & -> & ->)]]]]];
    cbn in S; inversion S; do 3 eexists;
    (split; [reflexivity|]); cbn [In]; repeat split; auto; lia.
Qed.

(** After [parseHeader] of a header with positive dimensions and an axis
    order that permutes 1, 2, 3: what [getDataset] asks for and the
    shape it gives. *)
Lemma parsed_counts c out s :
  parsed c out s ->
  Forall (fun d => 1 <= d) (RawHeaderFields.dims c) ->
  Permutation (RawHeaderFields.axisOrder c) [1; 2; 3] ->
  np.prod (RawHeaderFields.dims c) < 2 ^ 63 ->
  np.prod_int64 (fileMRC.dataSize s) = np.prod (RawHeaderFields.dims c) /\
  Forall (fun d => 0 <= d) (fileMRC.Shape s) /\
  np.prod (fileMRC.Shape s) = np.prod (RawHeaderFields.dims c) /\
  np.known_size (fileMRC.Shape s) 1 = Some (np.prod (fileMRC.Shape s)) /\
  1 <= np.prod (RawHeaderFields.dims c).
Proof.
  intros I F P B.
  pose proof (p_dataSize _ _ _ I) as D. pose proof (p_Shape _ _ _ I) as S.
  unfold RawHeaderFields.dims, RawHeaderFields.axisOrder in *.
  set (d0 := int32_at c 0) in *. set (d1 := int32_at c 4) in *. set (d2 := int32_at c 8) in *.
  inversion F as [|? ? F0 F']; subst. inversion F' as [|? ? F1 F'']; subst.
  inversion F'' as [|? ? F2 _]; subst.
  rewrite prod_3 in *.
  assert (Q : 1 <= d0 * d1 * d2) by nia.
  split.
  { rewrite D. cbn [rev app]. rewrite prod_int64_3 by (try assumption; lia). lia. }
  assert (R : exists a b e, rev (fileMRC.Shape s) = [a; b; e] /\
                            1 <= a /\ 1 <= b /\ 1 <= e /\ a * b * e = d0 * d1 * d2).
  { destruct (shape_of_perm _ _ _ _ _ _ _ P S) as (a & b & e & R & Ia & Ib & Ie & Hp).
    exists a, b, e. cbn [In] in Ia, Ib, Ie. repeat split; try assumption; lia. }
  destruct R as (a & b & e & R & Ha & Hb & He & Hp).
  assert (Sh : fileMRC.Shape s = [e; b; a]).
  { rewrite <- (rev_involutive (fileMRC.Shape s)), R. reflexivity. }
  rewrite Sh, prod_3. split; [repeat constructor; lia|]. split; [lia|].
  split; [|lia].
  cbn [np.known_size].
  destruct (Z.ltb_spec e 0); [lia|]. destruct (Z.ltb_spec b 0); [lia|].
  destruct (Z.ltb_spec a 0); [lia|].
  assert (e * b <= e * b * a) by nia. assert (e <= e * b) by nia.
  assert (e * b * a = d0 * d1 * d2) by lia.
  rewrite Z.mul_1_l.
  destruct (Z.leb_spec (2 ^ 63) e); [lia|].
  destruct (Z.leb_spec (2 ^ 63) (e * b)); [lia|].
  destruct (Z.leb_spec (2 ^ 63) (e * b * a)); [lia|].
  reflexivity.
Qed.

Lemma items_of_short size n l :
  (length l < size * n)%nat -> (length (np.items_of size n l) < n)%nat.
Proof.
  intros H. pose proof (items_of_bytes size n l) as B.
  destruct (Nat.lt_ge_cases (length (np.items_of size n l)) n) as [Lt|Ge]; [exact Lt|].
  assert (size * n <= size * length (np.items_of size n l))%nat by (apply Nat.mul_le_mono_l, Ge).
  lia.
Qed.

(** X12. After [parseHeader] accepted a header with positive dimensions,
    an axis order that permutes 1, 2, 3 and a non-negative extension
    word count, [getDataset] on a file that ends before the last sample
    (the samples start at byte 1024 plus the extension word count) never
    returns a partial array.  When the array that the header announces
    can be allocated, or is refused for its size, it raises NumPy's
    ValueError, from [reshape] or from [np.fromfile], and prints
    nothing; when the allocation fails it prints that there is not
    enough memory and returns the dictionary without ['data']. *)
Theorem getDataset_truncated (enough : Z -> bool) c out s w' :
  fileMRC.parseHeader (rd 0 c out) = (Ok s, w') ->
  Forall (fun d => 1 <= d) (RawHeaderFields.dims c) ->
  Permutation (RawHeaderFields.axisOrder c) [1; 2; 3] ->
  np.prod (RawHeaderFields.dims c) < 2 ^ 63 ->
  0 <= RawHeaderFields.extensionWordCount c ->
  Z.of_nat (length c) <
    1024 + RawHeaderFields.extensionWordCount c
    + Z.of_nat (np.itemsize (fileMRC.dataType s)) * np.prod (RawHeaderFields.dims c) ->
  let nbytes := Z.of_nat (np.itemsize (fileMRC.dataType s))
                * np.prod (RawHeaderFields.dims c) in
  let r := fileMRC.getDataset_under enough s w' in
  if enough nbytes || (2 ^ 63 <=? nbytes)
  then fst r = Raise ValueError /\ stdout (snd r) = out
  else fst r = Ok (Build_dataOut (fileMRC.voxelSize s) (fileMRC.axisOrientations s)
                     (fileMRC.cellAngles s) (fileMRC.FEIinfo s) None) /\
       stdout (snd r) = out ++ ["Not enough memory to read in the full data set"%string].
Proof.
  intros H F P B X L nbytes r. subst nbytes r.
  rewrite (parseHeader_world _ _ _ _ H). apply parseHeader_inv in H.
  destruct (parsed_counts c out s H F P B) as (N & Fs & Ps & K & Q).
  pose proof (p_dataOffset _ _ _ H) as O.
  rewrite <- N.
  destruct (enough _) eqn:He; cbn [orb].
  - rewrite getDataset_under_enough by (try exact He; lia).
    split.
    + rewrite getDataset_run by lia. cbv zeta.
      rewrite reshape_known by assumption. rewrite Ps, N, O.
      set (n := np.prod (RawHeaderFields.dims c)) in *.
      set (x := RawHeaderFields.extensionWordCount c) in *.
      match goal with
      | |- context [length ?its] => assert (Lt : (length its < Z.to_nat n)%nat)
      end.
      { apply items_of_short. rewrite length_skipn.
        pose proof (itemsize_pos (fileMRC.dataType s)). nia. }
      destruct (Z.eqb_spec n (Z.of_nat (length
         (np.items_of (np.itemsize (fileMRC.dataType s)) (Z.to_nat n)
            (skipn (Z.to_nat (1024 + x)) c))))) as [E|_]; [lia | reflexivity].
    + assert (Ho : 0 <= fileMRC.dataOffset s) by lia.
      assert (Hn : 0 <= np.prod_int64 (fileMRC.dataSize s)) by lia.
      rewrite getDataset_eq.
      rewrite (bind_Ok _ _ _ _ _ (fid_seek_at _ _ _ _ Ho)).
      rewrite (bind_Ok _ _ _ _ _ (fromfile_at _ _ _ _ _ Hn)).
      unfold bind, lift. destruct (np.reshape_shape _ _); reflexivity.
  - rewrite getDataset_under_short by (try exact He; lia).
    destruct (2 ^ 63 <=? _); split; reflexivity.
Qed.

Lemma getDataset_truncated_witness :
  exists s w d,
    fileMRC.parseHeader (rd 0 file_456 []) = (Ok s, w) /\
    fst (fileMRC.getDataset_under (fun _ => true) s w) = Raise ValueError /\
    fst (fileMRC.getDataset_under (fun n => n <? 480) s w) = Ok d /\
    data d = None.
Proof.
  destruct (fileMRC.parseHeader (rd 0 file_456 [])) as [r w] eqn:E.
  assert (R : exists s, r = Ok s /\ fileMRC.dataType s = np.float32).
  { apply (f_equal fst) in E. cbn [fst] in E. rewrite <- E. vm_compute.
    eexists. split; reflexivity. }
  destruct R as (s & -> & T).
  assert (H1 : Forall (fun d => 1 <= d) (RawHeaderFields.dims file_456))
    by (vm_compute; repeat constructor; discriminate).
  assert (H2 : Permutation (RawHeaderFields.axisOrder file_456) [1; 2; 3])
    by (vm_compute; apply Permutation_refl).
  assert (H3 : np.prod (RawHeaderFields.dims file_456) < 2 ^ 63)
    by (vm_compute; reflexivity).
  assert (H4 : 0 <= RawHeaderFields.extensionWordCount file_456)
    by (vm_compute; discriminate).
  assert (H5 : Z.of_nat (length file_456) <
               1024 + RawHeaderFields.extensionWordCount file_456
               + Z.of_nat (np.itemsize (fileMRC.dataType s))
                 * np.prod (RawHeaderFields.dims file_456))
    by (rewrite T; vm_compute; reflexivity).
  pose proof (getDataset_truncated (fun _ => true) file_456 [] s w E H1 H2 H3 H4 H5) as A.
  pose proof (getDataset_truncated (fun n => n <? 480) file_456 [] s w E H1 H2 H3 H4 H5) as B.
  cbv zeta in A, B. rewrite T in B.
  change (Z.of_nat (np.itemsize np.float32) * np.prod (RawHeaderFields.dims file_456))
    with 480 in B.
  cbn [orb] in A. change ((480 <? 480) || (2 ^ 63 <=? 480)) with false in B.
  destruct A as [A _]. destruct B as [B _].
  eexists s, w, _. split; [reflexivity|]. split; [exact A|]. split; [exact B | reflexivity].
Defined.

(** X13. Under the same conditions, on a file that reaches the last
    sample [getDataset] returns an array of the decoded type and shape
    whose memory is the bytes of the file from byte 1024 plus the
    extension word count on, as many as the dimensions ask for: what
    follows them in the file is ignored, and so is the length of the
    extended header. *)
Theorem getDataset_samples c out s w' :
  fileMRC.parseHeader (rd 0 c out) = (Ok s, w') ->
  Forall (fun d => 1 <= d) (RawHeaderFields.dims c) ->
  Permutation (RawHeaderFields.axisOrder c) [1; 2; 3] ->
  np.prod (RawHeaderFields.dims c) < 2 ^ 63 ->
  0 <= RawHeaderFields.extensionWordCount c ->
  1024 + RawHeaderFields.extensionWordCount c
  + Z.of_nat (np.itemsize (fileMRC.dataType s)) * np.prod (RawHeaderFields.dims c)
  <= Z.of_nat (length c) ->
  exists d,
    fst (fileMRC.getDataset s w') = Ok d /\
    data d =
      Some {| np.dtype := fileMRC.dataType s; np.shape := fileMRC.Shape s;
              np.C_CONTIGUOUS := true;
              np.tobytes :=
                firstn (np.itemsize (fileMRC.dataType s)
                        * Z.to_nat (np.prod (RawHeaderFields.dims c)))
                       (skipn (Z.to_nat (1024 + RawHeaderFields.extensionWordCount c)) c) |}.
Proof.
  intros H F P B X L.
  rewrite (parseHeader_world _ _ _ _ H). apply parseHeader_inv in H.
  destruct (parsed_counts c out s H F P B) as (N & Fs & Ps & K & Q).
  pose proof (p_dataOffset _ _ _ H) as O.
  rewrite getDataset_run by lia. cbv zeta.
  rewrite reshape_known by assumption. rewrite Ps, N, O.
  set (n := np.prod (RawHeaderFields.dims c)) in *.
  set (x := RawHeaderFields.extensionWordCount c) in *.
  assert (Le : (np.itemsize (fileMRC.dataType s) * Z.to_nat n
                <= length (skipn (Z.to_nat (1024 + x)) c))%nat).
  { rewrite length_skipn. nia. }
  rewrite items_of_full by exact Le.
  rewrite Z2Nat.id, Z.eqb_refl by lia.
  eexists. split; [reflexivity|]. cbn [data].
  rewrite concat_items_prefix by exact Le. reflexivity.
Qed.

Lemma getDataset_samples_witness :
  exists s w d,
    fileMRC.parseHeader (rd 0 (file_456 ++ repeat Byte.x00 500) []) = (Ok s, w) /\
    fst (fileMRC.getDataset s w) = Ok d /\
    option_map np.tobytes (data d) = Some (repeat Byte.x00 480).
Proof.
  destruct (fileMRC.parseHeader (rd 0 (file_456 ++ repeat Byte.x00 500) [])) as [r w] eqn:E.
  assert (R : exists s, r = Ok s /\ fileMRC.dataType s = np.float32).
  { apply (f_equal fst) in E. cbn [fst] in E. rewrite <- E. vm_compute.
    eexists. split; reflexivity. }
  destruct R as (s & -> & T).
  destruct (getDataset_samples (file_456 ++ repeat Byte.x00 500) [] s w E)
    as (d & Hd & Hs).
  - vm_compute. repeat constructor; discriminate.
  - vm_compute. apply Permutation_refl.
  - vm_compute. reflexivity.
  - vm_compute. discriminate.
  - rewrite T. vm_compute. discriminate.
  - exists s, w, d. split; [reflexivity|]. split; [exact Hd|].
    rewrite Hs, T. vm_compute. reflexivity.
Defined.

(** ** [mrcWriter] and the file it finds *)

(** X14. [mrcWriter] opens its file for writing before it looks at its
    arguments: what the file held before the call, and whether it
    existed, has no influence on the result and on the file after the
    call, also when the call fails. *)
Theorem mrcWriter_overwrites (stack : np.ndarray) (pixelSize : list spec_float)
    (forceWrite : bool) (w1 w2 : world) :
  stdout w1 = stdout w2 ->
  mrcWriter stack pixelSize forceWrite w1 = mrcWriter stack pixelSize forceWrite w2.
Proof.
  intros H. unfold mrcWriter.
  rewrite (bind_Ok _ _ _ _ _ (open_wb_at w1)), (bind_Ok _ _ _ _ _ (open_wb_at w2)), H.
  reflexivity.
Qed.

Lemma mrcWriter_overwrites_witness :
  mrcWriter (float32_stack [1; 1; 2; 1] [1; 2]) [one64; one64; one64] false
            (world0 (Some file_456))
  = mrcWriter (float32_stack [1; 1; 2; 1] [1; 2]) [one64; one64; one64] false
              (world0 None) /\
  disk (snd (mrcWriter (float32_stack [1; 1; 2; 1] [1; 2]) [one64; one64; one64] false
                       (world0 (Some file_456)))) = Some [].
Proof.
  split.
  - apply (mrcWriter_overwrites (float32_stack [1; 1; 2; 1] [1; 2]) [one64; one64; one64]
             false (world0 (Some file_456)) (world0 None)).
    reflexivity.
  - reflexivity.
Defined.

(** ** A grid-size word equal to zero *)

(** X15. The guard of the division in [parseHeader] tests whether all
    three grid-size words are zero, not whether one is: for a header
    without extension whose grid size has a zero word and a non-zero
    word, and whose cell volume on the axis of the zero word is a finite
    non-zero number, the voxel size on that axis is infinite. *)
Theorem zero_grid_word_divides c out s w' (i : nat) sg m e :
  fileMRC.parseHeader (rd 0 c out) = (Ok s, w') ->
  RawHeaderFields.extensionWordCount c = 0 ->
  (i < 3)%nat ->
  nth i (RawHeaderFields.gridSize c) 1 = 0 ->
  (exists n, In n (RawHeaderFields.gridSize c) /\ n <> 0) ->
  nth i (RawHeaderFields.cellVolume c) S754_nan = S754_finite sg m e ->
  nth (2 - i) (fitems (fileMRC.voxelSize s)) S754_nan = S754_infinity sg.
Proof.
  intros H X Hi G (n & In_n & Nz) V. apply parseHeader_inv in H.
  pose proof (p_voxelSize _ _ _ H) as P. rewrite X in P. cbn [Z.eqb] in P.
  destruct P as [P _]. rewrite P, voxelSize0_quotient.
  - unfold RawHeaderFields.gridSize, RawHeaderFields.cellVolume in *.
    cbn [rev app combine map fst snd fitems].
    assert (D : Float.div Float.binary32 (S754_finite sg m e)
                  (Float.of_Z Float.binary32 0) = S754_infinity sg).
    { destruct sg; reflexivity. }
    destruct i as [|[|[|i]]]; [| | |lia]; cbn [nth Nat.sub] in *;
      rewrite G, V; exact D.
  - intros [F|F].
    + rewrite Forall_forall in F.
      assert (I : In (S754_finite sg m e) (RawHeaderFields.cellVolume c)).
      { rewrite <- V. apply nth_In. cbn [RawHeaderFields.cellVolume length]. exact Hi. }
      specialize (F _ I). discriminate F.
    + rewrite Forall_forall in F. exact (Nz (F n In_n)).
Qed.

Lemma zero_grid_word_divides_witness :
  exists s w,
    fileMRC.parseHeader
      (rd 0 (header_of [4; 5; 6] 2 [0; 5; 6] [f32 8; f32 10; f32 12]
                       [f32 90; f32 90; f32 90] [1; 2; 3] 0) []) = (Ok s, w) /\
    nth 2 (fitems (fileMRC.voxelSize s)) S754_nan = S754_infinity false.
Proof.
  set (c := header_of [4; 5; 6] 2 [0; 5; 6] [f32 8; f32 10; f32 12]
                      [f32 90; f32 90; f32 90] [1; 2; 3] 0).
  destruct (fileMRC.parseHeader (rd 0 c [])) as [r w] eqn:E.
  assert (R : exists s, r = Ok s).
  { apply (f_equal fst) in E. cbn [fst] in E. rewrite <- E. vm_compute.
    eexists. reflexivity. }
  destruct R as (s & ->). exists s, w. split; [reflexivity|].
  apply (zero_grid_word_divides c [] s w 0%nat false 8388608 (-20) E).
  - vm_compute. reflexivity.
  - lia.
  - vm_compute. reflexivity.
  - exists 5. split; [vm_compute; auto | discriminate].
  - vm_compute. reflexivity.
Defined.

(** ** A file that does not exist *)

(** X16. On a file that does not exist [mrcReader] does not return: the
    error of [open] is caught and printed by [__init__], and the
    exception comes later, from the first read of [parseHeader] on the
    missing file object.  Nothing else is printed and no file is
    created. *)
Theorem mrcReader_missing_file (out : list string) :
  let r := mrcReader {| stdout := out; disk := None; fid := None |} in
  (exists e, fst r = Raise e) /\
  stdout (snd r) = out ++ ["I/O error(2): No such file or directory"%string] /\
  disk (snd r) = None /\
  fid (snd r) = None.
Proof.
  cbv zeta. split; [eexists; reflexivity|]. repeat split.
Qed.

(** ** [mrcWriter]: the messages and the value 0 *)

Lemma silent_bind {A B} (m : M A) (k : A -> M B) :
  silent m -> (forall a, silent (k a)) -> silent (bind m k).
Proof.
  intros Hm Hk w. unfold bind. specialize (Hm w).
  destruct (m w) as [[a|e] w1]; cbn [snd] in *; [rewrite Hk|]; exact Hm.
Qed.

Lemma silent_lift {A} (r : result A) : silent (lift r).
Proof. intros w. reflexivity. Qed.

Lemma silent_raise {A} (e : exn) : silent (@raise A e).
Proof. intros w. reflexivity. Qed.

Lemma silent_open_wb : silent open_wb.
Proof. intros w. reflexivity. Qed.

Lemma silent_write bs : silent (fid_write bs).
Proof. intros w. unfold fid_write. destruct (the_file _ w) as [[p c]|e]; reflexivity. Qed.

Lemma silent_write_array a : silent (fid_write_array a).
Proof.
  unfold fid_write_array. destruct (np.C_CONTIGUOUS a);
    [apply silent_write | apply silent_raise].
Qed.

Lemma silent_seek n : silent (fid_seek n).
Proof.
  intros w. unfold fid_seek. destruct (the_file _ w) as [[p c]|e]; [|reflexivity].
  destruct (n <? 0); reflexivity.
Qed.

Lemma reports_bind {A} (m : M A) (k : A -> M Z) :
  silent m -> (forall a, reports (k a)) -> reports (bind m k).
Proof.
  intros Hm Hk w. unfold bind. specialize (Hm w).
  destruct (m w) as [[a|e] w1]; cbn [snd] in Hm.
  - rewrite <- Hm. apply Hk.
  - right. cbn [fst snd]. split; [discriminate | exact Hm].
Qed.

Lemma reports_print s : reports (print s ;;; ret 0).
Proof.
  intros w. left. split; [reflexivity|]. exists [s]. split; [discriminate | reflexivity].
Qed.

Lemma reports_print_print s1 s2 : reports (print s1 ;;; print s2 ;;; ret 0).
Proof.
  intros w. left. split; [reflexivity|]. exists [s1; s2]. split; [discriminate|].
  cbn. rewrite <- app_assoc. reflexivity.
Qed.

Lemma reports_close : reports (fid_close ;;; ret 1).
Proof.
  intros w. right. unfold bind, fid_close, ret.
  destruct (fid w); cbn [fst snd stdout]; split; (discriminate || reflexivity).
Qed.

Lemma reports_if (b : bool) (m1 m2 : M Z) :
  reports m1 -> reports m2 -> reports (if b then m1 else m2).
Proof. destruct b; auto. Qed.

Ltac reports_step :=
  match goal with
  | |- reports (print _ ;;; ret 0) => apply reports_print
  | |- reports (print _ ;;; print _ ;;; ret 0) => apply reports_print_print
  | |- reports (fid_close ;;; ret 1) => apply reports_close
  | |- reports (bind _ _) => apply reports_bind; [| intros ?]
  | |- reports (if _ then _ else _) => apply reports_if
  | |- reports (match ?x with _ => _ end) => destruct x
  | |- silent (fid_write _) => apply silent_write
  | |- silent (fid_write_array _) => apply silent_write_array
  | |- silent (fid_seek _) => apply silent_seek
  | |- silent (lift _) => apply silent_lift
  | |- silent open_wb => apply silent_open_wb
  | |- silent (if ?b then _ else _) => destruct b
  end.

(** X17. [mrcWriter] returns 0 exactly when it has printed a message:
    a call that returns 0 has added at least one line to the output, and
    a call that returns 1 or raises an exception has printed nothing. *)
Theorem mrcWriter_prints_iff_zero (stack : np.ndarray) (pixelSize : list spec_float)
    (forceWrite : bool) (w : world) :
  let r := mrcWriter stack pixelSize forceWrite w in
  (fst r = Ok 0 /\ exists l, l <> [] /\ stdout (snd r) = stdout w ++ l) \/
  (fst r <> Ok 0 /\ stdout (snd r) = stdout w).
Proof.
  cbv zeta. revert w.
  change (reports (mrcWriter stack pixelSize forceWrite)).
  unfold mrcWriter. repeat reports_step.
Qed.
